(** * TalkToData: the SQL safety validator, the database adapters, the adapter
    factory and the execute route, embedded from the TypeScript sources.

    Text is modelled as [string] over 8-bit code units.  Case mapping is the
    ASCII one; every comparison the code makes on case-mapped text is against
    an ASCII literal.  White space is the ASCII white space of ECMAScript plus
    U+00A0. *)

From Stdlib Require Import Ascii String List Bool Arith ZArith Lia.
From Stdlib Require Import Numbers.DecimalString.
From stdpp Require Import base gmap strings.

Import ListNotations.
Local Open Scope string_scope.
Local Open Scope bool_scope.

(* ===================================================================== *)
(** ** Characters and strings (the ECMAScript string methods in use)      *)
(* ===================================================================== *)

Module Js.

Definition char_code (c : ascii) : nat := nat_of_ascii c.

Definition between (lo hi : nat) (c : ascii) : bool :=
(lo <=? char_code c)%nat && (char_code c <=? hi)%nat.

Definition is_lower (c : ascii) : bool := between 97 122 c.
Definition is_upper (c : ascii) : bool := between 65 90 c.
Definition is_digit (c : ascii) : bool := between 48 57 c.

(** [\s], and the characters [trim] removes: TAB, LF, VT, FF, CR, SP, NBSP. *)
Definition is_space (c : ascii) : bool :=
between 9 13 c || (char_code c =? 32)%nat || (char_code c =? 160)%nat.

(** Line terminators: what [.] refuses and what [$] stops at under flag m. *)
Definition is_line_terminator (c : ascii) : bool :=
(char_code c =? 10)%nat || (char_code c =? 13)%nat.

(** [\w]: the characters on either side of which [\b] looks. *)
Definition is_word (c : ascii) : bool :=
is_lower c || is_upper c || is_digit c || (char_code c =? 95)%nat.

Definition upper_char (c : ascii) : ascii :=
if is_lower c then ascii_of_nat (char_code c - 32) else c.

Definition lower_char (c : ascii) : ascii :=
if is_upper c then ascii_of_nat (char_code c + 32) else c.

Fixpoint map_chars (f : ascii -> ascii) (s : string) : string :=
match s with
| EmptyString => EmptyString
| String c r => String (f c) (map_chars f r)
end.

Definition toUpperCase : string -> string := map_chars upper_char.
Definition toLowerCase : string -> string := map_chars lower_char.

Fixpoint dropWhile (p : ascii -> bool) (s : string) : string :=
match s with
| EmptyString => EmptyString
| String c r => if p c then dropWhile p r else s
end.

(** Removes the longest suffix all of whose characters satisfy [p]. *)
Fixpoint dropWhileEnd (p : ascii -> bool) (s : string) : string :=
match s with
| EmptyString => EmptyString
| String c r =>
    match dropWhileEnd p r with
    | EmptyString => if p c then EmptyString else String c EmptyString
    | r' => String c r'
    end
end.

Definition trimStart : string -> string := dropWhile is_space.
Definition trimEnd : string -> string := dropWhileEnd is_space.
Definition trim (s : string) : string := trimEnd (trimStart s).

(** [s.startsWith(p)] *)
Fixpoint startsWith (p s : string) : bool :=
match p, s with
| EmptyString, _ => true
| String a p', String b s' => Ascii.eqb a b && startsWith p' s'
| String _ _, EmptyString => false
end.

(** [s.includes(p)] *)
Fixpoint includes (p s : string) : bool :=
startsWith p s ||
match s with
| EmptyString => false
| String _ r => includes p r
end.

(** [parts.join(sep)] *)
Fixpoint join (sep : string) (parts : list string) : string :=
match parts with
| [] => ""
| [x] => x
| x :: rest => x ++ sep ++ join sep rest
end.

(** Template-literal rendering of an integer. *)
Definition number_to_string (z : Z) : string :=
NilZero.string_of_int (Z.to_int z).

End Js.

(* ===================================================================== *)
(** ** Regular expressions: the fragment the validator's patterns use      *)
(* ===================================================================== *)

Module RegExp.
Import Js.

(** In every pattern of the sources a quantifier applies to a character class,
  so repetition is kept on classes.  Only [test] is used, for which a lazy
  and a greedy quantifier accept the same inputs. *)
Inductive regex : Type :=
| Lit (text : string)               (* literal characters *)
| Cls (p : ascii -> bool)           (* one character of a class *)
| Star (p : ascii -> bool)          (* class*, class*? *)
| Plus (p : ascii -> bool)          (* class+ *)
| Opt (r : regex)                   (* (?:r)? *)
| Alt (r1 r2 : regex)               (* r1|r2 *)
| Seq (r1 r2 : regex)               (* r1r2 *)
| WordBoundary                      (* \b *)
| EndOfLine.                        (* $ under flag m *)

Record flags : Type := { ignoreCase : bool }.

Definition char_eq (fl : flags) (a b : ascii) : bool :=
if ignoreCase fl then Ascii.eqb (upper_char a) (upper_char b)
else Ascii.eqb a b.

Definition is_word_opt (c : option ascii) : bool :=
match c with Some x => is_word x | None => false end.

Definition head (s : string) : option ascii :=
match s with EmptyString => None | String c _ => Some c end.

(** [\b] holds between [prev] and the rest [s] when exactly one side is a word
  character. *)
Definition at_word_boundary (prev : option ascii) (s : string) : bool :=
xorb (is_word_opt prev) (is_word_opt (head s)).

Definition at_end_of_line (s : string) : bool :=
match s with
| EmptyString => true
| String c _ => is_line_terminator c
end.

Section Matcher.
Variable fl : flags.

(** Matches [text] at the head of [s]; gives the last character consumed
  and the rest. *)
Fixpoint match_lit (text : string) (prev : option ascii) (s : string)
: option (option ascii * string) :=
match text with
| EmptyString => Some (prev, s)
| String a text' =>
    match s with
    | String b s' =>
        if char_eq fl a b then match_lit text' (Some b) s' else None
    | EmptyString => None
    end
end.

Fixpoint match_star (p : ascii -> bool) (prev : option ascii) (s : string)
  (k : option ascii -> string -> bool) : bool :=
k prev s ||
match s with
| String c s' => p c && match_star p (Some c) s' k
| EmptyString => false
end.

(** Backtracking matcher in continuation-passing style: [k] receives the
  character before the current position and the unread input. *)
Fixpoint match_at (r : regex) (prev : option ascii) (s : string)
  (k : option ascii -> string -> bool) : bool :=
match r with
| Lit text =>
    match match_lit text prev s with
    | Some (prev', s') => k prev' s'
    | None => false
    end
| Cls p =>
    match s with
    | String c s' => p c && k (Some c) s'
    | EmptyString => false
    end
| Star p => match_star p prev s k
| Plus p =>
    match s with
    | String c s' => p c && match_star p (Some c) s' k
    | EmptyString => false
    end
| Opt r1 => match_at r1 prev s k || k prev s
| Alt r1 r2 => match_at r1 prev s k || match_at r2 prev s k
| Seq r1 r2 => match_at r1 prev s (fun prev' s' => match_at r2 prev' s' k)
| WordBoundary => at_word_boundary prev s && k prev s
| EndOfLine => at_end_of_line s && k prev s
end.

Definition accept (_ : option ascii) (_ : string) : bool := true.

Fixpoint search (r : regex) (prev : option ascii) (s : string) : bool :=
match_at r prev s accept ||
match s with
| String c s' => search r (Some c) s'
| EmptyString => false
end.
End Matcher.

Record RegExp : Type := { source : regex; regex_flags : flags }.

(** [pattern.test(s)] for a pattern without the g and y flags. *)
Definition test (re : RegExp) (s : string) : bool :=
search (regex_flags re) (source re) None s.

Definition re_i (r : regex) : RegExp :=
{| source := r; regex_flags := {| ignoreCase := true |} |}.
Definition re_plain (r : regex) : RegExp :=
{| source := r; regex_flags := {| ignoreCase := false |} |}.

Definition any_char (_ : ascii) : bool := true.           (* [\s\S] *)
Definition dot (c : ascii) : bool := negb (is_line_terminator c).  (* . *)

End RegExp.

(* ===================================================================== *)
(** ** Errors (lib/utils/errors.ts)                                       *)
(* ===================================================================== *)

Inductive ErrorCode_t : Type :=
  | CONNECTION_FAILED | QUERY_TIMEOUT | INVALID_SQL | DANGEROUS_QUERY
  | LLM_ERROR | NO_CONNECTION | VALIDATION_ERROR | UNKNOWN.

(** A thrown value is an [AppError], some other [Error] (a driver error, a
    [SyntaxError], a schema-parse error), or a value that is no [Error]. *)
Inductive AppError : Type :=
  | mkAppError (message : string) (code : ErrorCode_t) (details : ErrorDetails)
with ErrorDetails : Type :=
  | NoDetails
  | KeywordDetails (keyword : string)        (* { keyword } *)
  | OriginalError (error : Thrown)           (* { originalError: error } *)
with Thrown : Type :=
  | AppErr (e : AppError)
  | JsError (name text : string)
  | NonError.

Definition message (e : AppError) : string :=
  match e with mkAppError m _ _ => m end.
Definition code (e : AppError) : ErrorCode_t :=
  match e with mkAppError _ c _ => c end.
Definition details (e : AppError) : ErrorDetails :=
  match e with mkAppError _ _ d => d end.

(** [new AppError(message, code)] *)
Definition newAppError (m : string) (c : ErrorCode_t) : Thrown :=
  AppErr (mkAppError m c NoDetails).

(** [error instanceof Error ? error.message : fallback] *)
Definition message_or (fallback : string) (error : Thrown) : string :=
  match error with
  | AppErr e => message e
  | JsError _ text => text
  | NonError => fallback
  end.

Inductive outcome (A : Type) : Type :=
  | Returns (a : A)
  | Throws (e : Thrown).
Arguments Returns {A} a.
Arguments Throws {A} e.

(* ===================================================================== *)
(** ** SQL validation (lib/validators/sql.ts)                             *)
(* ===================================================================== *)

Module Validators.
Import Js RegExp.

Definition DANGEROUS_KEYWORDS : list string :=
[ "INSERT"; "UPDATE"; "DELETE"; "DROP"; "CREATE"; "ALTER"; "TRUNCATE";
  "GRANT"; "REVOKE"; "EXECUTE"; "EXEC"; "CALL"; "INTO" ].

Definition statement_keywords : regex :=
Alt (Lit "INSERT") (Alt (Lit "UPDATE") (Alt (Lit "DELETE") (Alt (Lit "DROP")
(Alt (Lit "CREATE") (Alt (Lit "ALTER") (Lit "TRUNCATE")))))).

Definition INJECTION_PATTERNS : list RegExp :=
[ (* /;\s*(?:INSERT|UPDATE|DELETE|DROP|CREATE|ALTER|TRUNCATE)/i *)
  re_i (Seq (Lit ";") (Seq (Star is_space) statement_keywords));
  (* /--.*$/m *)
  re_plain (Seq (Lit "--") (Seq (Star dot) EndOfLine));
  (* /\/\*[\s\S]*?\*\// *)
  re_plain (Seq (Lit "/*") (Seq (Star any_char) (Lit "*/")));
  (* /UNION\s+(?:ALL\s+)?SELECT/i *)
  re_i (Seq (Lit "UNION") (Seq (Plus is_space)
       (Seq (Opt (Seq (Lit "ALL") (Plus is_space))) (Lit "SELECT")))) ].

(** [new RegExp(`\\b${keyword}\\b`, 'i')] *)
Definition keyword_pattern (keyword : string) : RegExp :=
re_i (Seq WordBoundary (Seq (Lit keyword) WordBoundary)).

Definition validateSql (sql : string) : outcome unit :=
let normalizedSql := toUpperCase (trim sql) in
if negb (startsWith "SELECT" normalizedSql) &&
   negb (startsWith "WITH" normalizedSql)
then Throws (newAppError
               "Only SELECT queries are allowed for security reasons."
               DANGEROUS_QUERY)
else
  match find (fun keyword => test (keyword_pattern keyword) sql)
             DANGEROUS_KEYWORDS with
  | Some keyword =>
      Throws (AppErr (mkAppError
                ("Query contains forbidden keyword: " ++ keyword ++
                 ". Only SELECT queries are allowed.")
                DANGEROUS_QUERY (KeywordDetails keyword)))
  | None =>
      match find (fun pattern => test pattern sql) INJECTION_PATTERNS with
      | Some _ =>
          Throws (newAppError
                    "Query contains potentially dangerous patterns."
                    DANGEROUS_QUERY)
      | None => Returns tt
      end
  end.

(** [.replace(/;+$/, '')]: the leftmost match of [;+$] is the whole trailing
  run of semicolons, which is removed. *)
Definition is_semicolon (c : ascii) : bool := Ascii.eqb c ";".
Definition strip_trailing_semicolons : string -> string :=
dropWhileEnd is_semicolon.

(** [.replace(/\s+/g, ' ')]: each maximal run of white space becomes one
  space; [in_run] tells that the previous character was white space. *)
Fixpoint collapse_from (in_run : bool) (s : string) : string :=
match s with
| EmptyString => EmptyString
| String c r =>
    if is_space c
    then if in_run then collapse_from true r
         else String " " (collapse_from true r)
    else String c (collapse_from false r)
end.
Definition collapse_whitespace : string -> string := collapse_from false.

Definition sanitizeSql (sql : string) : string :=
collapse_whitespace (strip_trailing_semicolons (trim sql)).

End Validators.


(* ===================================================================== *)
(** ** Control flow: state, exceptions, try/catch and try/finally         *)
(* ===================================================================== *)

(** A computation over a store [S] returns or throws, and leaves a store
    either way. *)
Definition M (S A : Type) : Type := S -> outcome A * S.

Section Control.
Context {S : Type}.

Definition ret {A} (a : A) : M S A := fun s => (Returns a, s).

Definition bind {A B} (m : M S A) (f : A -> M S B) : M S B :=
  fun s =>
    match m s with
    | (Returns a, s') => f a s'
    | (Throws e, s') => (Throws e, s')
    end.

Definition throw {A} (e : Thrown) : M S A := fun s => (Throws e, s).

Definition get : M S S := fun s => (Returns s, s).
Definition modify (f : S -> S) : M S unit := fun s => (Returns tt, f s).

(** [try { body } catch (error) { handler }] *)
Definition try_catch {A} (body : M S A) (handler : Thrown -> M S A) : M S A :=
  fun s =>
    match body s with
    | (Returns a, s') => (Returns a, s')
    | (Throws e, s') => handler e s'
    end.

(** [try { body } finally { cleanup }]: [cleanup] runs on either exit of
    [body]; when it throws, its exception is the statement's. *)
Definition try_finally {A} (body : M S A) (cleanup : M S unit) : M S A :=
  fun s =>
    match body s with
    | (r, s') =>
        match cleanup s' with
        | (Returns _, s'') => (r, s'')
        | (Throws e, s'') => (Throws e, s'')
        end
    end.

(** [outcome] of a pure, possibly throwing call. *)
Definition lift_outcome {A} (r : outcome A) : M S A := fun s => (r, s).
End Control.

#[global] Instance M_ret {S} : MRet (M S) := fun A a => ret a.
#[global] Instance M_bind {S} : MBind (M S) := fun A B f m => bind m f.

(* ===================================================================== *)
(** ** Data model (types/database.ts, lib/utils/constants.ts)             *)
(* ===================================================================== *)

Definition QUERY_MAX_ROWS : Z := 1000.

Definition SUPPORTED_DATABASE_TYPES : list string :=
  [ "postgresql"; "mysql"; "sqlite"; "sqlserver"; "mongodb" ].

Module ConnectionConfig_t.
Record t : Type := mk {
  type : string;
  host : string;
  port : N;
  database : string;
  username : string;
  password : string;
  ssl : option bool
}.
End ConnectionConfig_t.

Module Column_t.
(** [defaultValue] and [isPrimaryKey] are optional; a default can be null. *)
Record t : Type := mk {
  name : string;
  dataType : string;
  nullable : bool;
  defaultValue : option (option string);
  isPrimaryKey : option bool
}.
End Column_t.

Module Table_t.
Record t : Type := mk {
  name : string;
  schema : option string;
  columns : list Column_t.t;
  rowCount : option Z
}.
End Table_t.

Module Schema_t.
Record t : Type := mk { tables : list Table_t.t }.
End Schema_t.

(** A cell of a result row. *)
Inductive Value : Type :=
  | VNull
  | VBool (b : bool)
  | VNumber (z : Z)
  | VString (s : string)
  | VObject (fields : list string)
  | VUndefined.

(** A result row, [Record<string, unknown>], in key insertion order. *)
Definition Row : Type := list (string * Value).

(** [obj[key] = v] *)
Fixpoint object_set (key : string) (v : Value) (obj : Row) : Row :=
  match obj with
  | [] => [(key, v)]
  | (k, old) :: rest =>
      if String.eqb k key then (k, v) :: rest
      else (k, old) :: object_set key v rest
  end.

Module ColumnInfo_t.
Record t : Type := mk { name : string; dataType : string }.
End ColumnInfo_t.

Module QueryResult_t.
Record t : Type := mk {
  columns : list ColumnInfo_t.t;
  rows : list Row;
  rowCount : nat;
  executionTimeMs : Z
}.
End QueryResult_t.

(* ===================================================================== *)
(** ** The runtime an adapter instance lives in                           *)
(* ===================================================================== *)

(** What an adapter asks of its driver.  The catalogue statements of
    [getSchema] are kept by role, a user statement by its text. *)
Inductive Request : Type :=
  | ReqPing                                   (* SELECT 1, { ping: 1 } *)
  | ReqTables (database : option string)      (* tablesQuery *)
  | ReqColumns (database : option string)     (* columnsQuery *)
  | ReqTableInfo (table : string)             (* PRAGMA table_info(..) *)
  | ReqCount (table : string)                 (* COUNT( * ), countDocuments *)
  | ReqListCollections
  | ReqFindOne (collection : string)
  | ReqStatement (sql : string) (params : option (list Value))
  | ReqEnd.                                   (* pool.end, close *)

(** A Schema object: [oid] is its identity, fixed when the object literal
    is evaluated; the object is never mutated afterwards. *)
Record SchemaObject : Type := mkSchemaObject {
  oid : nat;
  value : Schema_t.t
}.

(** [wire] is the history of driver requests, [next_oid] the allocator of
    object identities, [this] the fields of the adapter instance. *)
Record Runtime (T : Type) : Type := mkRuntime {
  wire : list Request;
  next_oid : nat;
  this : T
}.
Arguments mkRuntime {T} _ _ _.
Arguments wire {T} _.
Arguments next_oid {T} _.
Arguments this {T} _.

Section RuntimeOps.
Context {T : Type}.

(** A driver call: the request goes on the wire and the backend, which sees
    the whole history, answers or rejects. *)
Definition call {A} (r : Request) (answer : list Request -> outcome A)
  : M (Runtime T) A :=
  fun st =>
    let w := (wire st ++ [r])%list in
    (answer w, mkRuntime w (next_oid st) (this st)).

(** [Date.now()], a reading of the backend's clock at this point. *)
Definition Date_now (clock : list Request -> Z) : M (Runtime T) Z :=
  fun st => (Returns (clock (wire st)), st).

(** Evaluation of the object literal [{ tables }]. *)
Definition new_schema (tables : list Table_t.t) : M (Runtime T) SchemaObject :=
  fun st =>
    (Returns (mkSchemaObject (next_oid st) (Schema_t.mk tables)),
     mkRuntime (wire st) (S (next_oid st)) (this st)).

Definition get_this : M (Runtime T) T := fun st => (Returns (this st), st).
Definition set_this (f : T -> T) : M (Runtime T) unit :=
  fun st => (Returns tt, mkRuntime (wire st) (next_oid st) (f (this st))).
End RuntimeOps.

Definition LF : string := String (ascii_of_nat 10) "".

(** [items.map(f)] for an [f] that awaits: the calls run in order. *)
Fixpoint mapM {S A B} (f : A -> M S B) (items : list A) : M S (list B) :=
  match items with
  | [] => mret []
  | x :: rest => y ← f x; ys ← mapM f rest; mret (y :: ys)
  end.

(** A promise left to settle: its rejection is kept as a value. *)
Definition settle {S A} (m : M S A) : M S (outcome A) :=
  try_catch (x ← m; mret (Returns x)) (fun error => mret (Throws error)).

Definition not_connected : Thrown :=
  newAppError "Not connected to database" NO_CONNECTION.

(** The [catch] clause of every [executeQuery]. *)
Definition as_invalid_sql (error : Thrown) : Thrown :=
  AppErr (mkAppError (message_or "Query execution failed" error)
                     INVALID_SQL (OriginalError error)).

(** The column line of the relational [getSchemaContext]. *)
Definition colStr (col : Column_t.t) : string :=
  let colStr := "  " ++ Column_t.name col ++ " " ++ Column_t.dataType col in
  let colStr :=
    match Column_t.isPrimaryKey col with
    | Some true => colStr ++ " PRIMARY KEY"
    | _ => colStr
    end in
  if negb (Column_t.nullable col) then colStr ++ " NOT NULL" else colStr.

(** The adapter interface (lib/db/types.ts) over a store [S]. *)
Module DatabaseAdapter_t.
Record t (S : Type) : Type := mk {
  type : string;
  connect : ConnectionConfig_t.t -> M S unit;
  disconnect : M S unit;
  testConnection : M S bool;
  getSchema : M S SchemaObject;
  executeQuery : string -> option (list Value) -> M S QueryResult_t.t;
  getSchemaContext : M S string
}.
Arguments type {S} _.
Arguments connect {S} _ _.
Arguments disconnect {S} _.
Arguments testConnection {S} _.
Arguments getSchema {S} _.
Arguments executeQuery {S} _ _ _.
Arguments getSchemaContext {S} _.
End DatabaseAdapter_t.

(* ===================================================================== *)
(** ** MySQL adapter (lib/db/mysql.ts)                                    *)
(* ===================================================================== *)

Module MySQLAdapter.
Import Js.

Definition type : string := "mysql".

(** [mysql.createPool({...})]: a handle; no connection is made yet. *)
Inductive Pool : Type := createPool (options : ConnectionConfig_t.t).

Record fields : Type := mk {
  pool : option Pool;
  config : option ConnectionConfig_t.t;
  schema : option SchemaObject
}.

(** [new MySQLAdapter()] *)
Definition new : fields := mk None None None.

Module TablesRow.
Record t : Type := mk { table_name : string; row_count : option Z }.
End TablesRow.

Module ColumnsRow.
Record t : Type := mk {
  table_name : string;
  column_name : string;
  data_type : string;
  is_nullable : string;
  column_default : option string;
  column_key : string
}.
End ColumnsRow.

Module FieldPacket.
Record t : Type := mk { name : string; type : option nat }.
End FieldPacket.

(** The server behind the pool: each answer may depend on the history. *)
Record Server : Type := {
  select1 : list Request -> outcome unit;
  tables : list Request -> outcome (list TablesRow.t);
  columns : list Request -> outcome (list ColumnsRow.t);
  statement : list Request -> outcome (list Row * list FieldPacket.t);
  pool_end : list Request -> outcome unit;
  clock : list Request -> Z
}.

Definition getDataTypeName (typeId : option nat) : string :=
  match default 253%nat typeId with
  | 0 => "decimal" | 1 => "tinyint" | 2 => "smallint" | 3 => "int"
  | 4 => "float" | 5 => "double" | 6 => "null" | 7 => "timestamp"
  | 8 => "bigint" | 9 => "mediumint" | 10 => "date" | 11 => "time"
  | 12 => "datetime" | 13 => "year" | 14 => "date" | 15 => "varchar"
  | 16 => "bit" | 245 => "json" | 246 => "decimal" | 252 => "blob"
  | 253 => "varchar" | 254 => "char" | 255 => "geometry"
  | _ => "unknown"
  end%nat.

(** The statement [executeQuery] hands to the pool. *)
Definition finalSql (sql : string) : string :=
  let finalSql := trim sql in
  let isSelect := startsWith "select" (toLowerCase finalSql) in
  if isSelect && negb (includes "limit" (toLowerCase finalSql))
  then finalSql ++ " LIMIT " ++ number_to_string QUERY_MAX_ROWS
  else finalSql.

Definition to_column (col : ColumnsRow.t) : Column_t.t :=
  Column_t.mk (ColumnsRow.column_name col)
              (ColumnsRow.data_type col)
              (String.eqb (ColumnsRow.is_nullable col) "YES")
              (Some (ColumnsRow.column_default col))
              (Some (String.eqb (ColumnsRow.column_key col) "PRI")).

(** [row.row_count ? parseInt(row.row_count, 10) : undefined] on a number *)
Definition to_rowCount (row_count : option Z) : option Z :=
  match row_count with
  | Some n => if (n =? 0)%Z then None else Some n
  | None => None
  end.

Definition to_table (columnsResult : list ColumnsRow.t) (row : TablesRow.t)
  : Table_t.t :=
  let tableColumns :=
    List.map to_column
      (List.filter
         (fun col => String.eqb (ColumnsRow.table_name col)
                                (TablesRow.table_name row))
         columnsResult) in
  Table_t.mk (TablesRow.table_name row) None tableColumns
             (to_rowCount (TablesRow.row_count row)).

Section Methods.
Variable server : Server.

Definition testConnection : M (Runtime fields) bool :=
  self ← get_this;
  match pool self with
  | None => mret false
  | Some _ =>
      try_catch (call ReqPing (select1 server);; mret true)
                (fun _ => mret false)
  end.

Definition connect (cfg : ConnectionConfig_t.t) : M (Runtime fields) unit :=
  set_this (fun self => mk (pool self) (Some cfg) (schema self));;
  set_this (fun self => mk (Some (createPool cfg)) (config self) (schema self));;
  connected ← testConnection;
  if negb connected
  then throw (newAppError "Failed to connect to MySQL database"
                          CONNECTION_FAILED)
  else mret tt.

Definition disconnect : M (Runtime fields) unit :=
  self ← get_this;
  match pool self with
  | Some _ =>
      call ReqEnd (pool_end server);;
      set_this (fun self => mk None (config self) (schema self))
  | None => mret tt
  end;;
  set_this (fun self => mk (pool self) (config self) None).

Definition getSchema : M (Runtime fields) SchemaObject :=
  self ← get_this;
  match schema self with
  | Some cached => mret cached
  | None =>
      match pool self, config self with
      | Some _, Some cfg =>
          let database := ConnectionConfig_t.database cfg in
          tablesResult ← call (ReqTables (Some database)) (tables server);
          columnsResult ← call (ReqColumns (Some database)) (columns server);
          fresh ← new_schema (List.map (to_table columnsResult) tablesResult);
          set_this (fun self => mk (pool self) (config self) (Some fresh));;
          mret fresh
      | _, _ => throw not_connected
      end
  end.

Definition executeQuery (sql : string) (params : option (list Value))
  : M (Runtime fields) QueryResult_t.t :=
  self ← get_this;
  match pool self with
  | None => throw not_connected
  | Some _ =>
      startTime ← Date_now (clock server);
      try_catch
        (let finalSql := finalSql sql in
         '(rows, fields) ← call (ReqStatement finalSql params)
                                (statement server);
         endTime ← Date_now (clock server);
         let columns :=
           List.map (fun field =>
                       ColumnInfo_t.mk (FieldPacket.name field)
                         (getDataTypeName (FieldPacket.type field)))
                    fields in
         mret (QueryResult_t.mk columns rows (length rows)
                                (endTime - startTime)%Z))
        (fun error => throw (as_invalid_sql error))
  end.

Definition getSchemaContext : M (Runtime fields) string :=
  schema ← getSchema;
  mret (join (LF ++ LF)
          (List.map
             (fun table =>
                let columnsStr :=
                  join LF (List.map colStr (Table_t.columns table)) in
                "Table: " ++ Table_t.name table ++ LF ++ columnsStr)
             (Schema_t.tables (value schema)))).

(** [class MySQLAdapter implements DatabaseAdapter_t] *)
Definition implementation : DatabaseAdapter_t.t (Runtime fields) :=
  DatabaseAdapter_t.mk _ type connect disconnect testConnection getSchema
                       executeQuery getSchemaContext.
End Methods.
End MySQLAdapter.

(* ===================================================================== *)
(** ** PostgreSQL adapter (lib/db/postgres.ts)                            *)
(* ===================================================================== *)

Module PostgresAdapter.
Import Js.

Definition type : string := "postgresql".

Inductive Pool : Type := newPool (options : ConnectionConfig_t.t).

Record fields : Type := mk {
  pool : option Pool;
  config : option ConnectionConfig_t.t;
  schema : option SchemaObject
}.

Definition new : fields := mk None None None.

Module TablesRow.
(** [row_count] is a bigint, delivered as decimal text. *)
Record t : Type := mk {
  table_schema : string;
  table_name : string;
  row_count : option Z
}.
End TablesRow.

Module ColumnsRow.
Record t : Type := mk {
  table_schema : string;
  table_name : string;
  column_name : string;
  data_type : string;
  is_nullable : string;
  column_default : option string;
  is_primary_key : bool
}.
End ColumnsRow.

Module FieldDef.
Record t : Type := mk { name : string; dataTypeID : nat }.
End FieldDef.

Record Server : Type := {
  select1 : list Request -> outcome unit;
  tables : list Request -> outcome (list TablesRow.t);
  columns : list Request -> outcome (list ColumnsRow.t);
  statement : list Request -> outcome (list FieldDef.t * list (list Value));
  pool_end : list Request -> outcome unit;
  clock : list Request -> Z
}.

Definition getDataTypeName (oid : nat) : string :=
  match oid with
  | 16 => "boolean" | 20 => "bigint" | 21 => "smallint" | 23 => "integer"
  | 25 => "text" | 700 => "real" | 701 => "double precision"
  | 1043 => "varchar" | 1082 => "date" | 1114 => "timestamp"
  | 1184 => "timestamptz" | 2950 => "uuid" | 3802 => "jsonb"
  | 114 => "json"
  | _ => "unknown"
  end%nat.

Definition finalSql (sql : string) : string :=
  let finalSql := trim sql in
  let isSelect := startsWith "select" (toLowerCase finalSql) in
  if isSelect && negb (includes "limit" (toLowerCase finalSql))
  then finalSql ++ " LIMIT " ++ number_to_string QUERY_MAX_ROWS
  else finalSql.

Definition to_column (col : ColumnsRow.t) : Column_t.t :=
  Column_t.mk (ColumnsRow.column_name col)
              (ColumnsRow.data_type col)
              (String.eqb (ColumnsRow.is_nullable col) "YES")
              (Some (ColumnsRow.column_default col))
              (Some (ColumnsRow.is_primary_key col)).

Definition to_table (columnsResult : list ColumnsRow.t) (row : TablesRow.t)
  : Table_t.t :=
  let tableColumns :=
    List.map to_column
      (List.filter
         (fun col =>
            String.eqb (ColumnsRow.table_schema col)
                       (TablesRow.table_schema row) &&
            String.eqb (ColumnsRow.table_name col)
                       (TablesRow.table_name row))
         columnsResult) in
  Table_t.mk (TablesRow.table_name row)
             (Some (TablesRow.table_schema row))
             tableColumns
             (TablesRow.row_count row).

(** One result row, from array form to an object keyed by column name. *)
Fixpoint to_object (index : nat) (columns : list ColumnInfo_t.t)
    (row : list Value) (obj : Row) : Row :=
  match columns with
  | [] => obj
  | column :: rest =>
      to_object (S index) rest row
        (object_set (ColumnInfo_t.name column)
                    (nth index row VUndefined) obj)
  end.

Section Methods.
Variable server : Server.

Definition disconnect : M (Runtime fields) unit :=
  self ← get_this;
  match pool self with
  | Some _ =>
      call ReqEnd (pool_end server);;
      set_this (fun self => mk None (config self) (schema self))
  | None => mret tt
  end;;
  set_this (fun self => mk (pool self) (config self) None).

(** [Promise.all] of the two catalogue statements: both are sent before
    either is awaited; when both reject, the first one's error is kept. *)
Definition getSchema : M (Runtime fields) SchemaObject :=
  self ← get_this;
  match schema self with
  | Some cached => mret cached
  | None =>
      match pool self with
      | Some _ =>
          tablesAnswer ← settle (call (ReqTables None) (tables server));
          columnsAnswer ← settle (call (ReqColumns None) (columns server));
          tablesResult ← lift_outcome tablesAnswer;
          columnsResult ← lift_outcome columnsAnswer;
          fresh ← new_schema (List.map (to_table columnsResult) tablesResult);
          set_this (fun self => mk (pool self) (config self) (Some fresh));;
          mret fresh
      | None => throw not_connected
      end
  end.

Definition executeQuery (sql : string) (params : option (list Value))
  : M (Runtime fields) QueryResult_t.t :=
  self ← get_this;
  match pool self with
  | None => throw not_connected
  | Some _ =>
      startTime ← Date_now (clock server);
      try_catch
        (let finalSql := finalSql sql in
         '(fields, arrays) ← call (ReqStatement finalSql params)
                                  (statement server);
         endTime ← Date_now (clock server);
         let columns :=
           List.map (fun field =>
                       ColumnInfo_t.mk (FieldDef.name field)
                         (getDataTypeName (FieldDef.dataTypeID field)))
                    fields in
         let rows := List.map (fun row => to_object 0 columns row []) arrays in
         mret (QueryResult_t.mk columns rows (length rows)
                                (endTime - startTime)%Z))
        (fun error => throw (as_invalid_sql error))
  end.

Definition getSchemaContext : M (Runtime fields) string :=
  schema ← getSchema;
  mret (join (LF ++ LF)
          (List.map
             (fun table =>
                let columnsStr :=
                  join LF (List.map colStr (Table_t.columns table)) in
                let schemaPrefix :=
                  match Table_t.schema table with
                  | Some ns =>
                      if negb (String.eqb ns "") &&
                         negb (String.eqb ns "public")
                      then ns ++ "."
                      else ""
                  | None => ""
                  end in
                "Table: " ++ schemaPrefix ++ Table_t.name table ++ LF
                  ++ columnsStr)
             (Schema_t.tables (value schema)))).
End Methods.
End PostgresAdapter.

(* ===================================================================== *)
(** ** SQLite adapter (lib/db/sqlite.ts)                                  *)
(* ===================================================================== *)

Module SQLiteAdapter.
Import Js.

Definition type : string := "sqlite".

Inductive Database : Type := openDatabase (filePath : string).

Record fields : Type := mk {
  db : option Database;
  schema : option SchemaObject
}.

Definition new : fields := mk None None.

Module TableInfoRow.
Record t : Type := mk {
  cid : Z;
  name : string;
  type : string;
  notnull : Z;
  dflt_value : option string;
  pk : Z
}.
End TableInfoRow.

Record Server : Type := {
  select1 : list Request -> outcome unit;
  tables : list Request -> outcome (list string);
  table_info : list Request -> outcome (list TableInfoRow.t);
  count : list Request -> outcome Z;
  statement : list Request -> outcome (list Row * list string);
  close : list Request -> outcome unit;
  clock : list Request -> Z
}.

Definition finalSql (sql : string) : string :=
  let finalSql := trim sql in
  let isSelect := startsWith "select" (toLowerCase finalSql) in
  if isSelect && negb (includes "limit" (toLowerCase finalSql))
  then finalSql ++ " LIMIT " ++ number_to_string QUERY_MAX_ROWS
  else finalSql.

Definition to_column (col : TableInfoRow.t) : Column_t.t :=
  Column_t.mk (TableInfoRow.name col)
              (if String.eqb (TableInfoRow.type col) "" then "TEXT"
               else TableInfoRow.type col)
              (TableInfoRow.notnull col =? 0)%Z
              (Some (TableInfoRow.dflt_value col))
              (Some (TableInfoRow.pk col =? 1)%Z).

Section Methods.
Variable server : Server.

Definition disconnect : M (Runtime fields) unit :=
  self ← get_this;
  match db self with
  | Some _ =>
      call ReqEnd (close server);;
      set_this (fun self => mk None (schema self))
  | None => mret tt
  end;;
  set_this (fun self => mk (db self) None).

Definition getSchema : M (Runtime fields) SchemaObject :=
  self ← get_this;
  match schema self with
  | Some cached => mret cached
  | None =>
      match db self with
      | Some _ =>
          tablesResult ← call (ReqTables None) (tables server);
          tables ← mapM
            (fun table_name =>
               columnsResult ← call (ReqTableInfo table_name)
                                    (table_info server);
               countResult ← call (ReqCount table_name) (count server);
               mret (Table_t.mk table_name None
                       (List.map to_column columnsResult)
                       (Some countResult)))
            tablesResult;
          fresh ← new_schema tables;
          set_this (fun self => mk (db self) (Some fresh));;
          mret fresh
      | None => throw not_connected
      end
  end.

Definition executeQuery (sql : string) (params : option (list Value))
  : M (Runtime fields) QueryResult_t.t :=
  self ← get_this;
  match db self with
  | None => throw not_connected
  | Some _ =>
      startTime ← Date_now (clock server);
      try_catch
        (let finalSql := finalSql sql in
         '(rows, columnNames) ← call (ReqStatement finalSql params)
                                     (statement server);
         endTime ← Date_now (clock server);
         let columns :=
           List.map (fun name => ColumnInfo_t.mk name "TEXT") columnNames in
         mret (QueryResult_t.mk columns rows (length rows)
                                (endTime - startTime)%Z))
        (fun error => throw (as_invalid_sql error))
  end.

Definition getSchemaContext : M (Runtime fields) string :=
  schema ← getSchema;
  mret (join (LF ++ LF)
          (List.map
             (fun table =>
                let columnsStr :=
                  join LF (List.map colStr (Table_t.columns table)) in
                "Table: " ++ Table_t.name table ++ LF ++ columnsStr)
             (Schema_t.tables (value schema)))).
End Methods.
End SQLiteAdapter.

(* ===================================================================== *)
(** ** SQL Server adapter (lib/db/sqlserver.ts)                           *)
(* ===================================================================== *)

Module SQLServerAdapter.
Import Js.

Definition type : string := "sqlserver".

Inductive ConnectionPool : Type := sqlConnect (options : ConnectionConfig_t.t).

Record fields : Type := mk {
  pool : option ConnectionPool;
  config : option ConnectionConfig_t.t;
  schema : option SchemaObject
}.

Definition new : fields := mk None None None.

Module TablesRow.
(** [row_count] is a bigint sum, delivered as decimal text. *)
Record t : Type := mk { table_name : string; row_count : option Z }.
End TablesRow.

Module ColumnsRow.
Record t : Type := mk {
  table_name : string;
  column_name : string;
  data_type : string;
  is_nullable : string;
  column_default : option string;
  is_primary_key : Z
}.
End ColumnsRow.

(** [result.recordset], with its [columns] metadata when the driver set it;
    absent for a statement that yields no record set. *)
Module Recordset.
Record t : Type := mk { records : list Row; columns : option (list string) }.
End Recordset.

Record Server : Type := {
  select1 : list Request -> outcome unit;
  tables : list Request -> outcome (list TablesRow.t);
  columns : list Request -> outcome (list ColumnsRow.t);
  statement : list Request -> outcome (option Recordset.t);
  close : list Request -> outcome unit;
  clock : list Request -> Z
}.

(** [s.replace(/^select/i, replacement)] *)
Definition replace_leading_select (replacement s : string) : string :=
  if startsWith "SELECT" (toUpperCase (substring 0 6 s))
  then replacement ++ substring 6 (String.length s - 6) s
  else s.

Definition finalSql (sqlQuery : string) : string :=
  let finalSql := trim sqlQuery in
  let isSelect := startsWith "select" (toLowerCase finalSql) in
  if isSelect && negb (includes "top " (toLowerCase finalSql))
  then replace_leading_select
         ("SELECT TOP " ++ number_to_string QUERY_MAX_ROWS) finalSql
  else finalSql.

Definition to_column (col : ColumnsRow.t) : Column_t.t :=
  Column_t.mk (ColumnsRow.column_name col)
              (ColumnsRow.data_type col)
              (String.eqb (ColumnsRow.is_nullable col) "YES")
              (Some (ColumnsRow.column_default col))
              (Some (ColumnsRow.is_primary_key col =? 1)%Z).

Definition to_table (columnsResult : list ColumnsRow.t) (row : TablesRow.t)
  : Table_t.t :=
  let tableColumns :=
    List.map to_column
      (List.filter
         (fun col => String.eqb (ColumnsRow.table_name col)
                                (TablesRow.table_name row))
         columnsResult) in
  Table_t.mk (TablesRow.table_name row) None tableColumns
             (TablesRow.row_count row).

Definition no_recordset : Thrown :=
  JsError "TypeError" "Cannot read properties of undefined (reading 'columns')".

Section Methods.
Variable server : Server.

Definition disconnect : M (Runtime fields) unit :=
  self ← get_this;
  match pool self with
  | Some _ =>
      call ReqEnd (close server);;
      set_this (fun self => mk None (config self) (schema self))
  | None => mret tt
  end;;
  set_this (fun self => mk (pool self) (config self) None).

Definition getSchema : M (Runtime fields) SchemaObject :=
  self ← get_this;
  match schema self with
  | Some cached => mret cached
  | None =>
      match pool self with
      | Some _ =>
          tablesResult ← call (ReqTables None) (tables server);
          columnsResult ← call (ReqColumns None) (columns server);
          fresh ← new_schema (List.map (to_table columnsResult) tablesResult);
          set_this (fun self => mk (pool self) (config self) (Some fresh));;
          mret fresh
      | None => throw not_connected
      end
  end.

(** [params] is not passed on to the driver. *)
Definition executeQuery (sqlQuery : string) (params : option (list Value))
  : M (Runtime fields) QueryResult_t.t :=
  self ← get_this;
  match pool self with
  | None => throw not_connected
  | Some _ =>
      startTime ← Date_now (clock server);
      try_catch
        (let finalSql := finalSql sqlQuery in
         result ← call (ReqStatement finalSql None) (statement server);
         endTime ← Date_now (clock server);
         match result with
         | None => throw no_recordset
         | Some recordset =>
             let columns :=
               match Recordset.columns recordset with
               | Some names =>
                   List.map (fun name => ColumnInfo_t.mk name "varchar") names
               | None => []
               end in
             mret (QueryResult_t.mk columns (Recordset.records recordset)
                     (length (Recordset.records recordset))
                     (endTime - startTime)%Z)
         end)
        (fun error => throw (as_invalid_sql error))
  end.

Definition getSchemaContext : M (Runtime fields) string :=
  schema ← getSchema;
  mret (join (LF ++ LF)
          (List.map
             (fun table =>
                let columnsStr :=
                  join LF (List.map colStr (Table_t.columns table)) in
                "Table: " ++ Table_t.name table ++ LF ++ columnsStr)
             (Schema_t.tables (value schema)))).
End Methods.
End SQLServerAdapter.

(* ===================================================================== *)
(** ** MongoDB adapter (lib/db/mongodb.ts)                                *)
(* ===================================================================== *)

Module MongoDBAdapter.
Import Js.

Definition type : string := "mongodb".

(** A BSON value as the driver hands it over. *)
#[local] Unset Elimination Schemes.
Inductive Bson : Type :=
  | BNull
  | BArray (items : list Bson)
  | BDate (ms : Z)
  | BObjectId (hex : string)
  | BObject (entries : list (string * Bson))
  | BString (s : string)
  | BNumber (z : Z)
  | BBoolean (b : bool).
#[local] Set Elimination Schemes.

Definition Document : Type := list (string * Bson).

Inductive MongoClient : Type := newMongoClient (connectionString : string).
Inductive Db : Type := clientDb (name : string).

Record fields : Type := mk {
  client : option MongoClient;
  db : option Db;
  config : option ConnectionConfig_t.t;
  schema : option SchemaObject
}.

Definition new : fields := mk None None None None.

Record Server : Type := {
  ping : list Request -> outcome unit;
  listCollections : list Request -> outcome (list string);
  countDocuments : list Request -> outcome N;
  findOne : list Request -> outcome (option Document);
  close : list Request -> outcome unit;
  clock : list Request -> Z
}.

Definition getMongoType (v : Bson) : string :=
  match v with
  | BNull => "null"
  | BArray _ => "array"
  | BDate _ => "date"
  | BObjectId _ => "ObjectId"
  | BObject entries =>
      if existsb (fun entry => String.eqb (fst entry) "$oid") entries
      then "ObjectId" else "object"
  | BString _ => "string"
  | BNumber _ => "number"
  | BBoolean _ => "boolean"
  end.

Definition is_null (v : Bson) : bool :=
  match v with BNull => true | _ => false end.

Definition inferColumnsFromDocument (doc : Document) : list Column_t.t :=
  List.map
    (fun entry =>
       let '(key, v) := entry in
       Column_t.mk key (getMongoType v) (is_null v) None
                   (Some (String.eqb key "_id")))
    doc.

Section Methods.
Variable server : Server.

Definition disconnect : M (Runtime fields) unit :=
  self ← get_this;
  match client self with
  | Some _ =>
      call ReqEnd (close server);;
      set_this (fun self => mk None (db self) (config self) (schema self));;
      set_this (fun self => mk (client self) None (config self) (schema self))
  | None => mret tt
  end;;
  set_this (fun self => mk (client self) (db self) (config self) None).

(** The per-collection lookups run concurrently in the source; here they
    are issued collection by collection. *)
Definition getSchema : M (Runtime fields) SchemaObject :=
  self ← get_this;
  match schema self with
  | Some cached => mret cached
  | None =>
      match db self with
      | Some _ =>
          collections ← call ReqListCollections (listCollections server);
          tables ← mapM
            (fun col_name =>
               count ← call (ReqCount col_name) (countDocuments server);
               sampleDoc ← call (ReqFindOne col_name) (findOne server);
               let columns :=
                 match sampleDoc with
                 | Some doc => inferColumnsFromDocument doc
                 | None =>
                     [ Column_t.mk "_id" "ObjectId" false None (Some true) ]
                 end in
               mret (Table_t.mk col_name None columns (Some (Z.of_N count))))
            collections;
          fresh ← new_schema tables;
          set_this (fun self =>
                      mk (client self) (db self) (config self) (Some fresh));;
          mret fresh
      | None => throw not_connected
      end
  end.

(** [`${table.rowCount ?? 0}`] *)
Definition rowCount_text (rowCount : option Z) : string :=
  match rowCount with
  | Some n => number_to_string n
  | None => number_to_string 0
  end.

Definition getSchemaContext : M (Runtime fields) string :=
  schema ← getSchema;
  mret (join (LF ++ LF)
          (List.map
             (fun table =>
                let columnsStr :=
                  join LF
                    (List.map
                       (fun col =>
                          "  " ++ Column_t.name col ++ ": "
                            ++ Column_t.dataType col
                            ++ match Column_t.isPrimaryKey col with
                               | Some true => " (primary)"
                               | _ => ""
                               end)
                       (Table_t.columns table)) in
                "Collection: " ++ Table_t.name table ++ " ("
                  ++ rowCount_text (Table_t.rowCount table)
                  ++ " documents)" ++ LF ++ columnsStr)
             (Schema_t.tables (value schema)))).
End Methods.
End MongoDBAdapter.

(* ===================================================================== *)
(** ** Adapter factory (lib/db/index.ts)                                  *)
(* ===================================================================== *)

(** An adapter instance, as one of the five classes. *)
Inductive AdapterInstance : Type :=
  | APostgres (self : PostgresAdapter.fields)
  | AMySQL (self : MySQLAdapter.fields)
  | ASQLite (self : SQLiteAdapter.fields)
  | ASQLServer (self : SQLServerAdapter.fields)
  | AMongoDB (self : MongoDBAdapter.fields).

(** The [type] field of an instance. *)
Definition adapter_type (adapter : AdapterInstance) : string :=
  match adapter with
  | APostgres _ => PostgresAdapter.type
  | AMySQL _ => MySQLAdapter.type
  | ASQLite _ => SQLiteAdapter.type
  | ASQLServer _ => SQLServerAdapter.type
  | AMongoDB _ => MongoDBAdapter.type
  end.

Definition DatabaseAdapterFactory_t : Type :=
  ConnectionConfig_t.t -> AdapterInstance.

(** The registry once the module has been loaded: an empty [Map] and the five
    [set] calls, in order. *)
Definition adapterRegistry : gmap string DatabaseAdapterFactory_t :=
  <["mongodb" := fun _ => AMongoDB MongoDBAdapter.new]>
  (<["sqlserver" := fun _ => ASQLServer SQLServerAdapter.new]>
  (<["sqlite" := fun _ => ASQLite SQLiteAdapter.new]>
  (<["mysql" := fun _ => AMySQL MySQLAdapter.new]>
  (<["postgresql" := fun _ => APostgres PostgresAdapter.new]> ∅)))).

Definition registerDatabaseAdapter (type : string)
    (factory : DatabaseAdapterFactory_t)
    (registry : gmap string DatabaseAdapterFactory_t)
  : gmap string DatabaseAdapterFactory_t :=
  <[type := factory]> registry.

Definition createDatabaseAdapter
    (registry : gmap string DatabaseAdapterFactory_t)
    (config : ConnectionConfig_t.t) : outcome AdapterInstance :=
  match registry !! ConnectionConfig_t.type config with
  | None =>
      Throws (newAppError
                ("Unsupported database type: " ++ ConnectionConfig_t.type config
                 ++ ". Supported types: "
                 ++ Js.join ", " SUPPORTED_DATABASE_TYPES)
                CONNECTION_FAILED)
  | Some factory => Returns (factory config)
  end.

Definition isDatabaseTypeSupported (type : string) : bool :=
  existsb (String.eqb type) SUPPORTED_DATABASE_TYPES.

(* ===================================================================== *)
(** ** The execute route (app/api/execute/route.ts)                       *)
(* ===================================================================== *)

Module ExecuteRoute.
Import Validators.

(** The body handed to [NextResponse.json] together with the status. *)
Inductive Payload : Type :=
  | Success (data : QueryResult_t.t)
  | Failure (code : ErrorCode_t) (message : string).

Record NextResponse : Type := json { payload : Payload; status : nat }.

(** The adapter methods the handler invokes, in invocation order. *)
Inductive Invocation : Type :=
  | InvConnect (config : ConnectionConfig_t.t)
  | InvExecuteQuery (sql : string)
  | InvDisconnect.

Record Store (S : Type) : Type := mkStore {
  invoked : list Invocation;
  adapter_store : S
}.
Arguments mkStore {S} _ _.
Arguments invoked {S} _.
Arguments adapter_store {S} _.

Section Handler.
Context {S : Type}.

(** The collaborators of one request: the session, the request body after
    [request.json()] and [executeSqlRequestSchema.parse], and the factory
    result for the session's configuration. *)
Variable hasValidConnection : outcome bool.
Variable parsedBody : outcome string.
Variable getConnectionFromSession : outcome (option ConnectionConfig_t.t).
Variable createDatabaseAdapter :
  ConnectionConfig_t.t -> outcome (DatabaseAdapter_t.t S).

(** A method call on the adapter: recorded, then run on the adapter's
    store. *)
Definition invoke {A} (what : Invocation) (method : M S A) : M (Store S) A :=
  fun st =>
    match method (adapter_store st) with
    | (r, s') => (r, mkStore (invoked st ++ [what])%list s')
    end.

Definition error_code (error : Thrown) : ErrorCode_t :=
  match error with
  | AppErr e => code e
  | _ => INVALID_SQL
  end.

Definition POST : M (Store S) NextResponse :=
  try_catch
    (isConnected ← lift_outcome hasValidConnection;
     if negb isConnected
     then mret (json (Failure NO_CONNECTION
                        "No active database connection. Please connect first.")
                     401)
     else
       rawSql ← lift_outcome parsedBody;
       let sql := sanitizeSql rawSql in
       lift_outcome (validateSql sql);;
       config ← lift_outcome getConnectionFromSession;
       match config with
       | None =>
           mret (json (Failure NO_CONNECTION
                         "Connection configuration not found. Please reconnect.")
                      400)
       | Some config =>
           adapter ← lift_outcome (createDatabaseAdapter config);
           invoke (InvConnect config)
                  (DatabaseAdapter_t.connect adapter config);;
           try_finally
             (result ← invoke (InvExecuteQuery sql)
                              (DatabaseAdapter_t.executeQuery adapter sql None);
              mret (json (Success result) 200))
             (invoke InvDisconnect (DatabaseAdapter_t.disconnect adapter))
       end)
    (fun error =>
       mret (json (Failure (error_code error)
                           (message_or "Failed to execute query" error))
                  400)).
End Handler.
End ExecuteRoute.

(* ===================================================================== *)
(** ** Notions used to state the properties                               *)
(* ===================================================================== *)

Module Spec.
Import Js.

(** The last character of [s], or [prev] when [s] is empty. *)
Fixpoint last_char_or (prev : option ascii) (s : string) : option ascii :=
  match s with
  | EmptyString => prev
  | String c r => last_char_or (Some c) r
  end.

(** The last character of a text, if it has one. *)
Definition last_char : string -> option ascii := last_char_or None.

Definition holds (p : ascii -> bool) (c : option ascii) : bool :=
  match c with Some x => p x | None => false end.


(** Two characters that are equal, or the two cases of one ASCII letter. *)
Definition same_letter (a b : ascii) : bool :=
  Ascii.eqb a b
  || (is_upper a && (char_code b =? char_code a + 32)%nat)
  || (is_lower a && (char_code b + 32 =? char_code a)%nat).

(** [text] begins with [word], letter case ignored. *)
Fixpoint begins_with_ignoring_case (word text : string) : bool :=
  match word, text with
  | EmptyString, _ => true
  | String a word', String b text' =>
      same_letter a b && begins_with_ignoring_case word' text'
  | String _ _, EmptyString => false
  end.

(** [w] is [word] up to letter case. *)
Fixpoint same_ignoring_case (word w : string) : bool :=
  match word, w with
  | EmptyString, EmptyString => true
  | String a word', String b w' => same_letter a b && same_ignoring_case word' w'
  | _, _ => false
  end.

(** The statement is a SELECT or a WITH, after trimming. *)
Definition select_or_with (sql : string) : bool :=
  begins_with_ignoring_case "SELECT" (trim sql)
  || begins_with_ignoring_case "WITH" (trim sql).




(** The 256 characters, for properties settled by enumeration. *)
Definition all_ascii : list ascii := List.map ascii_of_nat (seq 0 256).

(** *** The schema text, written from its description *)

Definition column_line (col : Column_t.t) : string :=
  "  " ++ Column_t.name col ++ " " ++ Column_t.dataType col
    ++ (if bool_decide (Column_t.isPrimaryKey col = Some true)
        then " PRIMARY KEY" else "")
    ++ (if Column_t.nullable col then "" else " NOT NULL").

Definition document_line (col : Column_t.t) : string :=
  "  " ++ Column_t.name col ++ ": " ++ Column_t.dataType col
    ++ (if bool_decide (Column_t.isPrimaryKey col = Some true)
        then " (primary)" else "").

Definition entity (header : Table_t.t -> string)
    (line : Column_t.t -> string) (table : Table_t.t) : string :=
  header table ++ LF ++ join LF (List.map line (Table_t.columns table)).

(** Entities separated by a blank line. *)
Definition schema_text (header : Table_t.t -> string)
    (line : Column_t.t -> string) (schema : Schema_t.t) : string :=
  join (LF ++ LF) (List.map (entity header line) (Schema_t.tables schema)).

Definition table_header (table : Table_t.t) : string :=
  "Table: " ++ Table_t.name table.

(** The PostgreSQL header qualifies a table outside the public schema. *)
Definition qualified_table_header (table : Table_t.t) : string :=
  "Table: "
    ++ match Table_t.schema table with
       | Some ns =>
           if bool_decide (ns = "" \/ ns = "public") then "" else ns ++ "."
       | None => ""
       end
    ++ Table_t.name table.

Definition collection_header (table : Table_t.t) : string :=
  "Collection: " ++ Table_t.name table ++ " ("
    ++ number_to_string (default 0%Z (Table_t.rowCount table))
    ++ " documents)".

Definition relational_text : Schema_t.t -> string :=
  schema_text table_header column_line.
Definition postgres_text : Schema_t.t -> string :=
  schema_text qualified_table_header column_line.
Definition collections_text : Schema_t.t -> string :=
  schema_text collection_header document_line.

(** The text C7 describes for collections: the collection header over the
    relational column lines. *)
Definition claimed_collections_text : Schema_t.t -> string :=
  schema_text collection_header column_line.

(** [getSchemaContext] is [text] of the Schema that [getSchema] yields, and
    fails as [getSchema] fails. *)
Definition renders {T} (getSchema : M (Runtime T) SchemaObject)
    (getSchemaContext : M (Runtime T) string)
    (text : Schema_t.t -> string) : Prop :=
  forall st,
    match getSchema st with
    | (Returns obj, st1) =>
        getSchemaContext st = (Returns (text (value obj)), st1)
    | (Throws e, st1) => getSchemaContext st = (Throws e, st1)
    end.

(** Two runs, on any servers and instances, that fetch equal Schema values
    produce the same text. *)
Definition same_schema_same_text {Srv T}
    (getSchema : Srv -> M (Runtime T) SchemaObject)
    (getSchemaContext : Srv -> M (Runtime T) string) : Prop :=
  forall (a b : Srv) st st' obj obj' st1 st1',
    getSchema a st = (Returns obj, st1) ->
    getSchema b st' = (Returns obj', st1') ->
    value obj = value obj' ->
    exists text,
      getSchemaContext a st = (Returns text, st1) /\
      getSchemaContext b st' = (Returns text, st1').

(** *** Caching *)








(** *** Stand-in servers *)

(** A MongoDB server holding [collections]: it lists their names, counts the
    documents of the collection asked for and hands out its first
    document. *)
Definition mongo_server
    (collections : gmap string (list MongoDBAdapter.Document))
  : MongoDBAdapter.Server :=
  {| MongoDBAdapter.ping := fun _ => Returns tt;
     MongoDBAdapter.listCollections :=
       fun _ => Returns (List.map fst (map_to_list collections));
     MongoDBAdapter.countDocuments :=
       fun history =>
         match last history with
         | Some (ReqCount name) =>
             Returns (N.of_nat (length (default [] (collections !! name))))
         | _ => Throws NonError
         end;
     MongoDBAdapter.findOne :=
       fun history =>
         match last history with
         | Some (ReqFindOne name) =>
             Returns (List.head (default [] (collections !! name)))
         | _ => Throws NonError
         end;
     MongoDBAdapter.close := fun _ => Returns tt;
     MongoDBAdapter.clock := fun history => Z.of_nat (length history) |}.

(** The table that stands for a collection of documents [docs]. *)
Definition collection_table (name : string)
    (docs : list MongoDBAdapter.Document) : Table_t.t :=
  Table_t.mk name None
    match docs with
    | doc :: _ => MongoDBAdapter.inferColumnsFromDocument doc
    | [] => [ Column_t.mk "_id" "ObjectId" false None (Some true) ]
    end
    (Some (Z.of_nat (length docs))).

Definition ends_with (suffix s : string) : bool :=
  String.eqb
    (substring (String.length s - String.length suffix)
               (String.length suffix) s)
    suffix.

(** A MySQL server holding one table, [table](id, name), with [rows]: any
    statement yields the rows of the table, the first 1000 of them when the
    statement ends with a LIMIT 1000 clause. *)
Definition one_table_server (table : string) (rows : list Row)
  : MySQLAdapter.Server :=
  {| MySQLAdapter.select1 := fun _ => Returns tt;
     MySQLAdapter.tables :=
       fun _ =>
         Returns [ MySQLAdapter.TablesRow.mk table
                     (Some (Z.of_nat (length rows))) ];
     MySQLAdapter.columns :=
       fun _ =>
         Returns [ MySQLAdapter.ColumnsRow.mk table "id" "int" "NO"
                     None "PRI";
                   MySQLAdapter.ColumnsRow.mk table "name" "varchar"
                     "YES" None "" ];
     MySQLAdapter.statement :=
       fun history =>
         match last history with
         | Some (ReqStatement sql _) =>
             Returns (if ends_with " LIMIT 1000" sql
                      then firstn 1000 rows else rows,
                      [ MySQLAdapter.FieldPacket.mk "id" (Some 3%nat) ])
         | _ => Throws NonError
         end;
     MySQLAdapter.pool_end := fun _ => Returns tt;
     MySQLAdapter.clock := fun history => Z.of_nat (length history) |}.

Definition demo_config : ConnectionConfig_t.t :=
  ConnectionConfig_t.mk "mysql" "localhost" 3306 "shop" "reader" "secret" None.

(** A MySQL instance right after a successful [connect]. *)
Definition connected_mysql : Runtime MySQLAdapter.fields :=
  mkRuntime [ReqPing] 0
    (MySQLAdapter.mk (Some (MySQLAdapter.createPool demo_config))
                     (Some demo_config) None).

(** A MySQL server on which every statement fails. *)
Definition failing_server : MySQLAdapter.Server :=
  {| MySQLAdapter.select1 := fun _ => Returns tt;
     MySQLAdapter.tables := fun _ => Returns [];
     MySQLAdapter.columns := fun _ => Returns [];
     MySQLAdapter.statement :=
       fun _ => Throws (JsError "Error" "Table 'shop.t' doesn't exist");
     MySQLAdapter.pool_end := fun _ => Returns tt;
     MySQLAdapter.clock := fun _ => 0%Z |}.

(** A table of [n] rows. *)
Definition numbered_rows (n : nat) : list Row :=
  List.map (fun i => [("id", VNumber (Z.of_nat i))]) (seq 1 n).
End Spec.


(* ===================================================================== *)
(** ** More string methods                                                *)
(* ===================================================================== *)

Module JsText.

(** The first [n] characters. *)
Fixpoint take (n : nat) (s : string) : string :=
  match n, s with
  | S n', String c r => String c (take n' r)
  | _, _ => EmptyString
  end.

(** All but the first [n] characters. *)
Fixpoint drop (n : nat) (s : string) : string :=
  match n, s with
  | S n', String _ r => drop n' r
  | _, _ => s
  end.

(** [s.slice(n)], for [n >= 0] *)
Definition slice_from (n : nat) (s : string) : string := drop n s.

(** [s.slice(0, -n)], for [n > 0] *)
Definition slice_but_last (n : nat) (s : string) : string :=
  take (String.length s - n) s.

(** [s.endsWith(suffix)] *)
Definition endsWith (suffix s : string) : bool :=
  (String.length suffix <=? String.length s)%nat &&
  String.eqb (drop (String.length s - String.length suffix) s) suffix.

(** The number of occurrences of a character. *)
Fixpoint count_char (c : ascii) (s : string) : nat :=
  match s with
  | EmptyString => 0
  | String x r => (if Ascii.eqb x c then 1 else 0) + count_char c r
  end.

End JsText.

(* ===================================================================== *)
(** ** The structural check (lib/validators/sql.ts)                       *)
(* ===================================================================== *)

Module SqlStructure.
Import Js RegExp JsText.

(** [/^\s*(WITH|SELECT)\b/i] without its anchor. *)
Definition leading_keyword : RegExp :=
  re_i (Seq (Star is_space)
            (Seq (Alt (Lit "WITH") (Lit "SELECT")) WordBoundary)).

(** [pattern.test(s)] for a pattern that opens with [^] and has no flag m:
    only a match at the start of the input counts. *)
Definition test_at_start (re : RegExp) (s : string) : bool :=
  match_at (regex_flags re) (source re) None s accept.

(** The loop over the characters and the final comparison. *)
Fixpoint paren_scan (parenCount : Z) (s : string) : bool :=
  match s with
  | EmptyString => (parenCount =? 0)%Z
  | String char r =>
      let parenCount :=
        if Ascii.eqb char "(" then (parenCount + 1)%Z else parenCount in
      let parenCount :=
        if Ascii.eqb char ")" then (parenCount - 1)%Z else parenCount in
      if (parenCount <? 0)%Z then false else paren_scan parenCount r
  end.

Definition isValidSqlStructure (sql : string) : bool :=
  let trimmed := trim sql in
  let hasSelect := test_at_start leading_keyword trimmed in
  if negb hasSelect then false else paren_scan 0 trimmed.

(** No prefix closes more parentheses than it opens, and the text closes as
    many as it opens. *)
Definition balanced (s : string) : Prop :=
  (forall prefix rest,
     s = prefix ++ rest ->
     (count_char ")" prefix <= count_char "(" prefix)%nat) /\
  count_char "(" s = count_char ")" s.

(** The text begins with [keyword] in any letter case, followed by no word
    character. *)
Definition begins_with_word (keyword s : string) : Prop :=
  exists w rest,
    s = w ++ rest /\ Spec.same_ignoring_case keyword w = true /\
    Spec.holds is_word (head rest) = false.

End SqlStructure.

(* ===================================================================== *)
(** ** Cleaning a completion (lib/llm/groq.ts)                            *)
(* ===================================================================== *)

Module Groq.
Import Js JsText.

Definition extractSql (response : string) : string :=
  let sql := trim response in
  let sql :=
    if startsWith "```sql" sql then slice_from 6 sql
    else if startsWith "```" sql then slice_from 3 sql
    else sql in
  let sql := if endsWith "```" sql then slice_but_last 3 sql else sql in
  trim sql.

End Groq.

(* ===================================================================== *)
(** ** Notions used to state the further properties                       *)
(* ===================================================================== *)

Module SpecMore.

(** The error of a rejected answer. *)
Definition rejection {A} (answer : outcome A) : option Thrown :=
  match answer with
  | Throws e => Some e
  | Returns _ => None
  end.

(** What SQL Server's [executeQuery] fails on: a rejected statement, or an
    answer without a record set. *)
Definition sqlserver_failure (answer : outcome (option SQLServerAdapter.Recordset.t))
  : option Thrown :=
  match answer with
  | Throws e => Some e
  | Returns None => Some SQLServerAdapter.no_recordset
  | Returns (Some _) => None
  end.

(** A run of [executeQuery] from [st]: the fields of the instance are left as
    they were; a result counts its own rows and times the call on the
    server's clock; a failure is the INVALID_SQL error made of [cause]. *)
Definition reports_faithfully {T} (run : M (Runtime T) QueryResult_t.t)
    (clock : list Request -> Z) (cause : list Request -> option Thrown)
    (st : Runtime T) : Prop :=
  match run st with
  | (Returns result, st') =>
      this st' = this st /\ next_oid st' = next_oid st /\
      cause (wire st') = None /\
      QueryResult_t.rowCount result = length (QueryResult_t.rows result) /\
      QueryResult_t.executionTimeMs result
      = (clock (wire st') - clock (wire st))%Z
  | (Throws e, st') =>
      this st' = this st /\ next_oid st' = next_oid st /\
      exists c, cause (wire st') = Some c /\ e = as_invalid_sql c
  end.

(** After a [disconnect] that returned, leaving [st]: the instance refuses
    [getSchema] and [executeQuery] with NO_CONNECTION, and a further
    [disconnect] returns; none of them changes anything, the wire
    included. *)
Definition closed {T} (st : Runtime T)
    (getSchema : M (Runtime T) SchemaObject)
    (executeQuery : string -> option (list Value) -> M (Runtime T) QueryResult_t.t)
    (disconnect : M (Runtime T) unit) : Prop :=
  getSchema st = (Throws not_connected, st) /\
  (forall sql params, executeQuery sql params st = (Throws not_connected, st)) /\
  disconnect st = (Returns tt, st).

End SpecMore.

Module SpecAdapters.


(** [obj[key]], if the object has that key. *)
Fixpoint field (key : string) (obj : Row) : option Value :=
  match obj with
  | [] => None
  | (k, v) :: rest => if String.eqb k key then Some v else field key rest
  end.

End SpecAdapters.

(* ===================================================================== *)
(** ** Connecting (lib/db/postgres.ts, sqlite.ts, sqlserver.ts)           *)
(* ===================================================================== *)

Module PostgresConnecting.
Import PostgresAdapter.

Section Methods.
Variable server : Server.

Definition testConnection : M (Runtime fields) bool :=
  self ← get_this;
  match pool self with
  | None => mret false
  | Some _ =>
      try_catch (call ReqPing (select1 server);; mret true)
                (fun _ => mret false)
  end.

Definition connect (cfg : ConnectionConfig_t.t) : M (Runtime fields) unit :=
  set_this (fun self => mk (pool self) (Some cfg) (schema self));;
  set_this (fun self => mk (Some (newPool cfg)) (config self) (schema self));;
  connected ← testConnection;
  if negb connected
  then throw (newAppError "Failed to connect to PostgreSQL database"
                          CONNECTION_FAILED)
  else mret tt.
End Methods.
End PostgresConnecting.

Module SQLiteConnecting.
Import SQLiteAdapter.

Section Methods.
Variable server : Server.
(** [new Database(filePath, { readonly: true })], which opens the file or
    throws. *)
Variable open_database : string -> outcome unit.

Definition testConnection : M (Runtime fields) bool :=
  self ← get_this;
  match db self with
  | None => mret false
  | Some _ =>
      try_catch (call ReqPing (select1 server);; mret true)
                (fun _ => mret false)
  end.

Definition connect (cfg : ConnectionConfig_t.t) : M (Runtime fields) unit :=
  try_catch
    (let filePath :=
       match ConnectionConfig_t.database cfg with
       | EmptyString => ":memory:"
       | database => database
       end in
     lift_outcome (open_database filePath);;
     set_this (fun self => mk (Some (openDatabase filePath)) (schema self));;
     connected ← testConnection;
     if negb connected
     then throw (newAppError "Failed to connect to SQLite database"
                             CONNECTION_FAILED)
     else mret tt)
    (fun error =>
       throw (newAppError (message_or "Failed to open SQLite database" error)
                          CONNECTION_FAILED)).
End Methods.
End SQLiteConnecting.

Module SQLServerConnecting.
Import SQLServerAdapter.

Section Methods.
Variable server : Server.
(** [sql.connect(sqlConfig)], which resolves to a connected pool or
    rejects. *)
Variable sql_connect : ConnectionConfig_t.t -> outcome unit.

Definition testConnection : M (Runtime fields) bool :=
  self ← get_this;
  match pool self with
  | None => mret false
  | Some _ =>
      try_catch (call ReqPing (select1 server);; mret true)
                (fun _ => mret false)
  end.

Definition connect (cfg : ConnectionConfig_t.t) : M (Runtime fields) unit :=
  set_this (fun self => mk (pool self) (Some cfg) (schema self));;
  try_catch
    (lift_outcome (sql_connect cfg);;
     set_this (fun self =>
                 mk (Some (sqlConnect cfg)) (config self) (schema self));;
     connected ← testConnection;
     if negb connected
     then throw (newAppError "Failed to connect to SQL Server database"
                             CONNECTION_FAILED)
     else mret tt)
    (fun error =>
       throw (newAppError (message_or "Failed to connect to SQL Server" error)
                          CONNECTION_FAILED)).
End Methods.
End SQLServerConnecting.

(* ===================================================================== *)
(** ** Session (lib/session/index.ts)                                     *)
(* ===================================================================== *)

Module Session.

Definition SESSION_TTL_SECONDS : Z := 4 * 60 * 60.

(** What the sealed cookie holds; an absent field reads as [None], as a
    null one does. *)
Record SessionData_t : Type := mk {
  connection : option ConnectionConfig_t.t;
  connectedAt : option Z
}.

Section Cookie.
(** [process.env.SESSION_SECRET], and [session.save()], which seals the data
    into the cookie and may fail.  The store of these computations is the
    data held by the cookie. *)
Variable SESSION_SECRET : option string.
Variable save : SessionData_t -> outcome unit.

Definition secret_error : Thrown :=
  JsError "Error"
    "SESSION_SECRET environment variable must be set and at least 32 characters long".

(** [getSessionOptions()]: the options are constants but for the password. *)
Definition getSessionOptions : outcome string :=
  match SESSION_SECRET with
  | None => Throws secret_error
  | Some password =>
      if (String.length password =? 0)%nat || (String.length password <? 32)%nat
      then Throws secret_error
      else Returns password
  end.

Definition getSession : M SessionData_t SessionData_t :=
  lift_outcome getSessionOptions;;
  get.

(** [await session.save()] on the session object as mutated so far. *)
Definition session_save (session : SessionData_t) : M SessionData_t unit :=
  fun cookie =>
    match save session with
    | Returns _ => (Returns tt, session)
    | Throws e => (Throws e, cookie)
    end.

Definition saveConnectionToSession (now : Z) (conn : ConnectionConfig_t.t)
  : M SessionData_t unit :=
  session ← getSession;
  let session := mk (Some conn) (connectedAt session) in
  let session := mk (connection session) (Some now) in
  session_save session.

Definition getConnectionFromSession
  : M SessionData_t (option ConnectionConfig_t.t) :=
  session ← getSession;
  mret (connection session).

Definition clearSession : M SessionData_t unit :=
  session ← getSession;
  let session := mk None (connectedAt session) in
  let session := mk (connection session) None in
  session_save session.

(** [!session.connectedAt] holds of null, undefined and 0. *)
Definition hasValidConnection (now : Z) : M SessionData_t bool :=
  session ← getSession;
  match connection session, connectedAt session with
  | Some _, Some connectedAt =>
      if (connectedAt =? 0)%Z then mret false
      else
        let elapsed := (now - connectedAt)%Z in
        let ttlMs := (SESSION_TTL_SECONDS * 1000)%Z in
        mret (elapsed <? ttlMs)%Z
  | _, _ => mret false
  end.
End Cookie.
End Session.

(* ===================================================================== *)
(** ** The schema and connect routes (app/api/schema/route.ts,
       app/api/connect/route.ts)                                          *)
(* ===================================================================== *)

Module Routes.

(** The body handed to [NextResponse.json] together with the status. *)
Inductive Payload (D : Type) : Type :=
  | Success (data : D)
  | Failure (code : ErrorCode_t) (message : string).
Arguments Success {D} _.
Arguments Failure {D} _ _.

Record NextResponse (D : Type) : Type :=
  json { payload : Payload D; status : nat }.
Arguments json {D} _ _.
Arguments payload {D} _.
Arguments status {D} _.

(** The adapter methods a handler invokes, in invocation order. *)
Inductive Call : Type :=
  | CallConnect (config : ConnectionConfig_t.t)
  | CallGetSchema
  | CallDisconnect.

(** What a handler acts on: the adapter it creates and the session
    cookie. *)
Record World (S : Type) : Type := mkWorld {
  calls : list Call;
  adapter_store : S;
  cookie : Session.SessionData_t
}.
Arguments mkWorld {S} _ _ _.
Arguments calls {S} _.
Arguments adapter_store {S} _.
Arguments cookie {S} _.

Record ConnectResponse_t : Type := mkConnectResponse {
  connected : bool;
  databaseName : string
}.

(** [{ name, dataType, nullable, isPrimaryKey }] of a column, and
    [{ name, schema, columns, rowCount }] of a table. *)
Definition column_view (col : Column_t.t) : Column_t.t :=
  Column_t.mk (Column_t.name col) (Column_t.dataType col)
              (Column_t.nullable col) None (Column_t.isPrimaryKey col).

Definition table_view (table : Table_t.t) : Table_t.t :=
  Table_t.mk (Table_t.name table) (Table_t.schema table)
             (List.map column_view (Table_t.columns table))
             (Table_t.rowCount table).

Section Handlers.
Context {S : Type}.

(** The collaborators of one request: the session secret and the sealing of
    the cookie, the clock, and the factory result for a configuration. *)
Variable SESSION_SECRET : option string.
Variable save : Session.SessionData_t -> outcome unit.
Variable now : Z.
Variable createDatabaseAdapter :
  ConnectionConfig_t.t -> outcome (DatabaseAdapter_t.t S).

(** A method call on the adapter: recorded, then run on the adapter's
    store. *)
Definition on_adapter {A} (what : Call) (method : M S A) : M (World S) A :=
  fun w =>
    match method (adapter_store w) with
    | (r, s') => (r, mkWorld (calls w ++ [what])%list s' (cookie w))
    end.

(** A session function, run on the cookie. *)
Definition on_session {A} (f : M Session.SessionData_t A) : M (World S) A :=
  fun w =>
    match f (cookie w) with
    | (r, cookie') => (r, mkWorld (calls w) (adapter_store w) cookie')
    end.

(** [GET] of the schema route. *)
Definition GET : M (World S) (NextResponse (list Table_t.t)) :=
  try_catch
    (isConnected ← on_session (Session.hasValidConnection SESSION_SECRET now);
     if negb isConnected
     then mret (json (Failure NO_CONNECTION
                        "No active database connection. Please connect first.")
                     401)
     else
       config ← on_session (Session.getConnectionFromSession SESSION_SECRET);
       match config with
       | None =>
           mret (json (Failure NO_CONNECTION
                         "Connection config not available. Please reconnect.")
                      400)
       | Some config =>
           adapter ← lift_outcome (createDatabaseAdapter config);
           on_adapter (CallConnect config)
                      (DatabaseAdapter_t.connect adapter config);;
           try_finally
             (schema ← on_adapter CallGetSchema
                                  (DatabaseAdapter_t.getSchema adapter);
              mret (json (Success
                            (List.map table_view
                               (Schema_t.tables (value schema))))
                         200))
             (on_adapter CallDisconnect (DatabaseAdapter_t.disconnect adapter))
       end)
    (fun error =>
       mret (json (Failure UNKNOWN "Failed to fetch schema") 500)).

(** [POST] of the connect route; [parsedConfig] is the request body after
    [request.json()] and [validateConnectionConfig]. *)
Definition connect_error_code (error : Thrown) : ErrorCode_t :=
  match error with
  | AppErr e => code e
  | _ => CONNECTION_FAILED
  end.

Definition POST (parsedConfig : outcome ConnectionConfig_t.t)
  : M (World S) (NextResponse ConnectResponse_t) :=
  try_catch
    (config ← lift_outcome parsedConfig;
     adapter ← lift_outcome (createDatabaseAdapter config);
     on_adapter (CallConnect config)
                (DatabaseAdapter_t.connect adapter config);;
     on_adapter CallGetSchema (DatabaseAdapter_t.getSchema adapter);;
     on_session (Session.saveConnectionToSession SESSION_SECRET save now
                                                 config);;
     on_adapter CallDisconnect (DatabaseAdapter_t.disconnect adapter);;
     mret (json (Success (mkConnectResponse true
                            (ConnectionConfig_t.database config)))
                200))
    (fun error =>
       mret (json (Failure (connect_error_code error)
                           (message_or "Failed to connect to database" error))
                  400)).

(** [DELETE] of the connect route. *)
Definition DELETE : M (World S) (NextResponse bool) :=
  try_catch
    (on_session (Session.clearSession SESSION_SECRET save);;
     mret (json (Success true) 200))
    (fun error => mret (json (Failure UNKNOWN "Failed to disconnect") 500)).
End Handlers.
End Routes.

(* ===================================================================== *)
(** ** Rate limiting (lib/utils/rateLimit.ts, middleware.ts)              *)
(* ===================================================================== *)

Module RateLimit.

Definition RATE_LIMIT_WINDOW_MS : Z := 60 * 1000.
Definition RATE_LIMIT_MAX_REQUESTS : Z := 60.
Definition CLEANUP_INTERVAL_MS : Z := 5 * 60 * 1000.

Module RateLimitEntry_t.
Record t : Type := mk { count : Z; resetTime : Z }.
End RateLimitEntry_t.

(** [{ allowed, remaining, resetTime }] *)
Module Result.
Record t : Type := mk { allowed : bool; remaining : Z; resetTime : Z }.
End Result.

(** The module state: the [Map] of entries per client and [lastCleanup].
    Times are milliseconds, as [Date.now()] gives them. *)
Record Limiter : Type := mkLimiter {
  rateLimitStore : gmap string RateLimitEntry_t.t;
  lastCleanup : Z
}.

(** The state once the module is loaded at time [loaded]. *)
Definition loaded_at (loaded : Z) : Limiter := mkLimiter ∅ loaded.

(** [cleanupExpiredEntries()], [now] being its reading of the clock. *)
Definition cleanupExpiredEntries (now : Z) (l : Limiter) : Limiter :=
  if (now - lastCleanup l <? CLEANUP_INTERVAL_MS)%Z then l
  else
    mkLimiter
      (filter (fun item => ~ (RateLimitEntry_t.resetTime (snd item) < now)%Z)
              (rateLimitStore l))
      now.

(** [checkRateLimit(clientId, maxRequests, windowMs)]; [cleanupNow] is the
    clock as [cleanupExpiredEntries] reads it and [now] the reading taken
    after it. *)
Definition checkRateLimit (cleanupNow now : Z) (clientId : string)
    (maxRequests windowMs : Z) (l : Limiter) : Result.t * Limiter :=
  let l := cleanupExpiredEntries cleanupNow l in
  let fresh :=
    (Result.mk true (maxRequests - 1) (now + windowMs),
     mkLimiter
       (<[clientId := RateLimitEntry_t.mk 1 (now + windowMs)]>
          (rateLimitStore l))
       (lastCleanup l)) in
  match rateLimitStore l !! clientId with
  | None => fresh
  | Some entry =>
      if (RateLimitEntry_t.resetTime entry <? now)%Z then fresh
      else if (maxRequests <=? RateLimitEntry_t.count entry)%Z
      then (Result.mk false 0 (RateLimitEntry_t.resetTime entry), l)
      else
        let entry :=
          RateLimitEntry_t.mk (RateLimitEntry_t.count entry + 1)
                              (RateLimitEntry_t.resetTime entry) in
        (Result.mk true (maxRequests - RateLimitEntry_t.count entry)
                   (RateLimitEntry_t.resetTime entry),
         mkLimiter (<[clientId := entry]> (rateLimitStore l)) (lastCleanup l))
  end.

(** One request: who asks, and the two readings of the clock. *)
Record Hit : Type := mkHit { client : string; cleanupAt : Z; checkedAt : Z }.

(** The requests in arrival order, each answered by [checkRateLimit]. *)
Fixpoint serve (maxRequests windowMs : Z) (hits : list Hit) (l : Limiter)
  : list Result.t * Limiter :=
  match hits with
  | [] => ([], l)
  | hit :: rest =>
      let '(result, l) :=
        checkRateLimit (cleanupAt hit) (checkedAt hit) (client hit)
                       maxRequests windowMs l in
      let '(results, l) := serve maxRequests windowMs rest l in
      (result :: results, l)
  end.

(** The clock never goes back: every reading is at least the one before,
    starting from [since]. *)
Fixpoint ordered (since : Z) (hits : list Hit) : Prop :=
  match hits with
  | [] => True
  | hit :: rest =>
      (since <= cleanupAt hit)%Z /\ (cleanupAt hit <= checkedAt hit)%Z /\
      ordered (checkedAt hit) rest
  end.

(** A request of [clientId] that was allowed and answered with the reset
    time [window]. *)
Definition granted_in (clientId : string) (window : Z)
    (item : Hit * Result.t) : bool :=
  String.eqb (client (fst item)) clientId && Result.allowed (snd item)
  && (Result.resetTime (snd item) =? window)%Z.

Definition granted (clientId : string) (window : Z) (hits : list Hit)
    (results : list Result.t) : nat :=
  length (List.filter (granted_in clientId window) (combine hits results)).

(** The entry of [clientId], unless it has expired at [now]. *)
Definition live (now : Z) (store : gmap string RateLimitEntry_t.t)
    (clientId : string) : option RateLimitEntry_t.t :=
  match store !! clientId with
  | Some entry =>
      if (RateLimitEntry_t.resetTime entry <? now)%Z then None else Some entry
  | None => None
  end.

(** Every entry counts at least one request and no more than
    [maxRequests]. *)
Definition within_limit (maxRequests : Z) (l : Limiter) : Prop :=
  forall clientId entry,
    rateLimitStore l !! clientId = Some entry ->
    (1 <= RateLimitEntry_t.count entry <= maxRequests)%Z.

(** How many more requests of [clientId] can be granted with the reset time
    [window], when no reading of the clock is below [since]: what the entry
    of that window leaves, nothing once a later window has begun or the
    clock has passed the start of the window, and [maxRequests] before the
    window has begun. *)
Definition budget (since maxRequests windowMs : Z) (l : Limiter)
    (clientId : string) (window : Z) : Z :=
  let unopened :=
    if (window <? since + windowMs)%Z then 0%Z else maxRequests in
  match rateLimitStore l !! clientId with
  | Some entry =>
      if (RateLimitEntry_t.resetTime entry =? window)%Z
      then (maxRequests - RateLimitEntry_t.count entry)%Z
      else if (window <? RateLimitEntry_t.resetTime entry)%Z then 0%Z
      else unopened
  | None => unopened
  end.

(** A limiter in which one client has used up a limit of two requests. *)
Definition exhausted : Limiter :=
  mkLimiter (<["10.0.0.7" := RateLimitEntry_t.mk 2 50000]> ∅) 0.

End RateLimit.

(* ===================================================================== *)
(** ** The middleware (middleware.ts)                                     *)
(* ===================================================================== *)

Module Middleware.
Import Js RateLimit.

(** What the middleware reads of a request: the path and three headers, as
    [request.headers.get] gives them ([None] for null). *)
Record NextRequest : Type := mkRequest {
  pathname : string;
  x_forwarded_for : option string;
  x_real_ip : option string;
  cf_connecting_ip : option string
}.

(** [s.split(',')[0]] *)
Fixpoint first_of_list (s : string) : string :=
  match s with
  | EmptyString => EmptyString
  | String c r => if Ascii.eqb c "," then EmptyString
                  else String c (first_of_list r)
  end.

(** The truthiness of a header value: present and not empty. *)
Definition present (header : option string) : option string :=
  match header with
  | Some EmptyString => None
  | other => other
  end.

Definition getClientIp (request : NextRequest) : string :=
  match present (x_forwarded_for request) with
  | Some forwarded => trim (first_of_list forwarded)
  | None =>
      match present (x_real_ip request) with
      | Some realIp => realIp
      | None =>
          match present (cf_connecting_ip request) with
          | Some cfIp => cfIp
          | None => "unknown"
          end
      end
  end.

(** The function of lib/utils/rateLimit.ts, which middleware.ts repeats with
    its two constants in place of the parameters. *)
Definition checkRateLimit (cleanupNow now : Z) (clientId : string)
  : Limiter -> Result.t * Limiter :=
  RateLimit.checkRateLimit cleanupNow now clientId
    RATE_LIMIT_MAX_REQUESTS RATE_LIMIT_WINDOW_MS.

(** [Math.ceil(ms / 1000)] *)
Definition ceil_seconds (ms : Z) : Z := (- ((- ms) / 1000))%Z.

Inductive Response : Type :=
  | next (headers : list (string * string))   (* NextResponse.next() *)
  | too_many (headers : list (string * string)).
                                             (* the RATE_LIMITED body, 429 *)

(** [middleware(request)]; the three times are the readings of the clock by
    [cleanupExpiredEntries], by [checkRateLimit] and for Retry-After. *)
Definition middleware (cleanupNow now retryNow : Z) (request : NextRequest)
    (l : Limiter) : Response * Limiter :=
  if negb (startsWith "/api" (pathname request)) then (next [], l)
  else
    let clientIp := getClientIp request in
    let '(result, l) := checkRateLimit cleanupNow now clientIp l in
    if negb (Result.allowed result)
    then
      let retryAfter := ceil_seconds (Result.resetTime result - retryNow) in
      (too_many
         [ ("Retry-After", number_to_string retryAfter);
           ("X-RateLimit-Limit", number_to_string RATE_LIMIT_MAX_REQUESTS);
           ("X-RateLimit-Remaining", "0");
           ("X-RateLimit-Reset",
            number_to_string (ceil_seconds (Result.resetTime result))) ],
       l)
    else
      (next
         [ ("X-RateLimit-Limit", number_to_string RATE_LIMIT_MAX_REQUESTS);
           ("X-RateLimit-Remaining",
            number_to_string (Result.remaining result));
           ("X-RateLimit-Reset",
            number_to_string (ceil_seconds (Result.resetTime result))) ],
       l).

(** One request as the middleware sees it, with its readings of the
    clock. *)
Record Arrival : Type := mkArrival {
  request : NextRequest;
  cleanupAt : Z;
  checkedAt : Z;
  retryAt : Z
}.

Fixpoint handle (arrivals : list Arrival) (l : Limiter)
  : list Response * Limiter :=
  match arrivals with
  | [] => ([], l)
  | arrival :: rest =>
      let '(response, l) :=
        middleware (cleanupAt arrival) (checkedAt arrival) (retryAt arrival)
                   (request arrival) l in
      let '(responses, l) := handle rest l in
      (response :: responses, l)
  end.

Definition passed (response : Response) : bool :=
  match response with next _ => true | too_many _ => false end.

End Middleware.
(* ===================================================================== *)
(** * Properties                                                          *)
(* ===================================================================== *)

Import Js RegExp Validators Spec.

(** ** Characters, by enumeration *)

Lemma all_ascii_complete (c : ascii) : In c all_ascii.
Proof.
  unfold all_ascii. rewrite <- (ascii_nat_embedding c).
  apply in_map, in_seq. pose proof (nat_ascii_bounded c). lia.
Qed.

Lemma forall_ascii (P : ascii -> bool) :
  forallb P all_ascii = true -> forall c, P c = true.
Proof.
  intros H c. rewrite forallb_forall in H. apply H, all_ascii_complete.
Qed.

Lemma forall_ascii2 (P : ascii -> ascii -> bool) :
  forallb (fun a => forallb (P a) all_ascii) all_ascii = true ->
  forall a b, P a b = true.
Proof.
  intros H a b. apply forall_ascii. revert a. apply forall_ascii. exact H.
Qed.

Ltac by_enumeration :=
  first [ apply forall_ascii2 | apply forall_ascii ]; vm_compute; reflexivity.

Lemma same_letter_upper :
  forall a b, Bool.eqb (same_letter a b)
                       (Ascii.eqb (upper_char a) (upper_char b)) = true.
Proof. by_enumeration. Qed.

Lemma same_letter_char_eq (a b : ascii) :
  char_eq {| ignoreCase := true |} a b = same_letter a b.
Proof.
  unfold char_eq; simpl. symmetry. apply Bool.eqb_prop, same_letter_upper.
Qed.

Lemma same_letter_word :
  forall a b, implb (same_letter a b) (Bool.eqb (is_word a) (is_word b)) = true.
Proof. by_enumeration. Qed.

Lemma same_letter_is_word (a b : ascii) :
  same_letter a b = true -> is_word b = is_word a.
Proof.
  intros H. pose proof (same_letter_word a b) as W. rewrite H in W. simpl in W.
  symmetry. apply Bool.eqb_prop, W.
Qed.

Lemma space_not_semicolon :
  forall c, implb (is_space c) (negb (is_semicolon c)) = true.
Proof. by_enumeration. Qed.

(** ** Texts *)

#[local] Arguments String.append !s1 s2 : simpl nomatch.

Lemma append_empty_r (s : string) : s ++ "" = s.
Proof. induction s as [|c s IH]; simpl; [reflexivity | now rewrite IH]. Qed.

Lemma append_assoc (a b c : string) : (a ++ b) ++ c = a ++ (b ++ c).
Proof. induction a as [|x a IH]; simpl; [reflexivity | now rewrite IH]. Qed.


Lemma last_char_or_append (prev : option ascii) (a b : string) :
  last_char_or prev (a ++ b) = last_char_or (last_char_or prev a) b.
Proof.
  revert prev. induction a as [|c a IH]; intros prev; simpl; [reflexivity|].
  apply IH.
Qed.

Lemma last_char_or_some (prev : option ascii) (c : ascii) (s : string) :
  last_char_or prev (String c s) = last_char_or (Some c) s.
Proof. reflexivity. Qed.

(** The last character does not depend on [prev] once the text is not
    empty. *)
Lemma last_char_or_nonempty (p q : option ascii) (c : ascii) (s : string) :
  last_char_or p (String c s) = last_char_or q (String c s).
Proof. reflexivity. Qed.

Lemma dropWhile_head (p : ascii -> bool) (s : string) :
  holds p (head (dropWhile p s)) = false.
Proof.
  induction s as [|c s IH]; simpl; [reflexivity|].
  destruct (p c) eqn:E; [exact IH | simpl; exact E].
Qed.

Lemma dropWhile_id (p : ascii -> bool) (s : string) :
  holds p (head s) = false -> dropWhile p s = s.
Proof. destruct s as [|c s]; simpl; [reflexivity | now intros ->]. Qed.

Lemma dropWhileEnd_head (p : ascii -> bool) (s : string) :
  dropWhileEnd p s = "" \/ head (dropWhileEnd p s) = head s.
Proof.
  destruct s as [|c s]; simpl; [now left|].
  destruct (dropWhileEnd p s); [destruct (p c)|]; auto.
Qed.

Lemma dropWhileEnd_last (p : ascii -> bool) (s : string) :
  holds p (last_char (dropWhileEnd p s)) = false.
Proof.
  unfold last_char. induction s as [|c s IH]; simpl; [reflexivity|].
  destruct (dropWhileEnd p s) as [|d r] eqn:E.
  - destruct (p c) eqn:Pc; simpl; [reflexivity | exact Pc].
  - exact IH.
Qed.

Lemma dropWhileEnd_id (p : ascii -> bool) (s : string) :
  holds p (last_char s) = false -> dropWhileEnd p s = s.
Proof.
  unfold last_char. induction s as [|c s IH]; simpl; [reflexivity|].
  destruct s as [|d r].
  - simpl. now intros ->.
  - intros H. rewrite IH by exact H. reflexivity.
Qed.

(** ** sanitizeSql *)










(** ** Matching *)


Lemma match_lit_spec (word : string) :
  forall (prev p' : option ascii) (s s' : string),
    match_lit {| ignoreCase := true |} word prev s = Some (p', s') <->
    exists w, s = w ++ s' /\ same_ignoring_case word w = true /\
              p' = last_char_or prev w.
Proof.
  induction word as [|a word IH]; intros prev p' s s'; simpl.
  - split.
    + intros [= <- <-]. now exists "".
    + intros (w & -> & E & ->). destruct w; [reflexivity | discriminate].
  - destruct s as [|b s].
    + split; [discriminate|].
      intros (w & E & Sm & _). destruct w; [discriminate | discriminate].
    + rewrite same_letter_char_eq. destruct (same_letter a b) eqn:L.
      * rewrite IH. split.
        -- intros (w & -> & Sm & ->). exists (String b w). simpl.
           now rewrite L, Sm.
        -- intros (w & E & Sm & ->). destruct w as [|b' w]; [discriminate|].
           simpl in E. injection E as <- ->. simpl in Sm.
           rewrite L in Sm. now exists w.
      * split; [discriminate|].
        intros (w & E & Sm & _). destruct w as [|b' w]; [discriminate|].
        simpl in E. injection E as <- ->. simpl in Sm.
        now rewrite L in Sm.
Qed.

Lemma same_ignoring_case_head (word w : string) :
  same_ignoring_case word w = true ->
  holds is_word (head w) = holds is_word (head word).
Proof.
  destruct word as [|a word], w as [|b w]; simpl; try discriminate; auto.
  intros H. apply andb_prop in H as [L _]. now apply same_letter_is_word.
Qed.

Lemma same_ignoring_case_last (word : string) :
  forall (w : string) (p q : option ascii),
    same_ignoring_case word w = true ->
    holds is_word p = holds is_word q ->
    holds is_word (last_char_or p w) = holds is_word (last_char_or q word).
Proof.
  induction word as [|a word IH]; intros [|b w] p q; simpl; try discriminate.
  - auto.
  - intros H _. apply andb_prop in H as [L Sm].
    apply (IH w _ _ Sm). simpl. now apply same_letter_is_word.
Qed.






(** ** The SELECT-or-WITH gate *)



(** ** validateSql *)










(** ** executeQuery: the statement handed to the driver *)

Ltac unfold_M :=
  unfold settle in *;
  unfold mbind, M_bind, mret, M_ret, bind, ret, throw, get_this, set_this,
         call, Date_now, new_schema, try_catch, try_finally, lift_outcome
    in *.

Lemma with_is_not_select_char :
  forall c, implb (same_letter "W" c)
                  (negb (Ascii.eqb "s" (lower_char c))) = true.
Proof. by_enumeration. Qed.

Lemma with_is_not_select (text : string) :
  begins_with_ignoring_case "WITH" text = true ->
  startsWith "select" (toLowerCase text) = false.
Proof.
  destruct text as [|c text]; [discriminate|].
  intros H. apply andb_prop in H as [L _].
  pose proof (with_is_not_select_char c) as W. rewrite L in W.
  change (negb (Ascii.eqb "s" (lower_char c)) = true) in W.
  apply negb_true_iff in W.
  unfold toLowerCase. cbn [map_chars startsWith]. now rewrite W.
Qed.

Lemma MySQL_executeQuery_wire server sql params st :
  MySQLAdapter.pool (this st) <> None ->
  wire (snd (MySQLAdapter.executeQuery server sql params st)) =
  (wire st ++ [ReqStatement (MySQLAdapter.finalSql sql) params])%list.
Proof.
  intros C. unfold MySQLAdapter.executeQuery. unfold_M.
  destruct st as [w n self]; simpl in *.
  destruct (MySQLAdapter.pool self); [|contradiction]. simpl.
  destruct (MySQLAdapter.statement server _) as [[rows fields]|e]; reflexivity.
Qed.

Lemma Postgres_executeQuery_wire server sql params st :
  PostgresAdapter.pool (this st) <> None ->
  wire (snd (PostgresAdapter.executeQuery server sql params st)) =
  (wire st ++ [ReqStatement (PostgresAdapter.finalSql sql) params])%list.
Proof.
  intros C. unfold PostgresAdapter.executeQuery. unfold_M.
  destruct st as [w n self]; simpl in *.
  destruct (PostgresAdapter.pool self); [|contradiction]. simpl.
  destruct (PostgresAdapter.statement server _) as [[rows fields]|e]; reflexivity.
Qed.

Lemma SQLite_executeQuery_wire server sql params st :
  SQLiteAdapter.db (this st) <> None ->
  wire (snd (SQLiteAdapter.executeQuery server sql params st)) =
  (wire st ++ [ReqStatement (SQLiteAdapter.finalSql sql) params])%list.
Proof.
  intros C. unfold SQLiteAdapter.executeQuery. unfold_M.
  destruct st as [w n self]; simpl in *.
  destruct (SQLiteAdapter.db self); [|contradiction]. simpl.
  destruct (SQLiteAdapter.statement server _) as [[rows fields]|e]; reflexivity.
Qed.

Lemma SQLServer_executeQuery_wire server sql params st :
  SQLServerAdapter.pool (this st) <> None ->
  wire (snd (SQLServerAdapter.executeQuery server sql params st)) =
  (wire st ++ [ReqStatement (SQLServerAdapter.finalSql sql) None])%list.
Proof.
  intros C. unfold SQLServerAdapter.executeQuery. unfold_M.
  destruct st as [w n self]; simpl in *.
  destruct (SQLServerAdapter.pool self); [|contradiction]. simpl.
  destruct (SQLServerAdapter.statement server _) as [[rs|]|e]; reflexivity.
Qed.

(** C9: a statement that, once trimmed, begins with WITH in any letter case
    is handed to the driver of each relational adapter as the trimmed text,
    with no LIMIT or TOP clause added. *)
Theorem with_statement_sent_uncapped (sql : string) (params : option (list Value)) :
  begins_with_ignoring_case "WITH" (trim sql) = true ->
  (MySQLAdapter.finalSql sql = trim sql /\
   PostgresAdapter.finalSql sql = trim sql /\
   SQLiteAdapter.finalSql sql = trim sql /\
   SQLServerAdapter.finalSql sql = trim sql) /\
  (forall server st,
     MySQLAdapter.pool (this st) <> None ->
     wire (snd (MySQLAdapter.executeQuery server sql params st)) =
     (wire st ++ [ReqStatement (trim sql) params])%list) /\
  (forall server st,
     PostgresAdapter.pool (this st) <> None ->
     wire (snd (PostgresAdapter.executeQuery server sql params st)) =
     (wire st ++ [ReqStatement (trim sql) params])%list) /\
  (forall server st,
     SQLiteAdapter.db (this st) <> None ->
     wire (snd (SQLiteAdapter.executeQuery server sql params st)) =
     (wire st ++ [ReqStatement (trim sql) params])%list) /\
  (forall server st,
     SQLServerAdapter.pool (this st) <> None ->
     wire (snd (SQLServerAdapter.executeQuery server sql params st)) =
     (wire st ++ [ReqStatement (trim sql) None])%list).
Proof.
  intros W. apply with_is_not_select in W.
  assert (F : (MySQLAdapter.finalSql sql = trim sql /\
               PostgresAdapter.finalSql sql = trim sql /\
               SQLiteAdapter.finalSql sql = trim sql /\
               SQLServerAdapter.finalSql sql = trim sql)).
  { unfold MySQLAdapter.finalSql, PostgresAdapter.finalSql,
           SQLiteAdapter.finalSql, SQLServerAdapter.finalSql.
    rewrite W. simpl. auto. }
  destruct F as (F1 & F2 & F3 & F4). repeat split; auto.
  - intros server st C. now rewrite MySQL_executeQuery_wire, F1.
  - intros server st C. now rewrite Postgres_executeQuery_wire, F2.
  - intros server st C. now rewrite SQLite_executeQuery_wire, F3.
  - intros server st C. now rewrite SQLServer_executeQuery_wire, F4.
Qed.

Lemma with_statement_sent_uncapped_witness :
  MySQLAdapter.finalSql "  with t as (select 1) select * from t "
  = "with t as (select 1) select * from t".
Proof.
  apply (with_statement_sent_uncapped
           "  with t as (select 1) select * from t " None).
  vm_compute. reflexivity.
Defined.

(** C3 (the code departs from it): a SELECT whose text contains "limit" (or,
    for SQL Server, "top ") inside an identifier specifies no cap, yet is sent
    as it is, and a table of 1001 rows then comes back whole; and SQL Server's
    TOP(n) form is not recognised, so that TOP is written twice.  A SELECT
    without those letters is capped. *)
Theorem cap_missed_on_limit_inside_identifier :
  let uncapped := "SELECT * FROM rate_limits" in
  let started := connected_mysql in
  let server := one_table_server "rate_limits" (numbered_rows 1001) in
  test (keyword_pattern "LIMIT") uncapped = false /\
  MySQLAdapter.finalSql uncapped = uncapped /\
  PostgresAdapter.finalSql uncapped = uncapped /\
  SQLiteAdapter.finalSql uncapped = uncapped /\
  (exists result st,
     MySQLAdapter.executeQuery server uncapped None started = (Returns result, st) /\
     QueryResult_t.rowCount result = 1001 /\
     length (QueryResult_t.rows result) = 1001) /\
  (exists result st,
     MySQLAdapter.executeQuery server "SELECT * FROM t" None started
     = (Returns result, st) /\
     wire st = [ReqPing; ReqStatement "SELECT * FROM t LIMIT 1000" None] /\
     QueryResult_t.rowCount result = 1000) /\
  test (keyword_pattern "TOP") "SELECT * FROM laptop WHERE id = 1" = false /\
  SQLServerAdapter.finalSql "SELECT * FROM laptop WHERE id = 1"
  = "SELECT * FROM laptop WHERE id = 1" /\
  SQLServerAdapter.finalSql "SELECT * FROM t" = "SELECT TOP 1000 * FROM t" /\
  SQLServerAdapter.finalSql "SELECT TOP(5) * FROM t"
  = "SELECT TOP 1000 TOP(5) * FROM t".
Proof.
  cbv zeta. repeat split; try (vm_compute; reflexivity).
  - eexists _, _. split; [vm_compute; reflexivity|]. split; reflexivity.
  - eexists _, _. split; [vm_compute; reflexivity|]. split; reflexivity.
Qed.

(** ** getSchema: the cache *)
















(** ** getSchemaContext *)

Lemma colStr_column_line (col : Column_t.t) : colStr col = column_line col.
Proof.
  unfold colStr, column_line.
  destruct col as [name dataType nullable dflt [[|]|]]; destruct nullable;
    simpl; rewrite ?append_assoc, ?append_empty_r; simpl;
    rewrite ?append_assoc, ?append_empty_r; reflexivity.
Qed.

Lemma renders_bind {T} (getSchema : M (Runtime T) SchemaObject)
    (output : SchemaObject -> string) (text : Schema_t.t -> string) :
  (forall schema, output schema = text (value schema)) ->
  renders getSchema (schema ← getSchema; mret (output schema)) text.
Proof.
  intros E st. unfold mbind, M_bind, bind, mret, M_ret, ret.
  destruct (getSchema st) as [[obj|e] st1]; [now rewrite E | reflexivity].
Qed.

Lemma renders_deterministic {Srv T}
    (getSchema : Srv -> M (Runtime T) SchemaObject)
    (getSchemaContext : Srv -> M (Runtime T) string)
    (text : Schema_t.t -> string) :
  (forall server, renders (getSchema server) (getSchemaContext server) text) ->
  same_schema_same_text getSchema getSchemaContext.
Proof.
  intros R a b st st' obj obj' st1 st1' Ea Eb V.
  pose proof (R a st) as Ra. rewrite Ea in Ra.
  pose proof (R b st') as Rb. rewrite Eb in Rb.
  exists (text (value obj)). split; [exact Ra | now rewrite V].
Qed.

Lemma relational_render (schema : Schema_t.t) :
  join (LF ++ LF)
    (List.map
       (fun table =>
          "Table: " ++ Table_t.name table ++ LF
            ++ join LF (List.map colStr (Table_t.columns table)))
       (Schema_t.tables schema))
  = relational_text schema.
Proof.
  unfold relational_text, schema_text. f_equal. apply map_ext. intros table.
  unfold entity, table_header.
  rewrite (map_ext _ _ colStr_column_line), append_assoc. reflexivity.
Qed.

Lemma MySQL_renders server :
  renders (MySQLAdapter.getSchema server) (MySQLAdapter.getSchemaContext server)
          relational_text.
Proof.
  apply renders_bind. intros schema. apply relational_render.
Qed.

Lemma SQLite_renders server :
  renders (SQLiteAdapter.getSchema server) (SQLiteAdapter.getSchemaContext server)
          relational_text.
Proof.
  apply renders_bind. intros schema. apply relational_render.
Qed.

Lemma SQLServer_renders server :
  renders (SQLServerAdapter.getSchema server)
          (SQLServerAdapter.getSchemaContext server) relational_text.
Proof.
  apply renders_bind. intros schema. apply relational_render.
Qed.

Lemma Postgres_renders server :
  renders (PostgresAdapter.getSchema server)
          (PostgresAdapter.getSchemaContext server) postgres_text.
Proof.
  apply renders_bind. intros schema.
  unfold postgres_text, schema_text. f_equal. apply map_ext. intros table.
  unfold entity, qualified_table_header.
  rewrite (map_ext _ _ colStr_column_line), !append_assoc.
  f_equal. f_equal.
  destruct (Table_t.schema table) as [ns|]; [|reflexivity].
  destruct (String.eqb_spec ns ""), (String.eqb_spec ns "public"); simpl;
    rewrite ?bool_decide_eq_true_2, ?bool_decide_eq_false_2 by tauto;
    reflexivity.
Qed.

Lemma MongoDB_renders server :
  renders (MongoDBAdapter.getSchema server)
          (MongoDBAdapter.getSchemaContext server) collections_text.
Proof.
  apply renders_bind. intros schema.
  unfold collections_text, schema_text. f_equal. apply map_ext. intros table.
  unfold entity, collection_header, MongoDBAdapter.rowCount_text.
  rewrite (map_ext _ document_line), !append_assoc.
  - do 3 f_equal. destruct (Table_t.rowCount table); reflexivity.
  - intros col. unfold document_line. do 4 f_equal.
    destruct (Column_t.isPrimaryKey col) as [[|]|]; reflexivity.
Qed.

(** C7, as claimed, fails for collections: the MongoDB adapter writes a column
    as [name: type], with [(primary)] for the primary key, and says nothing
    of nullability. *)
Lemma collections_text_is_not_the_claimed_one :
  let server := mongo_server {[ "users" := [] ]} in
  let started :=
    mkRuntime [ReqPing] 0
      (MongoDBAdapter.mk (Some (MongoDBAdapter.newMongoClient "mongodb://h:1/d"))
                         (Some (MongoDBAdapter.clientDb "d")) None None) in
  exists obj st1 text,
    MongoDBAdapter.getSchema server started = (Returns obj, st1) /\
    MongoDBAdapter.getSchemaContext server started = (Returns text, st1) /\
    text = "Collection: users (0 documents)" ++ LF ++ "  _id: ObjectId (primary)" /\
    claimed_collections_text (value obj)
    = "Collection: users (0 documents)" ++ LF
        ++ "  _id ObjectId PRIMARY KEY NOT NULL" /\
    text <> claimed_collections_text (value obj).
Proof.
  cbv zeta. eexists _, _, _.
  split; [vm_compute; reflexivity|].
  split; [vm_compute; reflexivity|].
  split; [vm_compute; reflexivity|].
  split; [vm_compute; reflexivity|].
  vm_compute. discriminate.
Qed.

(** C7 (amended): on every adapter the text of [getSchemaContext] is a fixed
    function of the Schema value that [getSchema] yields, so that equal
    Schema values give the same text whatever the server and the instance;
    the relational adapters write a [Table: name] header (PostgreSQL
    qualifies a table outside the public schema) over indented
    [column type [PRIMARY KEY] [NOT NULL]] lines, the MongoDB adapter a
    [Collection: name (n documents)] header over indented
    [column: type [(primary)]] lines; columns come in the Schema's order and
    entities are separated by a blank line. *)
Theorem getSchemaContext_is_text_of_schema :
  ((forall server,
      renders (MySQLAdapter.getSchema server)
              (MySQLAdapter.getSchemaContext server) relational_text) /\
   (forall server,
      renders (PostgresAdapter.getSchema server)
              (PostgresAdapter.getSchemaContext server) postgres_text) /\
   (forall server,
      renders (SQLiteAdapter.getSchema server)
              (SQLiteAdapter.getSchemaContext server) relational_text) /\
   (forall server,
      renders (SQLServerAdapter.getSchema server)
              (SQLServerAdapter.getSchemaContext server) relational_text) /\
   (forall server,
      renders (MongoDBAdapter.getSchema server)
              (MongoDBAdapter.getSchemaContext server) collections_text))
  /\
  (same_schema_same_text MySQLAdapter.getSchema MySQLAdapter.getSchemaContext /\
   same_schema_same_text PostgresAdapter.getSchema
                         PostgresAdapter.getSchemaContext /\
   same_schema_same_text SQLiteAdapter.getSchema SQLiteAdapter.getSchemaContext /\
   same_schema_same_text SQLServerAdapter.getSchema
                         SQLServerAdapter.getSchemaContext /\
   same_schema_same_text MongoDBAdapter.getSchema
                         MongoDBAdapter.getSchemaContext).
Proof.
  split.
  - split; [|split; [|split; [|split]]]; intros server.
    + apply MySQL_renders.
    + apply Postgres_renders.
    + apply SQLite_renders.
    + apply SQLServer_renders.
    + apply MongoDB_renders.
  - split; [|split; [|split; [|split]]].
    + apply (renders_deterministic _ _ _ MySQL_renders).
    + apply (renders_deterministic _ _ _ Postgres_renders).
    + apply (renders_deterministic _ _ _ SQLite_renders).
    + apply (renders_deterministic _ _ _ SQLServer_renders).
    + apply (renders_deterministic _ _ _ MongoDB_renders).
Qed.

Lemma getSchemaContext_is_text_of_schema_witness :
  exists st1,
    MySQLAdapter.getSchemaContext (one_table_server "employees" []) connected_mysql
    = (Returns ("Table: employees" ++ LF ++ "  id int PRIMARY KEY NOT NULL"
                  ++ LF ++ "  name varchar"), st1) /\
    exists text,
      MySQLAdapter.getSchemaContext (one_table_server "employees" []) connected_mysql
      = (Returns text, st1) /\
      MySQLAdapter.getSchemaContext (one_table_server "employees" (numbered_rows 3)) st1
      = (Returns text, st1).
Proof.
  destruct getSchemaContext_is_text_of_schema as [(R & _) (D & _)].
  pose proof (R (one_table_server "employees" []) connected_mysql) as Text.
  destruct (MySQLAdapter.getSchema (one_table_server "employees" []) connected_mysql)
    as [[obj|e] st1] eqn:E; [|vm_compute in E; discriminate E].
  exists st1. split.
  - rewrite Text. vm_compute in E. injection E as <- _. reflexivity.
  - apply (D (one_table_server "employees" []) (one_table_server "employees" (numbered_rows 3))
             connected_mysql st1 obj obj st1 st1 E); [|reflexivity].
    vm_compute in E. injection E as <- <-. reflexivity.
Defined.

(** ** MongoDB: a collection without documents *)

Lemma mapM_map {S A B} (f : A -> M S B) (g : A -> B) :
  (forall x st, exists st', f x st = (Returns (g x), st')) ->
  forall items st, exists st', mapM f items st = (Returns (List.map g items), st').
Proof.
  intros Hf. induction items as [|x items IH]; intros st; simpl.
  - now exists st.
  - unfold_M. destruct (Hf x st) as (st1 & ->).
    destruct (IH st1) as (st2 & ->). now exists st2.
Qed.

Lemma mongo_getSchema_tables
    (collections : gmap string (list MongoDBAdapter.Document))
    (st : Runtime MongoDBAdapter.fields) :
  MongoDBAdapter.db (this st) <> None ->
  MongoDBAdapter.schema (this st) = None ->
  exists obj st1,
    MongoDBAdapter.getSchema (mongo_server collections) st = (Returns obj, st1) /\
    Schema_t.tables (value obj)
    = List.map (fun name =>
                  collection_table name (default [] (collections !! name)))
               (List.map fst (map_to_list collections)).
Proof.
  destruct st as [w n [client db config schema]]. simpl. intros Hd ->.
  destruct db as [d|]; [|contradiction].
  unfold MongoDBAdapter.getSchema.
  unfold mbind at 1 2, M_bind at 1 2, bind at 1 2, get_this, call at 1. simpl.
  lazymatch goal with
  | |- context [ mapM ?f ?names ] =>
      destruct (mapM_map f
                  (fun name =>
                     collection_table name (default [] (collections !! name))))
        with (items := names)
             (st := mkRuntime (w ++ [ReqListCollections])%list n
                      (MongoDBAdapter.mk client (Some d) config None))
        as (st2 & E)
  end.
  - intros x st. unfold_M. simpl. rewrite !last_snoc.
    unfold collection_table. rewrite nat_N_Z.
    destruct (default [] (collections !! x)); now eexists.
  - unfold mbind at 1, M_bind at 1, bind at 1. rewrite E.
    unfold_M. simpl. now eexists _, _.
Qed.

(** C10: for every collection without documents, the Schema that
    [getSchema] builds has a table of that name whose only column is [_id],
    of type ObjectId, not nullable, the primary key, and whose rowCount is 0;
    no other table bears that name. *)
Theorem empty_collection_gets_id_column
    (collections : gmap string (list MongoDBAdapter.Document))
    (name : string) (st : Runtime MongoDBAdapter.fields) :
  MongoDBAdapter.db (this st) <> None ->
  MongoDBAdapter.schema (this st) = None ->
  collections !! name = Some [] ->
  exists obj st1,
    MongoDBAdapter.getSchema (mongo_server collections) st = (Returns obj, st1) /\
    In (Table_t.mk name None
          [ Column_t.mk "_id" "ObjectId" false None (Some true) ] (Some 0%Z))
       (Schema_t.tables (value obj)) /\
    (forall table,
       In table (Schema_t.tables (value obj)) ->
       Table_t.name table = name ->
       table = Table_t.mk name None
                 [ Column_t.mk "_id" "ObjectId" false None (Some true) ]
                 (Some 0%Z)).
Proof.
  intros Hd Hs Hc.
  destruct (mongo_getSchema_tables collections st Hd Hs) as (obj & st1 & E & T).
  exists obj, st1. split; [exact E|]. rewrite T. split.
  - apply in_map_iff. exists name. split.
    + now rewrite Hc.
    + apply in_map_iff. exists (name, []). split; [reflexivity|].
      apply list_elem_of_In, elem_of_map_to_list, Hc.
  - intros table Hin Hn. apply in_map_iff in Hin as (x & <- & _).
    simpl in Hn. subst x. now rewrite Hc.
Qed.

Lemma empty_collection_gets_id_column_witness :
  exists obj st1,
    MongoDBAdapter.getSchema
      (mongo_server {[ "users" := [] ]})
      (mkRuntime [ReqPing] 0
         (MongoDBAdapter.mk
            (Some (MongoDBAdapter.newMongoClient "mongodb://h:1/d"))
            (Some (MongoDBAdapter.clientDb "d")) None None))
    = (Returns obj, st1) /\
    In (Table_t.mk "users" None
          [ Column_t.mk "_id" "ObjectId" false None (Some true) ] (Some 0%Z))
       (Schema_t.tables (value obj)).
Proof.
  destruct (empty_collection_gets_id_column
              {[ "users" := [] ]} "users"
              (mkRuntime [ReqPing] 0
                 (MongoDBAdapter.mk
                    (Some (MongoDBAdapter.newMongoClient "mongodb://h:1/d"))
                    (Some (MongoDBAdapter.clientDb "d")) None None)))
    as (obj & st1 & E & Hin & _).
  - simpl. discriminate.
  - reflexivity.
  - vm_compute. reflexivity.
  - exists obj, st1. split; assumption.
Defined.

(** ** createDatabaseAdapter *)

Lemma adapterRegistry_lookup (type : string) :
  adapterRegistry !! type = None <-> ~ In type SUPPORTED_DATABASE_TYPES.
Proof.
  unfold adapterRegistry, SUPPORTED_DATABASE_TYPES. split.
  - intros H Hin. simpl in Hin.
    repeat (destruct Hin as [<- | Hin]; [vm_compute in H; discriminate H|]).
    destruct Hin.
  - intros H. simpl in H.
    rewrite !lookup_insert_ne by (intros <-; apply H; tauto).
    apply lookup_empty.
Qed.

(** C8: for a configuration whose type is one of the five supported tags,
    createDatabaseAdapter returns an adapter whose [type] is that tag; for a
    type outside the registry, which is to say outside the supported tags, it
    fails with a CONNECTION_FAILED error whose message names the type and
    lists the supported ones. *)
Theorem createDatabaseAdapter_by_type (config : ConnectionConfig_t.t) :
  (In (ConnectionConfig_t.type config) SUPPORTED_DATABASE_TYPES ->
   exists adapter,
     createDatabaseAdapter adapterRegistry config = Returns adapter /\
     adapter_type adapter = ConnectionConfig_t.type config) /\
  (adapterRegistry !! ConnectionConfig_t.type config = None <->
   ~ In (ConnectionConfig_t.type config) SUPPORTED_DATABASE_TYPES) /\
  (adapterRegistry !! ConnectionConfig_t.type config = None ->
   exists e,
     createDatabaseAdapter adapterRegistry config = Throws (AppErr e) /\
     code e = CONNECTION_FAILED /\
     message e = "Unsupported database type: "
                   ++ ConnectionConfig_t.type config
                   ++ ". Supported types: "
                   ++ "postgresql, mysql, sqlite, sqlserver, mongodb").
Proof.
  split; [|split].
  - destruct config as [type host port database username password ssl].
    unfold createDatabaseAdapter. simpl. intros Hin.
    repeat (destruct Hin as [<- | Hin];
            [eexists; split; vm_compute; reflexivity|]).
    destruct Hin.
  - apply adapterRegistry_lookup.
  - intros H. unfold createDatabaseAdapter.
    unfold DatabaseAdapterFactory_t in *. rewrite H.
    eexists. repeat split.
Qed.

Lemma createDatabaseAdapter_by_type_witness :
  (exists adapter,
     createDatabaseAdapter adapterRegistry
       (ConnectionConfig_t.mk "postgresql" "db.example" 5432 "shop" "u" "p" None)
     = Returns adapter /\
     adapter_type adapter = "postgresql") /\
  (exists e,
     createDatabaseAdapter adapterRegistry
       (ConnectionConfig_t.mk "unknown" "db.example" 1 "shop" "u" "p" None)
     = Throws (AppErr e) /\
     code e = CONNECTION_FAILED /\
     message e = "Unsupported database type: unknown. Supported types: postgresql, mysql, sqlite, sqlserver, mongodb").
Proof.
  split.
  - apply (proj1 (createDatabaseAdapter_by_type
                    (ConnectionConfig_t.mk "postgresql" "db.example" 5432
                                           "shop" "u" "p" None))).
    simpl. tauto.
  - apply (proj2 (proj2 (createDatabaseAdapter_by_type
                    (ConnectionConfig_t.mk "unknown" "db.example" 1
                                           "shop" "u" "p" None)))).
    vm_compute. reflexivity.
Defined.

(** ** The execute route *)

Import ExecuteRoute.





(* ===================================================================== *)
(** * Further properties                                                  *)
(* ===================================================================== *)

Import JsText SqlStructure.

(** ** Trimming *)

Lemma trim_head (s : string) : holds is_space (head (trim s)) = false.
Proof.
  unfold trim, trimEnd, trimStart.
  destruct (dropWhileEnd_head is_space (dropWhile is_space s)) as [-> | ->];
    [reflexivity | apply dropWhile_head].
Qed.

Lemma trim_last (s : string) : holds is_space (last_char (trim s)) = false.
Proof. apply dropWhileEnd_last. Qed.

Lemma trim_fixed (s : string) :
  holds is_space (head s) = false ->
  holds is_space (last_char s) = false ->
  trim s = s.
Proof.
  intros Hh Hl. unfold trim, trimStart, trimEnd.
  rewrite (dropWhile_id _ _ Hh). now apply dropWhileEnd_id.
Qed.

Lemma trim_idempotent (s : string) : trim (trim s) = trim s.
Proof. apply trim_fixed; [apply trim_head | apply trim_last]. Qed.

(** ** isValidSqlStructure *)

Lemma count_open_open (s : string) :
  count_char "(" (String "(" s) = S (count_char "(" s).
Proof. reflexivity. Qed.

Lemma count_close_open (s : string) :
  count_char ")" (String "(" s) = count_char ")" s.
Proof. reflexivity. Qed.

Lemma count_close_close (s : string) :
  count_char ")" (String ")" s) = S (count_char ")" s).
Proof. reflexivity. Qed.

Lemma count_open_close (s : string) :
  count_char "(" (String ")" s) = count_char "(" s.
Proof. reflexivity. Qed.

Lemma count_other (c x : ascii) (s : string) :
  x <> c -> count_char c (String x s) = count_char c s.
Proof. intros H. apply Ascii.eqb_neq in H. simpl. now rewrite H. Qed.

Lemma prefix_of_cons (c : ascii) (s prefix rest : string) :
  String c s = prefix ++ rest ->
  prefix = "" \/ exists p, prefix = String c p /\ s = p ++ rest.
Proof.
  destruct prefix as [|x p]; [now left|].
  simpl. intros [= <- ->]. right. now exists p.
Qed.

Lemma paren_scan_step (c : ascii) (s : string) (n : Z) :
  paren_scan n (String c s) =
  let m := ((if Ascii.eqb c "(" then n + 1 else n)
            - (if Ascii.eqb c ")" then 1 else 0))%Z in
  if (m <? 0)%Z then false else paren_scan m s.
Proof.
  cbn [paren_scan]. cbv zeta.
  destruct (Ascii.eqb c "("), (Ascii.eqb c ")");
    rewrite ?Z.sub_0_r; reflexivity.
Qed.

Lemma paren_scan_spec (s : string) :
  forall n : Z,
    (0 <= n)%Z ->
    paren_scan n s = true <->
    (forall prefix rest,
       s = prefix ++ rest ->
       (Z.of_nat (count_char ")" prefix)
        <= n + Z.of_nat (count_char "(" prefix))%Z) /\
    (n + Z.of_nat (count_char "(" s) = Z.of_nat (count_char ")" s))%Z.
Proof.
  induction s as [|c s IH]; intros n Hn.
  - simpl. rewrite Z.eqb_eq. split.
    + intros ->. split; [|reflexivity].
      intros [|x p] rest E; [simpl; lia | discriminate].
    + intros [_ H]. lia.
  - rewrite paren_scan_step. cbv zeta.
    destruct (Ascii.eqb_spec c "(") as [->|Ho];
      [|destruct (Ascii.eqb_spec c ")") as [->|Hc]].
    + change (Ascii.eqb "(" ")") with false. cbv iota.
      destruct (Z.ltb_spec (n + 1 - 0) 0); [lia|].
      rewrite (IH (n + 1 - 0)%Z) by lia.
      rewrite count_open_open, count_close_open. split.
      * intros [P T]. split; [|lia].
        intros prefix rest E.
        apply prefix_of_cons in E as [-> | (p & -> & E)]; [simpl; lia|].
        specialize (P p rest E).
        rewrite count_open_open, count_close_open. lia.
      * intros [P T]. split; [|lia].
        intros p rest E. specialize (P (String "(" p) rest).
        rewrite count_open_open, count_close_open in P.
        simpl in P. rewrite E in P. specialize (P eq_refl). lia.
    + destruct (Z.ltb_spec (n - 1) 0).
      * split; [discriminate|]. intros [P _].
        specialize (P (String ")" "") s eq_refl).
        rewrite count_close_close, count_open_close in P. simpl in P. lia.
      * rewrite (IH (n - 1)%Z) by lia.
        rewrite count_close_close, count_open_close. split.
        -- intros [P T]. split; [|lia].
           intros prefix rest E.
           apply prefix_of_cons in E as [-> | (p & -> & E)]; [simpl; lia|].
           specialize (P p rest E).
           rewrite count_close_close, count_open_close. lia.
        -- intros [P T]. split; [|lia].
           intros p rest E. specialize (P (String ")" p) rest).
           rewrite count_close_close, count_open_close in P.
           simpl in P. rewrite E in P. specialize (P eq_refl). lia.
    + destruct (Z.ltb_spec (n - 0) 0); [lia|].
      rewrite (IH (n - 0)%Z) by lia.
      rewrite !(count_other _ c) by assumption. split.
      * intros [P T]. split; [|lia].
        intros prefix rest E.
        apply prefix_of_cons in E as [-> | (p & -> & E)]; [simpl; lia|].
        specialize (P p rest E).
        rewrite !(count_other _ c) by assumption. lia.
      * intros [P T]. split; [|lia].
        intros p rest E. specialize (P (String c p) rest).
        rewrite !(count_other _ c) in P by assumption.
        simpl in P. rewrite E in P. specialize (P eq_refl). lia.
Qed.

Lemma paren_scan_balanced (s : string) :
  paren_scan 0 s = true <-> balanced s.
Proof.
  rewrite (paren_scan_spec s 0) by lia. unfold balanced. split.
  - intros [P T]. split; [|lia]. intros p r E. specialize (P p r E). lia.
  - intros [P T]. split; [|lia]. intros p r E. specialize (P p r E). lia.
Qed.

Lemma match_star_stop (p : ascii -> bool) (prev : option ascii)
    (s : string) (k : option ascii -> string -> bool) :
  holds p (head s) = false -> match_star p prev s k = k prev s.
Proof.
  destruct s as [|c s]; simpl; intros H; [apply orb_false_r|].
  rewrite H. apply orb_false_r.
Qed.

Lemma lit_then_boundary (keyword : string) (prev : option ascii) (s : string) :
  keyword <> "" ->
  holds is_word (last_char keyword) = true ->
  match_at {| ignoreCase := true |} (Seq (Lit keyword) WordBoundary) prev s
           accept = true <->
  begins_with_word keyword s.
Proof.
  intros Ne Hl. cbn [match_at].
  destruct (match_lit {| ignoreCase := true |} keyword prev s)
    as [[p' s']|] eqn:E.
  - apply match_lit_spec in E as E'. destruct E' as (w & -> & Sm & ->).
    assert (Hp : holds is_word (last_char_or prev w) = true).
    { rewrite (same_ignoring_case_last keyword w prev prev Sm eq_refl).
      destruct keyword; [contradiction | exact Hl]. }
    unfold at_word_boundary, accept.
    change (is_word_opt (last_char_or prev w))
      with (holds is_word (last_char_or prev w)).
    change (is_word_opt (head s')) with (holds is_word (head s')).
    rewrite Hp. split.
    + intros H. exists w, s'. repeat split; auto.
      destruct (holds is_word (head s')); [discriminate | reflexivity].
    + intros (w2 & rest & E2 & Sm2 & Hr).
      assert (E3 : match_lit {| ignoreCase := true |} keyword prev (w ++ s')
                   = Some (last_char_or prev w2, rest)).
      { apply match_lit_spec. now exists w2. }
      rewrite E in E3. injection E3 as _ <-. now rewrite Hr.
  - split; [discriminate|].
    intros (w & rest & -> & Sm & _).
    assert (E3 : match_lit {| ignoreCase := true |} keyword prev (w ++ rest)
                 = Some (last_char_or prev w, rest)).
    { apply match_lit_spec. now exists w. }
    rewrite E in E3. discriminate.
Qed.

Lemma same_ignoring_case_begins (word w rest : string) :
  same_ignoring_case word w = true ->
  begins_with_ignoring_case word (w ++ rest) = true.
Proof.
  revert w. induction word as [|a word IH]; intros [|b w]; simpl;
    try discriminate; auto.
  intros H. apply andb_prop in H as [-> H]. now apply IH.
Qed.

Lemma leading_keyword_spec (s : string) :
  holds is_space (head s) = false ->
  test_at_start leading_keyword s = true <->
  begins_with_word "WITH" s \/ begins_with_word "SELECT" s.
Proof.
  intros Hh. unfold test_at_start, leading_keyword. cbn [source regex_flags re_i].
  cbn [match_at]. rewrite (match_star_stop _ _ _ _ Hh).
  rewrite orb_true_iff.
  pose proof (lit_then_boundary "WITH" None s) as W.
  pose proof (lit_then_boundary "SELECT" None s) as L.
  cbn [match_at] in W, L.
  rewrite W, L by (discriminate || reflexivity). reflexivity.
Qed.

(** X1: isValidSqlStructure accepts a text exactly when the text, once
    trimmed, begins with the word WITH or SELECT in any letter case, followed
    by no word character, and its parentheses are balanced: no prefix closes
    more of them than it opens and the whole text closes as many as it
    opens.  Whatever it accepts also passes the SELECT-or-WITH test of
    validateSql. *)
Theorem isValidSqlStructure_spec (sql : string) :
  (isValidSqlStructure sql = true <->
   (begins_with_word "WITH" (trim sql) \/ begins_with_word "SELECT" (trim sql))
   /\ balanced (trim sql)) /\
  (isValidSqlStructure sql = true -> select_or_with sql = true).
Proof.
  assert (I : isValidSqlStructure sql = true <->
              (begins_with_word "WITH" (trim sql) \/
               begins_with_word "SELECT" (trim sql)) /\ balanced (trim sql)).
  { unfold isValidSqlStructure.
    rewrite <- (leading_keyword_spec _ (trim_head sql)), <- paren_scan_balanced.
    destruct (test_at_start leading_keyword (trim sql)); simpl.
    - tauto.
    - split; [discriminate | intros [H _]; discriminate H]. }
  split; [exact I|].
  intros H. apply I in H as [[(w & rest & E & Sm & _) | (w & rest & E & Sm & _)] _];
    unfold select_or_with; rewrite E;
    rewrite (same_ignoring_case_begins _ _ _ Sm); [apply orb_true_r | reflexivity].
Qed.

Lemma isValidSqlStructure_spec_witness :
  select_or_with "  with t as (select 1) select * from t" = true.
Proof.
  apply (proj2 (isValidSqlStructure_spec
                  "  with t as (select 1) select * from t")).
  vm_compute. reflexivity.
Defined.

(** ** What validateSql lets through *)

Lemma startsWith_spec (p s : string) :
  startsWith p s = true <-> exists rest, s = p ++ rest.
Proof.
  revert s. induction p as [|a p IH]; intros s; simpl.
  - split; [now exists s | reflexivity].
  - destruct s as [|b s].
    + split; [discriminate | intros (rest & E); discriminate E].
    + rewrite andb_true_iff, Ascii.eqb_eq, IH. split.
      * intros [-> (rest & ->)]. now exists rest.
      * intros (rest & [= -> ->]). split; [reflexivity | now exists rest].
Qed.

Lemma includes_spec (p s : string) :
  includes p s = true <-> exists before after, s = before ++ p ++ after.
Proof.
  split.
  - induction s as [|c s IH]; simpl; intros H.
    + rewrite orb_false_r in H. apply startsWith_spec in H as (rest & E).
      now exists "", rest.
    + apply orb_prop in H as [H | H].
      * apply startsWith_spec in H as (rest & E). now exists "", rest.
      * destruct (IH H) as (before & after & ->).
        now exists (String c before), after.
  - intros (before & after & ->).
    induction before as [|c before IH]; simpl.
    + assert (S : startsWith p (p ++ after) = true)
        by (apply startsWith_spec; now exists after).
      destruct (p ++ after); simpl; rewrite S; reflexivity.
    + rewrite IH. apply orb_true_r.
Qed.








(** ** extractSql *)

Import Groq.

Lemma length_append (a b : string) :
  String.length (a ++ b) = String.length a + String.length b.
Proof. induction a as [|c a IH]; simpl; [reflexivity | now rewrite IH]. Qed.

Lemma drop_append (a b : string) : drop (String.length a) (a ++ b) = b.
Proof. induction a as [|c a IH]; simpl; [now destruct b | exact IH]. Qed.

Lemma take_append (a b : string) : take (String.length a) (a ++ b) = a.
Proof.
  induction a as [|c a IH]; simpl; [now destruct b | now rewrite IH].
Qed.

Lemma endsWith_append (a suffix : string) : endsWith suffix (a ++ suffix) = true.
Proof.
  unfold endsWith. rewrite length_append.
  replace (String.length a + String.length suffix - String.length suffix)
    with (String.length a) by lia.
  rewrite drop_append, String.eqb_refl, andb_true_r.
  apply Nat.leb_le. lia.
Qed.

Lemma slice_but_last_append (a suffix : string) :
  slice_but_last (String.length suffix) (a ++ suffix) = a.
Proof.
  unfold slice_but_last. rewrite length_append.
  replace (String.length a + String.length suffix - String.length suffix)
    with (String.length a) by lia.
  apply take_append.
Qed.

Lemma dropWhileEnd_append_one (p : ascii -> bool) (s : string) (c : ascii) :
  p c = true -> dropWhileEnd p (s ++ String c "") = dropWhileEnd p s.
Proof.
  intros Pc. induction s as [|x s IH]; simpl; [now rewrite Pc|].
  now rewrite IH.
Qed.

Lemma trimmed_head (s : string) :
  trim s = s -> holds is_space (head s) = false.
Proof. intros <-. apply trim_head. Qed.

Lemma trimmed_last (s : string) :
  trim s = s -> holds is_space (last_char s) = false.
Proof. intros <-. apply trim_last. Qed.

Lemma trim_between_newlines (body : string) :
  trim body = body -> trim (LF ++ body ++ LF) = body.
Proof.
  intros T. unfold trim, trimStart, trimEnd, LF.
  change (String (ascii_of_nat 10) "" ++ body ++ String (ascii_of_nat 10) "")
    with (String (ascii_of_nat 10) (body ++ String (ascii_of_nat 10) "")).
  cbn [dropWhile]. change (is_space (ascii_of_nat 10)) with true. cbv iota.
  destruct body as [|c body]; [reflexivity|].
  pose proof (trimmed_head _ T) as Hh. pose proof (trimmed_last _ T) as Hl.
  simpl in Hh. cbn [append dropWhile]. rewrite Hh.
  change (String c (body ++ String (ascii_of_nat 10) ""))
    with (String c body ++ String (ascii_of_nat 10) "").
  rewrite dropWhileEnd_append_one by reflexivity.
  now apply dropWhileEnd_id.
Qed.

Lemma last_char_fence (a : string) : last_char (a ++ "```") = Some "`"%char.
Proof. unfold last_char. now rewrite last_char_or_append. Qed.

(** X3: for a body that trim leaves unchanged, extractSql gives back the
    body from a reply that wraps it in a Markdown fence (three backquotes,
    with or without the tag sql, a line feed, the body, a line feed, three
    backquotes), and gives back as it is a body that neither begins nor ends
    with three backquotes. *)
Theorem extractSql_unwraps_fence (body : string) :
  trim body = body ->
  extractSql ("```sql" ++ LF ++ body ++ LF ++ "```") = body /\
  extractSql ("```" ++ LF ++ body ++ LF ++ "```") = body /\
  (startsWith "```" body = false -> endsWith "```" body = false ->
   extractSql body = body).
Proof.
  intros T. split; [|split].
  - unfold extractSql.
    assert (R : trim ("```sql" ++ LF ++ body ++ LF ++ "```")
                = "```sql" ++ LF ++ body ++ LF ++ "```").
    { apply trim_fixed; [reflexivity|].
      replace ("```sql" ++ LF ++ body ++ LF ++ "```")
        with (("```sql" ++ LF ++ body ++ LF) ++ "```")
        by (rewrite !append_assoc; reflexivity).
      now rewrite last_char_fence. }
    rewrite R.
    change (startsWith "```sql" ("```sql" ++ LF ++ body ++ LF ++ "```"))
      with true. cbv iota.
    change (slice_from 6 ("```sql" ++ LF ++ body ++ LF ++ "```"))
      with (LF ++ body ++ LF ++ "```").
    replace (LF ++ body ++ LF ++ "```") with ((LF ++ body ++ LF) ++ "```")
      by (rewrite !append_assoc; reflexivity).
    rewrite endsWith_append.
    rewrite (slice_but_last_append (LF ++ body ++ LF) "```"
             : slice_but_last 3 ((LF ++ body ++ LF) ++ "```") = _).
    now apply trim_between_newlines.
  - unfold extractSql.
    assert (R : trim ("```" ++ LF ++ body ++ LF ++ "```")
                = "```" ++ LF ++ body ++ LF ++ "```").
    { apply trim_fixed; [reflexivity|].
      replace ("```" ++ LF ++ body ++ LF ++ "```")
        with (("```" ++ LF ++ body ++ LF) ++ "```")
        by (rewrite !append_assoc; reflexivity).
      now rewrite last_char_fence. }
    rewrite R.
    change (startsWith "```sql" ("```" ++ LF ++ body ++ LF ++ "```"))
      with false.
    change (startsWith "```" ("```" ++ LF ++ body ++ LF ++ "```")) with true.
    cbv iota.
    change (slice_from 3 ("```" ++ LF ++ body ++ LF ++ "```"))
      with (LF ++ body ++ LF ++ "```").
    replace (LF ++ body ++ LF ++ "```") with ((LF ++ body ++ LF) ++ "```")
      by (rewrite !append_assoc; reflexivity).
    rewrite endsWith_append.
    rewrite (slice_but_last_append (LF ++ body ++ LF) "```"
             : slice_but_last 3 ((LF ++ body ++ LF) ++ "```") = _).
    now apply trim_between_newlines.
  - intros S E. unfold extractSql. rewrite T.
    assert (S6 : startsWith "```sql" body = false).
    { destruct (startsWith "```sql" body) eqn:X; [|reflexivity].
      apply startsWith_spec in X as (rest & ->).
      change (startsWith "```" ("```sql" ++ rest)) with true in S.
      discriminate. }
    now rewrite S6, S, E.
Qed.

Lemma extractSql_unwraps_fence_witness :
  extractSql ("```sql" ++ LF ++ "SELECT 1" ++ LF ++ "```") = "SELECT 1".
Proof.
  apply (proj1 (extractSql_unwraps_fence "SELECT 1" eq_refl)).
Defined.

(** ** finalSql *)

Lemma map_chars_append (f : ascii -> ascii) (a b : string) :
  map_chars f (a ++ b) = map_chars f a ++ map_chars f b.
Proof. induction a as [|c a IH]; simpl; [reflexivity | now rewrite IH]. Qed.

Lemma includes_append_r (p a b : string) :
  includes p b = true -> includes p (a ++ b) = true.
Proof.
  rewrite !includes_spec. intros (before & after & ->).
  exists (a ++ before), after. now rewrite append_assoc.
Qed.

Lemma substring_drop (n : nat) (s : string) :
  substring n (String.length s - n) s = drop n s.
Proof.
  revert n. induction s as [|c s IH]; intros [|n]; simpl; try reflexivity.
  - f_equal. clear IH. induction s as [|d s IH]; simpl; [reflexivity|].
    now rewrite IH.
  - apply IH.
Qed.

Lemma last_char_or_drop (n : nat) :
  forall (s : string) (p q : option ascii),
    holds is_space (last_char_or p s) = false ->
    holds is_space q = false ->
    holds is_space (last_char_or q (drop n s)) = false.
Proof.
  induction n as [|n IH]; intros s p q Hs Hq.
  - destruct s as [|c s]; simpl in *; [exact Hq | exact Hs].
  - destruct s as [|c s]; simpl in *; [exact Hq|]. now apply (IH s (Some c) q).
Qed.

Lemma head_append (a b : string) : a <> "" -> head (a ++ b) = head a.
Proof. destruct a; [contradiction | reflexivity]. Qed.

Lemma select_not_empty (t : string) :
  startsWith "select" (toLowerCase t) = true -> t <> "".
Proof. destruct t; [discriminate | discriminate]. Qed.

Lemma limit_clause :
  " LIMIT " ++ number_to_string QUERY_MAX_ROWS = " LIMIT 1000".
Proof. vm_compute. reflexivity. Qed.

Lemma top_clause :
  "SELECT TOP " ++ number_to_string QUERY_MAX_ROWS = "SELECT TOP 1000".
Proof. vm_compute. reflexivity. Qed.

Lemma limit_cases (sql : string) :
  (startsWith "select" (toLowerCase (trim sql)) = true /\
   MySQLAdapter.finalSql sql = trim sql ++ " LIMIT 1000") \/
  (startsWith "select" (toLowerCase (trim sql))
   && negb (includes "limit" (toLowerCase (trim sql))) = false /\
   MySQLAdapter.finalSql sql = trim sql).
Proof.
  unfold MySQLAdapter.finalSql. cbv zeta. rewrite limit_clause.
  destruct (startsWith "select" (toLowerCase (trim sql))
            && negb (includes "limit" (toLowerCase (trim sql)))) eqn:C.
  - left. apply andb_prop in C as [S _]. now split.
  - right. now split.
Qed.

(** The LIMIT form, shared by three adapters. *)
Lemma limit_idempotent (sql : string) :
  MySQLAdapter.finalSql (MySQLAdapter.finalSql sql) = MySQLAdapter.finalSql sql.
Proof.
  destruct (limit_cases sql) as [[S ->] | [C ->]].
  - apply select_not_empty in S.
    assert (T : trim (trim sql ++ " LIMIT 1000") = trim sql ++ " LIMIT 1000").
    { apply trim_fixed.
      - rewrite head_append by exact S. apply trim_head.
      - unfold last_char. rewrite last_char_or_append. reflexivity. }
    assert (I : includes "limit" (toLowerCase (trim sql ++ " LIMIT 1000"))
                = true).
    { unfold toLowerCase. rewrite map_chars_append.
      apply includes_append_r. reflexivity. }
    unfold MySQLAdapter.finalSql. cbv zeta.
    rewrite T, I. simpl negb. now rewrite andb_false_r.
  - unfold MySQLAdapter.finalSql. cbv zeta.
    rewrite trim_idempotent, C. reflexivity.
Qed.

Lemma top_cases (sql : string) :
  SQLServerAdapter.finalSql sql = "SELECT TOP 1000" ++ drop 6 (trim sql) \/
  (SQLServerAdapter.finalSql (trim sql) = trim sql /\
   SQLServerAdapter.finalSql sql = trim sql).
Proof.
  unfold SQLServerAdapter.finalSql. cbv zeta. rewrite trim_idempotent.
  destruct (startsWith "select" (toLowerCase (trim sql))
            && negb (includes "top " (toLowerCase (trim sql)))) eqn:C;
    [|now right].
  unfold SQLServerAdapter.replace_leading_select.
  destruct (startsWith "SELECT" (toUpperCase (substring 0 6 (trim sql))));
    [|now right].
  left. now rewrite substring_drop, top_clause.
Qed.

Lemma top_idempotent (sql : string) :
  SQLServerAdapter.finalSql (SQLServerAdapter.finalSql sql)
  = SQLServerAdapter.finalSql sql.
Proof.
  destruct (top_cases sql) as [-> | [F ->]]; [|exact F].
  assert (T : trim ("SELECT TOP 1000" ++ drop 6 (trim sql))
              = "SELECT TOP 1000" ++ drop 6 (trim sql)).
  { apply trim_fixed; [reflexivity|].
    unfold last_char. rewrite last_char_or_append.
    apply (last_char_or_drop 6 (trim sql) None); [apply trim_last|].
    reflexivity. }
  assert (I : includes "top "
                (toLowerCase ("SELECT TOP 1000" ++ drop 6 (trim sql))) = true).
  { unfold toLowerCase. rewrite map_chars_append. apply includes_spec.
    exists "select ", ("1000" ++ map_chars lower_char (drop 6 (trim sql))).
    reflexivity. }
  unfold SQLServerAdapter.finalSql. cbv zeta.
  rewrite T, I. simpl negb. now rewrite andb_false_r.
Qed.

(** X4: the row cap is added at most once: the statement that
    executeQuery hands to the driver is left unchanged by the same rewriting,
    for the LIMIT 1000 of the MySQL, PostgreSQL and SQLite adapters and for
    the TOP 1000 of the SQL Server adapter. *)
Theorem finalSql_idempotent (sql : string) :
  MySQLAdapter.finalSql (MySQLAdapter.finalSql sql) = MySQLAdapter.finalSql sql /\
  PostgresAdapter.finalSql (PostgresAdapter.finalSql sql)
  = PostgresAdapter.finalSql sql /\
  SQLiteAdapter.finalSql (SQLiteAdapter.finalSql sql) = SQLiteAdapter.finalSql sql /\
  SQLServerAdapter.finalSql (SQLServerAdapter.finalSql sql)
  = SQLServerAdapter.finalSql sql.
Proof.
  split; [|split; [|split]].
  - apply limit_idempotent.
  - exact (limit_idempotent sql).
  - exact (limit_idempotent sql).
  - apply top_idempotent.
Qed.

(** ** executeQuery: results and failures *)

Import SpecMore.

(** X5: executeQuery of a connected relational adapter changes nothing
    of the instance, the cached schema included.  When the driver answers,
    rowCount is the number of rows of the result and executionTimeMs is the
    difference of the two readings of the clock around the call.  When the
    driver rejects the statement, or SQL Server answers without a record set,
    the error thrown is the INVALID_SQL AppError made of that failure: its
    message when it is an Error, and the failure itself as originalError. *)
Theorem executeQuery_reports_faithfully (sql : string)
    (params : option (list Value)) :
  (forall server st,
     MySQLAdapter.pool (this st) <> None ->
     reports_faithfully (MySQLAdapter.executeQuery server sql params)
       (MySQLAdapter.clock server)
       (fun history => rejection (MySQLAdapter.statement server history)) st) /\
  (forall server st,
     PostgresAdapter.pool (this st) <> None ->
     reports_faithfully (PostgresAdapter.executeQuery server sql params)
       (PostgresAdapter.clock server)
       (fun history => rejection (PostgresAdapter.statement server history)) st) /\
  (forall server st,
     SQLiteAdapter.db (this st) <> None ->
     reports_faithfully (SQLiteAdapter.executeQuery server sql params)
       (SQLiteAdapter.clock server)
       (fun history => rejection (SQLiteAdapter.statement server history)) st) /\
  (forall server st,
     SQLServerAdapter.pool (this st) <> None ->
     reports_faithfully (SQLServerAdapter.executeQuery server sql params)
       (SQLServerAdapter.clock server)
       (fun history =>
          sqlserver_failure (SQLServerAdapter.statement server history)) st).
Proof.
  split; [|split; [|split]]; intros server [w n self] C; simpl in C;
    unfold reports_faithfully.
  - unfold MySQLAdapter.executeQuery. unfold_M. simpl.
    destruct (MySQLAdapter.pool self); [|contradiction]. simpl.
    destruct (MySQLAdapter.statement server _) as [[rows fields]|e] eqn:E;
      simpl; rewrite ?E; repeat split; eauto.
  - unfold PostgresAdapter.executeQuery. unfold_M. simpl.
    destruct (PostgresAdapter.pool self); [|contradiction]. simpl.
    destruct (PostgresAdapter.statement server _) as [[fields arrays]|e] eqn:E;
      simpl; rewrite ?E; repeat split; eauto.
  - unfold SQLiteAdapter.executeQuery. unfold_M. simpl.
    destruct (SQLiteAdapter.db self); [|contradiction]. simpl.
    destruct (SQLiteAdapter.statement server _) as [[rows names]|e] eqn:E;
      simpl; rewrite ?E; repeat split; eauto.
  - unfold SQLServerAdapter.executeQuery. unfold_M. simpl.
    destruct (SQLServerAdapter.pool self); [|contradiction]. simpl.
    destruct (SQLServerAdapter.statement server _) as [[rs|]|e] eqn:E;
      simpl; rewrite ?E; repeat split; eauto.
Qed.

Lemma executeQuery_reports_faithfully_witness :
  reports_faithfully
    (MySQLAdapter.executeQuery failing_server "SELECT * FROM t" None)
    (MySQLAdapter.clock failing_server)
    (fun history => rejection (MySQLAdapter.statement failing_server history))
    connected_mysql.
Proof.
  apply (proj1 (executeQuery_reports_faithfully "SELECT * FROM t" None)).
  simpl. discriminate.
Defined.

(** ** After disconnect *)

(** X6: after a disconnect that returned, a MySQL, PostgreSQL, SQLite or
    SQL Server instance holds neither pool (or database handle) nor cached
    schema; getSchema and executeQuery then throw the NO_CONNECTION error and
    a further disconnect returns, all three without sending anything to the
    server and without changing the instance. *)
Theorem disconnected_instance_is_closed :
  (forall server st st',
     MySQLAdapter.disconnect server st = (Returns tt, st') ->
     MySQLAdapter.pool (this st') = None /\
     MySQLAdapter.schema (this st') = None /\
     closed st' (MySQLAdapter.getSchema server)
            (MySQLAdapter.executeQuery server) (MySQLAdapter.disconnect server)) /\
  (forall server st st',
     PostgresAdapter.disconnect server st = (Returns tt, st') ->
     PostgresAdapter.pool (this st') = None /\
     PostgresAdapter.schema (this st') = None /\
     closed st' (PostgresAdapter.getSchema server)
            (PostgresAdapter.executeQuery server)
            (PostgresAdapter.disconnect server)) /\
  (forall server st st',
     SQLiteAdapter.disconnect server st = (Returns tt, st') ->
     SQLiteAdapter.db (this st') = None /\
     SQLiteAdapter.schema (this st') = None /\
     closed st' (SQLiteAdapter.getSchema server)
            (SQLiteAdapter.executeQuery server) (SQLiteAdapter.disconnect server)) /\
  (forall server st st',
     SQLServerAdapter.disconnect server st = (Returns tt, st') ->
     SQLServerAdapter.pool (this st') = None /\
     SQLServerAdapter.schema (this st') = None /\
     closed st' (SQLServerAdapter.getSchema server)
            (SQLServerAdapter.executeQuery server)
            (SQLServerAdapter.disconnect server)).
Proof.
  split; [|split; [|split]]; intros server [w n self] st'.
  - destruct self as [pool config schema].
    unfold MySQLAdapter.disconnect. unfold_M. simpl.
    destruct pool as [p|]; simpl.
    + destruct (MySQLAdapter.pool_end server _) as [[]|e]; [|discriminate].
      simpl. intros [= <-]. repeat split.
    + intros [= <-]. repeat split.
  - destruct self as [pool config schema].
    unfold PostgresAdapter.disconnect. unfold_M. simpl.
    destruct pool as [p|]; simpl.
    + destruct (PostgresAdapter.pool_end server _) as [[]|e]; [|discriminate].
      simpl. intros [= <-]. repeat split.
    + intros [= <-]. repeat split.
  - destruct self as [db schema].
    unfold SQLiteAdapter.disconnect. unfold_M. simpl.
    destruct db as [d|]; simpl.
    + destruct (SQLiteAdapter.close server _) as [[]|e]; [|discriminate].
      simpl. intros [= <-]. repeat split.
    + intros [= <-]. repeat split.
  - destruct self as [pool config schema].
    unfold SQLServerAdapter.disconnect. unfold_M. simpl.
    destruct pool as [p|]; simpl.
    + destruct (SQLServerAdapter.close server _) as [[]|e]; [|discriminate].
      simpl. intros [= <-]. repeat split.
    + intros [= <-]. repeat split.
Qed.

Lemma disconnected_instance_is_closed_witness :
  exists st',
    MySQLAdapter.disconnect failing_server connected_mysql = (Returns tt, st') /\
    closed st' (MySQLAdapter.getSchema failing_server)
           (MySQLAdapter.executeQuery failing_server)
           (MySQLAdapter.disconnect failing_server).
Proof.
  eexists. split; [reflexivity|].
  apply (proj1 disconnected_instance_is_closed failing_server connected_mysql).
  reflexivity.
Defined.

(** ** MySQL: connect and testConnection *)

Import SpecAdapters.

(** X7: MySQL testConnection never throws.  connect stores the
    configuration and a new pool, keeps the cached schema, and sends one
    ping; it returns when the ping is answered and otherwise throws the
    CONNECTION_FAILED error with the fixed message, whatever the driver's
    error was; either way the new pool stays on the instance. *)
Theorem MySQL_connect_outcomes (server : MySQLAdapter.Server)
    (cfg : ConnectionConfig_t.t) (st : Runtime MySQLAdapter.fields) :
  let pinged :=
    mkRuntime (wire st ++ [ReqPing])%list (next_oid st)
      (MySQLAdapter.mk (Some (MySQLAdapter.createPool cfg)) (Some cfg)
                       (MySQLAdapter.schema (this st))) in
  (exists b st', MySQLAdapter.testConnection server st = (Returns b, st')) /\
  match MySQLAdapter.select1 server (wire st ++ [ReqPing])%list with
  | Returns _ => MySQLAdapter.connect server cfg st = (Returns tt, pinged)
  | Throws _ =>
      MySQLAdapter.connect server cfg st
      = (Throws (newAppError "Failed to connect to MySQL database"
                             CONNECTION_FAILED), pinged)
  end.
Proof.
  destruct st as [w n [pool config schema]]. cbv zeta. split.
  - unfold MySQLAdapter.testConnection. unfold_M. simpl.
    destruct pool; [|now eexists _, _]. simpl.
    destruct (MySQLAdapter.select1 server _); now eexists _, _.
  - unfold MySQLAdapter.connect, MySQLAdapter.testConnection. unfold_M. simpl.
    destruct (MySQLAdapter.select1 server _) as [[]|e]; reflexivity.
Qed.

(** ** getSchema: a failing catalogue statement *)



(** ** PostgreSQL: rows as objects *)







(** ** MongoDB: a collection with documents *)



(** ** The adapter factory *)

(** X11: isDatabaseTypeSupported holds of a type exactly when
    createDatabaseAdapter, on the registry as loaded, returns an adapter for
    a configuration of that type.  After registerDatabaseAdapter, a
    configuration of the registered type gets the adapter of the registered
    factory, replacing an earlier factory of that type, and configurations
    of every other type are answered as before. *)
Theorem registered_types_are_served
    (registry : gmap string DatabaseAdapterFactory_t)
    (type : string) (factory : DatabaseAdapterFactory_t)
    (config : ConnectionConfig_t.t) :
  (isDatabaseTypeSupported (ConnectionConfig_t.type config) = true <->
   exists adapter,
     createDatabaseAdapter adapterRegistry config = Returns adapter) /\
  (ConnectionConfig_t.type config = type ->
   createDatabaseAdapter (registerDatabaseAdapter type factory registry) config
   = Returns (factory config)) /\
  (ConnectionConfig_t.type config <> type ->
   createDatabaseAdapter (registerDatabaseAdapter type factory registry) config
   = createDatabaseAdapter registry config).
Proof.
  unfold createDatabaseAdapter, registerDatabaseAdapter,
    DatabaseAdapterFactory_t in *.
  split; [|split].
  - unfold isDatabaseTypeSupported. rewrite existsb_exists. split.
    + intros (x & Hin & Hx). apply String.eqb_eq in Hx. subst x.
      lazymatch goal with
      | |- context [match ?found with _ => _ end] => destruct found eqn:E
      end.
      * eexists; reflexivity.
      * exfalso. now apply (proj1 (adapterRegistry_lookup _) E).
    + intros (adapter & Ha).
      exists (ConnectionConfig_t.type config).
      split; [|apply String.eqb_refl].
      destruct (in_dec String.string_dec (ConnectionConfig_t.type config)
                  SUPPORTED_DATABASE_TYPES) as [Hin|Hn]; [exact Hin|].
      apply (proj2 (adapterRegistry_lookup _)) in Hn.
      unfold DatabaseAdapterFactory_t in *. rewrite Hn in Ha. discriminate.
  - intros <-. now rewrite lookup_insert_eq.
  - intros N. rewrite lookup_insert_ne by congruence. reflexivity.
Qed.

Lemma registered_types_are_served_witness :
  createDatabaseAdapter
    (registerDatabaseAdapter "mariadb" (fun _ => AMySQL MySQLAdapter.new)
                             adapterRegistry)
    (ConnectionConfig_t.mk "mariadb" "db.example" 3306 "shop" "u" "p" None)
  = Returns (AMySQL MySQLAdapter.new).
Proof.
  apply (proj1 (proj2 (registered_types_are_served adapterRegistry "mariadb"
                         (fun _ => AMySQL MySQLAdapter.new)
                         (ConnectionConfig_t.mk "mariadb" "db.example" 3306
                                                "shop" "u" "p" None)))).
  reflexivity.
Defined.

(** ** The execute route: what reaches the adapter, and what is answered *)

Import ExecuteRoute.

Lemma validateSql_throws_dangerous (sql : string) (e : Thrown) :
  validateSql sql = Throws e ->
  exists details, e = AppErr details /\ code details = DANGEROUS_QUERY.
Proof.
  unfold validateSql.
  destruct (negb (startsWith "SELECT" (toUpperCase (trim sql))) &&
            negb (startsWith "WITH" (toUpperCase (trim sql)))).
  - intros [= <-]. now eexists.
  - destruct (find _ DANGEROUS_KEYWORDS).
    + intros [= <-]. now eexists.
    + destruct (find _ INJECTION_PATTERNS).
      * intros [= <-]. now eexists.
      * discriminate.
Qed.

(** X12: when the session is valid and validateSql rejects the sanitized
    statement of the request, the execute route answers status 400 with the
    code DANGEROUS_QUERY and the message of the validator's error, and
    nothing else happens: no adapter is created or invoked and the store is
    left as it was. *)
Theorem refused_sql_never_reaches_adapter {S : Type}
    (hasValidConnection : outcome bool) (parsedBody : outcome string)
    (getConnectionFromSession : outcome (option ConnectionConfig_t.t))
    (createDatabaseAdapter :
       ConnectionConfig_t.t -> outcome (DatabaseAdapter_t.t S))
    (st : Store S) (rawSql : string) :
  hasValidConnection = Returns true ->
  parsedBody = Returns rawSql ->
  validateSql (sanitizeSql rawSql) <> Returns tt ->
  exists details,
    validateSql (sanitizeSql rawSql) = Throws (AppErr details) /\
    POST hasValidConnection parsedBody getConnectionFromSession
         createDatabaseAdapter st
    = (Returns (json (Failure DANGEROUS_QUERY (message details)) 400), st).
Proof.
  intros -> -> V.
  destruct (validateSql (sanitizeSql rawSql)) as [[]|e] eqn:E; [congruence|].
  destruct (validateSql_throws_dangerous _ _ E) as (details & -> & C).
  exists details. split; [reflexivity|].
  unfold POST. unfold_M. rewrite E. simpl. rewrite C. reflexivity.
Qed.

Lemma refused_sql_never_reaches_adapter_witness :
  exists details,
    validateSql (sanitizeSql "DROP TABLE users;") = Throws (AppErr details) /\
    POST (Returns true) (Returns "DROP TABLE users;")
         (Returns (Some demo_config))
         (fun _ => Returns (MySQLAdapter.implementation failing_server))
         (mkStore [] connected_mysql)
    = (Returns (json (Failure DANGEROUS_QUERY (message details)) 400),
       mkStore [] connected_mysql).
Proof.
  apply (refused_sql_never_reaches_adapter
           (Returns true) (Returns "DROP TABLE users;")
           (Returns (Some demo_config))
           (fun _ => Returns (MySQLAdapter.implementation failing_server))
           (mkStore [] connected_mysql) "DROP TABLE users;").
  - reflexivity.
  - reflexivity.
  - vm_compute. discriminate.
Defined.

(** X13: the execute route always answers, with status 200, 400 or 401;
    401 exactly when the session reports no valid connection, 200 exactly
    when the body carries a result.  A result in the body is what
    executeQuery returned for the sanitized statement, which validateSql had
    accepted, on the adapter created for the session's configuration, after
    connect returned and before disconnect returned. *)
Theorem POST_always_answers {S : Type}
    (hasValidConnection : outcome bool) (parsedBody : outcome string)
    (getConnectionFromSession : outcome (option ConnectionConfig_t.t))
    (createDatabaseAdapter :
       ConnectionConfig_t.t -> outcome (DatabaseAdapter_t.t S))
    (st : Store S) :
  exists response final,
    POST hasValidConnection parsedBody getConnectionFromSession
         createDatabaseAdapter st
    = (Returns response, final) /\
    In (status response) [200; 400; 401] /\
    (status response = 401 <-> hasValidConnection = Returns false) /\
    (status response = 200 <-> exists data, payload response = Success data) /\
    (forall data,
       payload response = Success data ->
       exists rawSql config adapter connected queried,
         parsedBody = Returns rawSql /\
         validateSql (sanitizeSql rawSql) = Returns tt /\
         getConnectionFromSession = Returns (Some config) /\
         createDatabaseAdapter config = Returns adapter /\
         DatabaseAdapter_t.connect adapter config (adapter_store st)
         = (Returns tt, connected) /\
         DatabaseAdapter_t.executeQuery adapter (sanitizeSql rawSql) None
           connected
         = (Returns data, queried) /\
         DatabaseAdapter_t.disconnect adapter queried
         = (Returns tt, adapter_store final)).
Proof.
  assert (F : forall code message (final : Store S) response,
            response = json (Failure code message) 400 ->
            hasValidConnection <> Returns false ->
            In (status response) [200; 400; 401] /\
            (status response = 401 <-> hasValidConnection = Returns false) /\
            (status response = 200 <->
             exists data, payload response = Success data) /\
            (forall data,
               payload response = Success data ->
               exists rawSql config adapter connected queried,
                 parsedBody = Returns rawSql /\
                 validateSql (sanitizeSql rawSql) = Returns tt /\
                 getConnectionFromSession = Returns (Some config) /\
                 createDatabaseAdapter config = Returns adapter /\
                 DatabaseAdapter_t.connect adapter config (adapter_store st)
                 = (Returns tt, connected) /\
                 DatabaseAdapter_t.executeQuery adapter (sanitizeSql rawSql)
                   None connected
                 = (Returns data, queried) /\
                 DatabaseAdapter_t.disconnect adapter queried
                 = (Returns tt, adapter_store final))).
  { intros code message final response -> N. simpl.
    split; [tauto|]. split; [split; [discriminate|contradiction]|].
    split; [split; [discriminate|intros (data & D); discriminate]|].
    discriminate. }
  unfold POST, invoke. unfold_M.
  destruct hasValidConnection as [[|]|e] eqn:HV; simpl.
  - destruct parsedBody as [rawSql|e] eqn:HB; simpl;
      [|eexists _, _; split; [reflexivity|eapply F; [reflexivity|discriminate]]].
    destruct (validateSql (sanitizeSql rawSql)) as [[]|e] eqn:V; simpl;
      [|eexists _, _; split; [reflexivity|eapply F; [reflexivity|discriminate]]].
    destruct getConnectionFromSession as [[config|]|e] eqn:HC; simpl;
      try (eexists _, _; split;
           [reflexivity|eapply F; [reflexivity|discriminate]]).
    destruct (createDatabaseAdapter config) as [adapter|e] eqn:HA; simpl;
      [|eexists _, _; split; [reflexivity|eapply F; [reflexivity|discriminate]]].
    destruct (DatabaseAdapter_t.connect adapter config (adapter_store st))
      as [[[]|e] connected] eqn:K; simpl;
      [|eexists _, _; split; [reflexivity|eapply F; [reflexivity|discriminate]]].
    destruct (DatabaseAdapter_t.executeQuery adapter (sanitizeSql rawSql) None
                connected) as [[data|e] queried] eqn:Q; simpl;
      destruct (DatabaseAdapter_t.disconnect adapter queried)
        as [[[]|e'] closed] eqn:D; simpl;
      try (eexists _, _; split;
           [reflexivity|eapply F; [reflexivity|discriminate]]).
    eexists _, _. split; [reflexivity|]. simpl.
    split; [tauto|]. split; [split; discriminate|].
    split; [split; [now eexists|reflexivity]|].
    intros data' [= <-].
    exists rawSql, config, adapter, connected, queried. repeat split; assumption.
  - eexists _, _. split; [reflexivity|]. simpl.
    split; [tauto|]. split; [tauto|].
    split; [split; [discriminate|intros (data & D); discriminate]|].
    discriminate.
  - eexists _, _. split; [reflexivity|eapply F; [reflexivity|discriminate]].
Qed.

Lemma POST_always_answers_witness :
  exists response final,
    POST (Returns true) (Returns "SELECT * FROM t;")
         (Returns (Some demo_config))
         (fun _ => Returns (MySQLAdapter.implementation failing_server))
         (mkStore [] (mkRuntime [] 0 MySQLAdapter.new))
    = (Returns response, final) /\
    In (status response) [200; 400; 401].
Proof.
  destruct (POST_always_answers
              (Returns true) (Returns "SELECT * FROM t;")
              (Returns (Some demo_config))
              (fun _ => Returns (MySQLAdapter.implementation failing_server))
              (mkStore [] (mkRuntime [] 0 MySQLAdapter.new)))
    as (response & final & E & St & _).
  exists response, final. split; assumption.
Defined.

(** ** The session *)



(** ** The schema route *)

Lemma column_view_no_default (tables : list Table_t.t) :
  forall table column,
    In table (List.map Routes.table_view tables) ->
    In column (Table_t.columns table) ->
    Column_t.defaultValue column = None.
Proof.
  intros table column Ht Hc.
  apply in_map_iff in Ht as (t & <- & _). simpl in Hc.
  apply in_map_iff in Hc as (c & <- & _). reflexivity.
Qed.

(** X15: the schema route always answers and never changes the session
    cookie.  Its answer is the 401 of a missing session, the 400 of a missing
    configuration, status 200 with tables, or, for every failure of the
    session, the factory or the adapter, the same status 500 with code
    UNKNOWN and the message Failed to fetch schema.  The adapter sees no call, connect alone,
    or connect, getSchema, disconnect.  The tables of a 200 answer are those
    getSchema returned, table by table and column by column, without the
    default values of the columns. *)
Theorem schema_route_answers {S : Type} (SESSION_SECRET : option string)
    (now : Z)
    (createDatabaseAdapter :
       ConnectionConfig_t.t -> outcome (DatabaseAdapter_t.t S))
    (w : Routes.World S) :
  exists response final,
    Routes.GET SESSION_SECRET now createDatabaseAdapter w
    = (Returns response, final) /\
    Routes.cookie final = Routes.cookie w /\
    (response
     = Routes.json (Routes.Failure NO_CONNECTION
          "No active database connection. Please connect first.") 401 \/
     response
     = Routes.json (Routes.Failure NO_CONNECTION
          "Connection config not available. Please reconnect.") 400 \/
     response
     = Routes.json (Routes.Failure UNKNOWN "Failed to fetch schema") 500 \/
     exists tables, response = Routes.json (Routes.Success tables) 200) /\
    (exists invoked,
       Routes.calls final = (Routes.calls w ++ invoked)%list /\
       (invoked = [] \/
        (exists config, invoked = [Routes.CallConnect config]) \/
        (exists config,
           invoked = [Routes.CallConnect config; Routes.CallGetSchema;
                      Routes.CallDisconnect]))) /\
    (forall tables,
       Routes.payload response = Routes.Success tables ->
       exists config adapter connected schema fetched,
         Session.getConnectionFromSession SESSION_SECRET (Routes.cookie w)
         = (Returns (Some config), Routes.cookie w) /\
         createDatabaseAdapter config = Returns adapter /\
         DatabaseAdapter_t.connect adapter config (Routes.adapter_store w)
         = (Returns tt, connected) /\
         DatabaseAdapter_t.getSchema adapter connected
         = (Returns schema, fetched) /\
         DatabaseAdapter_t.disconnect adapter fetched
         = (Returns tt, Routes.adapter_store final) /\
         tables = List.map Routes.table_view (Schema_t.tables (value schema)) /\
         List.map Table_t.name tables
         = List.map Table_t.name (Schema_t.tables (value schema)) /\
         (forall table column,
            In table tables -> In column (Table_t.columns table) ->
            Column_t.defaultValue column = None)).
Proof.
  destruct w as [log store cookie].
  unfold Routes.GET, Routes.on_session, Routes.on_adapter.
  unfold Session.hasValidConnection, Session.getConnectionFromSession,
    Session.getSession.
  unfold_M. unfold get. simpl.
  destruct (Session.getSessionOptions SESSION_SECRET) as [password|e]; simpl.
  2:{ eexists _, _. split; [reflexivity|]. simpl. split; [reflexivity|].
      split; [tauto|]. split; [exists []; rewrite app_nil_r; tauto|].
      discriminate. }
  destruct cookie as [[config|] [connectedAt|]]; simpl;
    try (eexists _, _; split; [reflexivity|]; simpl; split; [reflexivity|];
         split; [tauto|]; split; [exists []; rewrite app_nil_r; tauto|];
         discriminate).
  destruct (connectedAt =? 0)%Z; simpl;
    try (eexists _, _; split; [reflexivity|]; simpl; split; [reflexivity|];
         split; [tauto|]; split; [exists []; rewrite app_nil_r; tauto|];
         discriminate).
  destruct (now - connectedAt <? Session.SESSION_TTL_SECONDS * 1000)%Z; simpl;
    try (eexists _, _; split; [reflexivity|]; simpl; split; [reflexivity|];
         split; [tauto|]; split; [exists []; rewrite app_nil_r; tauto|];
         discriminate).
  destruct (createDatabaseAdapter config) as [adapter|e] eqn:HA; simpl;
    try (eexists _, _; split; [reflexivity|]; simpl; split; [reflexivity|];
         split; [tauto|]; split; [exists []; rewrite app_nil_r; tauto|];
         discriminate).
  destruct (DatabaseAdapter_t.connect adapter config store)
    as [[[]|e] connected] eqn:K; simpl.
  2:{ eexists _, _. split; [reflexivity|]. simpl. split; [reflexivity|].
      split; [tauto|].
      split; [exists [Routes.CallConnect config]; split; eauto|].
      discriminate. }
  destruct (DatabaseAdapter_t.getSchema adapter connected)
    as [[schema|e] fetched] eqn:G; simpl;
    destruct (DatabaseAdapter_t.disconnect adapter fetched)
      as [[[]|e'] closed] eqn:D; simpl;
    (eexists _, _; split; [reflexivity|]; simpl; split; [reflexivity|];
     split; [eauto 6|];
     split; [eexists; rewrite <- !app_assoc; split; [reflexivity|]; eauto|];
     try discriminate).
  intros tables [= <-].
  exists config, adapter, connected, schema, fetched.
  repeat split; try assumption.
  - rewrite List.map_map. reflexivity.
  - apply column_view_no_default.
Qed.

Lemma schema_route_answers_witness :
  exists response final,
    Routes.GET (Some "0123456789abcdef0123456789abcdef") 1700000001000%Z
      (fun _ => Returns (MySQLAdapter.implementation failing_server))
      (Routes.mkWorld [] (mkRuntime [] 0 MySQLAdapter.new)
         (Session.mk (Some demo_config) (Some 1700000000000%Z)))
    = (Returns response, final) /\
    Routes.cookie final
    = Session.mk (Some demo_config) (Some 1700000000000%Z).
Proof.
  destruct (schema_route_answers
              (Some "0123456789abcdef0123456789abcdef") 1700000001000%Z
              (fun _ => Returns (MySQLAdapter.implementation failing_server))
              (Routes.mkWorld [] (mkRuntime [] 0 MySQLAdapter.new)
                 (Session.mk (Some demo_config) (Some 1700000000000%Z))))
    as (response & final & E & C & _).
  exists response, final. split; assumption.
Defined.

(** ** The connect route *)


Ltac connect_route_case :=
  eexists _, _; split; [reflexivity|]; simpl; rewrite <- ?app_assoc; simpl;
  split;
  [first [ left; reflexivity
         | right; eexists _, _, _, _, _; repeat split;
           first [reflexivity | eassumption] ]|];
  split;
  [let data := fresh "data" in
   let Hd := fresh "Hd" in
   intros data Hd;
   first [ discriminate Hd
         | injection Hd as <-; eexists; repeat split; reflexivity ]|];
  split;
  [let Hf := fresh "Hf" in
   intros ? ? Hf; first [reflexivity | discriminate Hf]|];
  split; intros; first [congruence | split; congruence].

(** X16: the connect route always answers, with status 200 on success
    and 400 on every failure.  The session cookie is written only after
    connect and getSchema have returned, and then holds the configuration and
    the time of the request.  When getSchema throws, the adapter has seen
    connect and getSchema but no disconnect.  When disconnect throws after
    the session was saved, the answer is the 400 of that error although the
    cookie now holds the connection. *)
Theorem connect_route_saves_after_schema {S : Type}
    (SESSION_SECRET : option string)
    (save : Session.SessionData_t -> outcome unit) (now : Z)
    (createDatabaseAdapter :
       ConnectionConfig_t.t -> outcome (DatabaseAdapter_t.t S))
    (parsedConfig : outcome ConnectionConfig_t.t)
    (w : Routes.World S) :
  exists response final,
    Routes.POST SESSION_SECRET save now createDatabaseAdapter parsedConfig w
    = (Returns response, final) /\
    (Routes.cookie final = Routes.cookie w \/
     exists config adapter connected schema fetched,
       parsedConfig = Returns config /\
       createDatabaseAdapter config = Returns adapter /\
       DatabaseAdapter_t.connect adapter config (Routes.adapter_store w)
       = (Returns tt, connected) /\
       DatabaseAdapter_t.getSchema adapter connected
       = (Returns schema, fetched) /\
       Routes.cookie final = Session.mk (Some config) (Some now)) /\
    (forall data,
       Routes.payload response = Routes.Success data ->
       exists config,
         parsedConfig = Returns config /\
         data = Routes.mkConnectResponse true
                  (ConnectionConfig_t.database config) /\
         Routes.status response = 200 /\
         Routes.cookie final = Session.mk (Some config) (Some now) /\
         Routes.calls final
         = (Routes.calls w ++ [Routes.CallConnect config; Routes.CallGetSchema;
                               Routes.CallDisconnect])%list) /\
    (forall code message,
       Routes.payload response = Routes.Failure code message ->
       Routes.status response = 400) /\
    (forall config adapter connected error unfetched,
       parsedConfig = Returns config ->
       createDatabaseAdapter config = Returns adapter ->
       DatabaseAdapter_t.connect adapter config (Routes.adapter_store w)
       = (Returns tt, connected) ->
       DatabaseAdapter_t.getSchema adapter connected
       = (Throws error, unfetched) ->
       final = Routes.mkWorld
                 (Routes.calls w ++ [Routes.CallConnect config;
                                     Routes.CallGetSchema])%list
                 unfetched (Routes.cookie w)) /\
    (forall config adapter connected schema fetched error unclosed password,
       parsedConfig = Returns config ->
       createDatabaseAdapter config = Returns adapter ->
       DatabaseAdapter_t.connect adapter config (Routes.adapter_store w)
       = (Returns tt, connected) ->
       DatabaseAdapter_t.getSchema adapter connected
       = (Returns schema, fetched) ->
       Session.getSessionOptions SESSION_SECRET = Returns password ->
       save (Session.mk (Some config) (Some now)) = Returns tt ->
       DatabaseAdapter_t.disconnect adapter fetched = (Throws error, unclosed) ->
       response
       = Routes.json (Routes.Failure (Routes.connect_error_code error)
                        (message_or "Failed to connect to database" error))
                     400 /\
       Routes.cookie final = Session.mk (Some config) (Some now)).
Proof.
  destruct w as [log store cookie].
  unfold Routes.POST, Routes.on_session, Routes.on_adapter.
  unfold Session.saveConnectionToSession, Session.getSession,
    Session.session_save.
  unfold_M. unfold get. simpl.
  destruct parsedConfig as [config|e]; simpl; [|connect_route_case].
  destruct (createDatabaseAdapter config) as [adapter|e] eqn:HA; simpl;
    [|connect_route_case].
  destruct (DatabaseAdapter_t.connect adapter config store)
    as [[[]|e] connected] eqn:K; simpl; [|connect_route_case].
  destruct (DatabaseAdapter_t.getSchema adapter connected)
    as [[schema|e] fetched] eqn:G; simpl; [|connect_route_case].
  destruct (Session.getSessionOptions SESSION_SECRET) as [password|e] eqn:O;
    simpl; [|connect_route_case].
  destruct (save (Session.mk (Some config) (Some now))) as [[]|e] eqn:Sv;
    simpl; [|connect_route_case].
  destruct (DatabaseAdapter_t.disconnect adapter fetched)
    as [[[]|e] closed] eqn:D; simpl; connect_route_case.
Qed.

Lemma connect_route_saves_after_schema_witness :
  exists response final,
    Routes.POST (Some "0123456789abcdef0123456789abcdef")
      (fun _ => Returns tt) 1700000000000%Z
      (fun _ => Returns (MySQLAdapter.implementation failing_server))
      (Returns demo_config)
      (Routes.mkWorld [] (mkRuntime [] 0 MySQLAdapter.new)
         (Session.mk None None))
    = (Returns response, final) /\
    (forall code message,
       Routes.payload response = Routes.Failure code message ->
       Routes.status response = 400).
Proof.
  destruct (connect_route_saves_after_schema
              (Some "0123456789abcdef0123456789abcdef")
              (fun _ => Returns tt) 1700000000000%Z
              (fun _ => Returns (MySQLAdapter.implementation failing_server))
              (Returns demo_config)
              (Routes.mkWorld [] (mkRuntime [] 0 MySQLAdapter.new)
                 (Session.mk None None)))
    as (response & final & E & _ & _ & F & _).
  exists response, final. split; assumption.
Defined.

(** X21: DELETE of the connect route always answers and never reaches an
    adapter.  It answers status 200 once the session is cleared, the cookie
    then holding neither connection nor time, which is what happens when the
    session secret has at least 32 characters and the cookie can be sealed;
    otherwise it answers status 500 with code UNKNOWN and the message Failed
    to disconnect, and the cookie is left as it was. *)
Theorem DELETE_clears_session {S : Type} (SESSION_SECRET : option string)
    (save : Session.SessionData_t -> outcome unit) (w : Routes.World S) :
  exists response final,
    Routes.DELETE SESSION_SECRET save w = (Returns response, final) /\
    Routes.calls final = Routes.calls w /\
    Routes.adapter_store final = Routes.adapter_store w /\
    ((response = Routes.json (Routes.Success true) 200 /\
      Routes.cookie final = Session.mk None None) \/
     (response
      = Routes.json (Routes.Failure UNKNOWN "Failed to disconnect") 500 /\
      Routes.cookie final = Routes.cookie w)) /\
    (forall password,
       Session.getSessionOptions SESSION_SECRET = Returns password ->
       save (Session.mk None None) = Returns tt ->
       response = Routes.json (Routes.Success true) 200).
Proof.
  destruct w as [log store cookie].
  unfold Routes.DELETE, Routes.on_session, Session.clearSession,
    Session.getSession, Session.session_save.
  unfold_M. unfold get. simpl.
  destruct (Session.getSessionOptions SESSION_SECRET) as [password|e]; simpl.
  - destruct (save (Session.mk None None)) as [[]|e]; simpl;
      eexists _, _; (split; [reflexivity|]); simpl;
      repeat split; auto; discriminate.
  - eexists _, _. split; [reflexivity|]. simpl.
    repeat split; auto; discriminate.
Qed.

Lemma DELETE_clears_session_witness :
  exists response final,
    Routes.DELETE (Some "0123456789abcdef0123456789abcdef")
      (fun _ => Returns tt)
      (Routes.mkWorld [] connected_mysql
         (Session.mk (Some demo_config) (Some 1700000000000%Z)))
    = (Returns response, final) /\
    response = Routes.json (Routes.Success true) 200.
Proof.
  destruct (DELETE_clears_session (Some "0123456789abcdef0123456789abcdef")
              (fun _ => Returns tt)
              (Routes.mkWorld [] connected_mysql
                 (Session.mk (Some demo_config) (Some 1700000000000%Z))))
    as (response & final & E & _ & _ & _ & Ok).
  exists response, final. split; [exact E|].
  apply (Ok "0123456789abcdef0123456789abcdef"); reflexivity.
Defined.

(** ** The rate limiter *)

Import RateLimit.

Lemma cleanup_lookup (now : Z) (l : Limiter) (clientId : string) :
  rateLimitStore (cleanupExpiredEntries now l) !! clientId
  = rateLimitStore l !! clientId
  \/ (rateLimitStore (cleanupExpiredEntries now l) !! clientId = None /\
      exists entry,
        rateLimitStore l !! clientId = Some entry /\
        (RateLimitEntry_t.resetTime entry < now)%Z).
Proof.
  unfold cleanupExpiredEntries.
  destruct (now - lastCleanup l <? CLEANUP_INTERVAL_MS)%Z; [now left|].
  simpl. rewrite map_lookup_filter.
  destruct (rateLimitStore l !! clientId) as [entry|] eqn:E; simpl;
    [|now left].
  destruct (decide (~ (RateLimitEntry_t.resetTime entry < now)%Z)) as [K|K].
  - left. now rewrite option_guard_True.
  - right. rewrite option_guard_False by exact K. split; [reflexivity|].
    exists entry. split; [reflexivity|]. simpl in K. lia.
Qed.

Lemma cleanup_live (cleanupNow now : Z) (l : Limiter) (clientId : string) :
  (cleanupNow <= now)%Z ->
  live now (rateLimitStore (cleanupExpiredEntries cleanupNow l)) clientId
  = live now (rateLimitStore l) clientId.
Proof.
  intros Le. unfold live.
  destruct (cleanup_lookup cleanupNow l clientId) as [->|(-> & entry & -> & X)];
    [reflexivity|].
  destruct (Z.ltb_spec (RateLimitEntry_t.resetTime entry) now); [reflexivity|lia].
Qed.

Lemma checkRateLimit_verdict (cleanupNow now : Z) (clientId : string)
    (maxRequests windowMs : Z) (l l' : Limiter) (result : Result.t) :
  (cleanupNow <= now)%Z ->
  checkRateLimit cleanupNow now clientId maxRequests windowMs l = (result, l') ->
  match live now (rateLimitStore l) clientId with
  | None => result = Result.mk true (maxRequests - 1) (now + windowMs)
  | Some entry =>
      if (maxRequests <=? RateLimitEntry_t.count entry)%Z
      then result = Result.mk false 0 (RateLimitEntry_t.resetTime entry)
      else result
           = Result.mk true (maxRequests - (RateLimitEntry_t.count entry + 1))
                       (RateLimitEntry_t.resetTime entry)
  end.
Proof.
  intros Le E.
  rewrite <- (cleanup_live cleanupNow now l clientId Le).
  unfold checkRateLimit in E. unfold live. cbv zeta in E.
  destruct (rateLimitStore (cleanupExpiredEntries cleanupNow l) !! clientId)
    as [entry|].
  - destruct (RateLimitEntry_t.resetTime entry <? now)%Z.
    + now injection E as <- <-.
    + destruct (maxRequests <=? RateLimitEntry_t.count entry)%Z;
        now injection E as <- <-.
  - now injection E as <- <-.
Qed.

(** X17: with a clock that does not go back between its two readings,
    checkRateLimit decides by the client's entry that has not expired at the
    second reading, whether or not the cleanup ran.  Without such an entry
    the request is allowed, with remaining maxRequests - 1, and opens a
    window of windowMs; with one that has reached maxRequests it is refused
    with remaining 0 and the entry is left as it is; otherwise it is allowed
    and counted.  The unexpired entries of other clients are untouched. *)
Theorem checkRateLimit_by_live_entry (cleanupNow now : Z) (clientId : string)
    (maxRequests windowMs : Z) (l l' : Limiter) (result : Result.t) :
  (cleanupNow <= now)%Z ->
  checkRateLimit cleanupNow now clientId maxRequests windowMs l = (result, l') ->
  match live now (rateLimitStore l) clientId with
  | None =>
      result = Result.mk true (maxRequests - 1) (now + windowMs) /\
      rateLimitStore l' !! clientId
      = Some (RateLimitEntry_t.mk 1 (now + windowMs))
  | Some entry =>
      if (maxRequests <=? RateLimitEntry_t.count entry)%Z
      then result = Result.mk false 0 (RateLimitEntry_t.resetTime entry) /\
           rateLimitStore l' !! clientId = Some entry
      else result
           = Result.mk true (maxRequests - (RateLimitEntry_t.count entry + 1))
                       (RateLimitEntry_t.resetTime entry) /\
           rateLimitStore l' !! clientId
           = Some (RateLimitEntry_t.mk (RateLimitEntry_t.count entry + 1)
                                       (RateLimitEntry_t.resetTime entry))
  end /\
  (forall other later,
     other <> clientId -> (cleanupNow <= later)%Z ->
     live later (rateLimitStore l') other
     = live later (rateLimitStore l) other).
Proof.
  intros Le E.
  pose proof (cleanup_live cleanupNow now l clientId Le) as Lv.
  assert (Others : forall other later,
            other <> clientId -> (cleanupNow <= later)%Z ->
            forall entry,
              live later
                (<[clientId := entry]>
                   (rateLimitStore (cleanupExpiredEntries cleanupNow l))) other
              = live later (rateLimitStore l) other).
  { intros other later N Ll entry. unfold live at 1.
    rewrite lookup_insert_ne by congruence.
    apply (cleanup_live cleanupNow later l other Ll). }
  unfold checkRateLimit in E. unfold live in Lv at 1. cbv zeta in E.
  destruct (rateLimitStore (cleanupExpiredEntries cleanupNow l) !! clientId)
    as [entry|] eqn:L1.
  - destruct (RateLimitEntry_t.resetTime entry <? now)%Z eqn:X.
    + rewrite <- Lv. injection E as <- <-. simpl.
      rewrite lookup_insert_eq. split; [now split|]. intros; now apply Others.
    + rewrite <- Lv.
      destruct (maxRequests <=? RateLimitEntry_t.count entry)%Z.
      * injection E as <- <-. split; [now split|].
        intros other later N Ll. now apply cleanup_live.
      * injection E as <- <-. simpl. rewrite lookup_insert_eq.
        split; [now split|]. intros; now apply Others.
  - rewrite <- Lv. injection E as <- <-. simpl. rewrite lookup_insert_eq.
    split; [now split|]. intros; now apply Others.
Qed.

Lemma checkRateLimit_by_live_entry_witness :
  Result.allowed (fst (checkRateLimit 1000 1001 "10.0.0.7" 2 60000 exhausted))
  = false.
Proof.
  destruct (checkRateLimit 1000 1001 "10.0.0.7" 2 60000 exhausted)
    as [result l'] eqn:E.
  destruct (checkRateLimit_by_live_entry 1000 1001 "10.0.0.7" 2 60000
              exhausted l' result ltac:(lia) E) as [H _].
  vm_compute in H. destruct H as [-> _]. reflexivity.
Defined.

Ltac compare_times :=
  repeat match goal with
         | |- context [(?a =? ?b)%Z] => destruct (Z.eqb_spec a b)
         | |- context [(?a <? ?b)%Z] => destruct (Z.ltb_spec a b)
         | |- context [(?a <=? ?b)%Z] => destruct (Z.leb_spec a b)
         | H : context [(?a =? ?b)%Z] |- _ => destruct (Z.eqb_spec a b)
         | H : context [(?a <? ?b)%Z] |- _ => destruct (Z.ltb_spec a b)
         | H : context [(?a <=? ?b)%Z] |- _ => destruct (Z.leb_spec a b)
         end.

Lemma cleanup_within_limit (maxRequests now : Z) (l : Limiter) :
  within_limit maxRequests l ->
  within_limit maxRequests (cleanupExpiredEntries now l).
Proof.
  intros Inv clientId entry H.
  destruct (cleanup_lookup now l clientId) as [Eq|[Eq _]]; rewrite Eq in H.
  - now apply (Inv clientId).
  - discriminate.
Qed.

Lemma checkRateLimit_within_limit (cleanupNow now : Z) (clientId : string)
    (maxRequests windowMs : Z) (l l' : Limiter) (result : Result.t) :
  (1 <= maxRequests)%Z ->
  within_limit maxRequests l ->
  checkRateLimit cleanupNow now clientId maxRequests windowMs l = (result, l') ->
  within_limit maxRequests l'.
Proof.
  intros M Inv E.
  apply (cleanup_within_limit maxRequests cleanupNow) in Inv.
  unfold checkRateLimit in E. cbv zeta in E.
  assert (Ins : forall entry,
            (1 <= RateLimitEntry_t.count entry <= maxRequests)%Z ->
            within_limit maxRequests
              (mkLimiter
                 (<[clientId := entry]>
                    (rateLimitStore (cleanupExpiredEntries cleanupNow l)))
                 (lastCleanup (cleanupExpiredEntries cleanupNow l)))).
  { intros entry C k e. simpl.
    destruct (decide (k = clientId)) as [->|N].
    - rewrite lookup_insert_eq. now intros [= <-].
    - rewrite lookup_insert_ne by congruence. apply Inv. }
  destruct (rateLimitStore (cleanupExpiredEntries cleanupNow l) !! clientId)
    as [entry|] eqn:L1.
  - pose proof (Inv _ _ L1) as B.
    destruct (RateLimitEntry_t.resetTime entry <? now)%Z.
    + injection E as <- <-. apply Ins. simpl. lia.
    + destruct (Z.leb_spec maxRequests (RateLimitEntry_t.count entry)).
      * injection E as <- <-. exact Inv.
      * injection E as <- <-. apply Ins. simpl. lia.
  - injection E as <- <-. apply Ins. simpl. lia.
Qed.

Lemma budget_nonnegative (since maxRequests windowMs : Z) (l : Limiter)
    (clientId : string) (window : Z) :
  (1 <= maxRequests)%Z ->
  within_limit maxRequests l ->
  (0 <= budget since maxRequests windowMs l clientId window)%Z.
Proof.
  intros M Inv. unfold budget. cbv zeta.
  destruct (rateLimitStore l !! clientId) as [entry|] eqn:E.
  - specialize (Inv clientId entry E). compare_times; lia.
  - compare_times; lia.
Qed.

Lemma checkRateLimit_spends_budget (since : Z) (hit : Hit)
    (maxRequests windowMs : Z) (l l' : Limiter) (result : Result.t)
    (clientId : string) (window : Z) :
  (1 <= maxRequests)%Z -> (0 <= windowMs)%Z ->
  within_limit maxRequests l ->
  (since <= cleanupAt hit)%Z -> (cleanupAt hit <= checkedAt hit)%Z ->
  checkRateLimit (cleanupAt hit) (checkedAt hit) (client hit)
                 maxRequests windowMs l = (result, l') ->
  ((if granted_in clientId window (hit, result) then 1 else 0)
   + budget (checkedAt hit) maxRequests windowMs l' clientId window
   <= budget since maxRequests windowMs l clientId window)%Z.
Proof.
  destruct hit as [who t1 t2]. simpl. intros M W Inv S1 S2 E.
  unfold granted_in. simpl.
  unfold checkRateLimit in E. cbv zeta in E.
  destruct (String.eqb_spec who clientId) as [->|N]; simpl.
  - (* the client asked about *)
    unfold budget. cbv zeta.
    destruct (cleanup_lookup t1 l clientId) as [Eq|(Eq & old & Old & X)];
      rewrite Eq in E.
    + destruct (rateLimitStore l !! clientId) as [entry|] eqn:L0.
      * specialize (Inv clientId entry L0).
        destruct (Z.ltb_spec (RateLimitEntry_t.resetTime entry) t2).
        -- injection E as <- <-. simpl. rewrite lookup_insert_eq. simpl.
           compare_times; lia.
        -- destruct (Z.leb_spec maxRequests (RateLimitEntry_t.count entry)).
           ++ injection E as <- <-. simpl. rewrite Eq.
              compare_times; lia.
           ++ injection E as <- <-. simpl. rewrite lookup_insert_eq. simpl.
              compare_times; lia.
      * injection E as <- <-. simpl. rewrite lookup_insert_eq. simpl.
        compare_times; lia.
    + rewrite Old. specialize (Inv clientId old Old).
      injection E as <- <-. simpl. rewrite lookup_insert_eq. simpl.
      compare_times; lia.
  - (* another client *)
    assert (Same : rateLimitStore l' !! clientId
                   = rateLimitStore (cleanupExpiredEntries t1 l) !! clientId).
    { destruct (rateLimitStore (cleanupExpiredEntries t1 l) !! who)
        as [entry|].
      - destruct (RateLimitEntry_t.resetTime entry <? t2)%Z.
        + injection E as <- <-. simpl. now rewrite lookup_insert_ne.
        + destruct (maxRequests <=? RateLimitEntry_t.count entry)%Z.
          * now injection E as <- <-.
          * injection E as <- <-. simpl. now rewrite lookup_insert_ne.
      - injection E as <- <-. simpl. now rewrite lookup_insert_ne. }
    unfold budget. cbv zeta. rewrite Same.
    destruct (cleanup_lookup t1 l clientId) as [Eq|(Eq & old & Old & X)];
      rewrite Eq.
    + destruct (rateLimitStore l !! clientId) as [entry|] eqn:L0.
      * specialize (Inv clientId entry L0). compare_times; lia.
      * compare_times; lia.
    + rewrite Old. specialize (Inv clientId old Old). compare_times; lia.
Qed.

Lemma serve_spends_budget (maxRequests windowMs : Z) (clientId : string)
    (window : Z) :
  (1 <= maxRequests)%Z -> (0 <= windowMs)%Z ->
  forall hits since l,
    within_limit maxRequests l ->
    ordered since hits ->
    (Z.of_nat (granted clientId window hits
                 (fst (serve maxRequests windowMs hits l)))
     <= budget since maxRequests windowMs l clientId window)%Z.
Proof.
  intros M W. induction hits as [|hit hits IH]; intros since l Inv Ord.
  - simpl. now apply budget_nonnegative.
  - destruct Ord as (S1 & S2 & Ord). simpl.
    destruct (checkRateLimit (cleanupAt hit) (checkedAt hit) (client hit)
                maxRequests windowMs l) as [result l1] eqn:E.
    pose proof (checkRateLimit_within_limit _ _ _ _ _ _ _ _ M Inv E) as Inv1.
    pose proof (checkRateLimit_spends_budget since hit maxRequests windowMs
                  l l1 result clientId window M W Inv S1 S2 E) as Step.
    specialize (IH (checkedAt hit) l1 Inv1 Ord).
    destruct (serve maxRequests windowMs hits l1) as [results l2] eqn:Sv.
    simpl in *. unfold granted in *. simpl.
    destruct (granted_in clientId window (hit, result)); simpl length; lia.
Qed.

(** X18: starting from the empty store, with a clock that never goes
    back, a limit of at least one request and a window that is not negative,
    the requests of one client that are allowed and answered with one and the
    same reset time number at most maxRequests, however the requests of
    other clients are interleaved. *)
Theorem at_most_maxRequests_per_window (maxRequests windowMs loaded : Z)
    (hits : list Hit) (clientId : string) (window : Z) :
  (1 <= maxRequests)%Z -> (0 <= windowMs)%Z ->
  ordered loaded hits ->
  (Z.of_nat (granted clientId window hits
               (fst (serve maxRequests windowMs hits (loaded_at loaded))))
   <= maxRequests)%Z.
Proof.
  intros M W Ord.
  pose proof (serve_spends_budget maxRequests windowMs clientId window M W
                hits loaded (loaded_at loaded)) as B.
  assert (Inv : within_limit maxRequests (loaded_at loaded)).
  { intros k e. unfold loaded_at. simpl. rewrite lookup_empty. discriminate. }
  specialize (B Inv Ord).
  unfold loaded_at in *. unfold budget in B. simpl in B.
  rewrite lookup_empty in B.
  destruct (window <? loaded + windowMs)%Z; lia.
Qed.

Lemma at_most_maxRequests_per_window_witness :
  (Z.of_nat (granted "10.0.0.7" 60010
               [ mkHit "10.0.0.7" 10 10; mkHit "10.0.0.7" 11 12;
                 mkHit "10.0.0.7" 13 13 ]
               (fst (serve 2 60000
                       [ mkHit "10.0.0.7" 10 10; mkHit "10.0.0.7" 11 12;
                         mkHit "10.0.0.7" 13 13 ]
                       (loaded_at 0))))
   <= 2)%Z.
Proof.
  apply (at_most_maxRequests_per_window 2 60000 0
           [ mkHit "10.0.0.7" 10 10; mkHit "10.0.0.7" 11 12;
             mkHit "10.0.0.7" 13 13 ] "10.0.0.7" 60010).
  - lia.
  - lia.
  - simpl. lia.
Defined.

(** ** The middleware *)

Import Middleware.

Lemma middleware_within_limit (cleanupNow now retryNow : Z)
    (request : NextRequest) (l : Limiter) :
  within_limit RATE_LIMIT_MAX_REQUESTS l ->
  within_limit RATE_LIMIT_MAX_REQUESTS
    (snd (middleware cleanupNow now retryNow request l)).
Proof.
  intros Inv. unfold middleware.
  destruct (negb (startsWith "/api" (pathname request))); [exact Inv|].
  unfold checkRateLimit.
  destruct (RateLimit.checkRateLimit cleanupNow now (getClientIp request)
              RATE_LIMIT_MAX_REQUESTS RATE_LIMIT_WINDOW_MS l)
    as [result l'] eqn:E.
  assert (Inv' : within_limit RATE_LIMIT_MAX_REQUESTS l').
  { eapply checkRateLimit_within_limit; [|exact Inv|exact E].
    unfold RATE_LIMIT_MAX_REQUESTS. lia. }
  destruct (negb (Result.allowed result)); exact Inv'.
Qed.

(** X19: the middleware passes a request whose path does not begin with
    /api without counting it.  With a clock that does not go back and a
    store in which no entry counts more than 60 requests, a request under
    /api is answered 429 exactly when the unexpired entry of its client
    address has reached 60 requests; when it is passed, the headers state
    the limit 60 and a remaining number between 0 and 59. *)
Theorem middleware_limits_api_requests (cleanupNow now retryNow : Z)
    (request : NextRequest) (l : Limiter) :
  (startsWith "/api" (pathname request) = false ->
   middleware cleanupNow now retryNow request l = (next [], l)) /\
  (startsWith "/api" (pathname request) = true ->
   (cleanupNow <= now)%Z ->
   within_limit RATE_LIMIT_MAX_REQUESTS l ->
   let response := fst (middleware cleanupNow now retryNow request l) in
   (passed response = false <->
    exists entry,
      live now (rateLimitStore l) (getClientIp request) = Some entry /\
      RateLimitEntry_t.count entry = 60%Z) /\
   (passed response = true ->
    exists remaining resetTime,
      (0 <= remaining <= 59)%Z /\
      response
      = next [ ("X-RateLimit-Limit", "60");
               ("X-RateLimit-Remaining", number_to_string remaining);
               ("X-RateLimit-Reset",
                number_to_string (ceil_seconds resetTime)) ])).
Proof.
  split.
  - intros P. unfold middleware. now rewrite P.
  - intros P Le Inv. cbv zeta. unfold middleware. rewrite P. simpl negb. cbv iota.
    unfold checkRateLimit.
    destruct (RateLimit.checkRateLimit cleanupNow now (getClientIp request)
                RATE_LIMIT_MAX_REQUESTS RATE_LIMIT_WINDOW_MS l)
      as [result l'] eqn:E.
    pose proof (checkRateLimit_verdict _ _ _ _ _ _ _ _ Le E) as V.
    unfold live in *.
    destruct (rateLimitStore l !! getClientIp request) as [entry|] eqn:L0.
    + specialize (Inv _ _ L0). unfold RATE_LIMIT_MAX_REQUESTS in *.
      destruct (RateLimitEntry_t.resetTime entry <? now)%Z.
      * rewrite V. simpl. split.
        -- split; [discriminate|]. intros (e & X & _). discriminate.
        -- intros _. exists 59%Z, (now + RATE_LIMIT_WINDOW_MS)%Z.
           split; [lia|reflexivity].
      * destruct (Z.leb_spec 60 (RateLimitEntry_t.count entry)).
        -- rewrite V. simpl. split.
           ++ split; [|reflexivity]. intros _. exists entry.
              split; [reflexivity|lia].
           ++ discriminate.
        -- rewrite V. simpl. split.
           ++ split; [discriminate|]. intros (e & [= <-] & X). lia.
           ++ intros _.
              exists (60 - (RateLimitEntry_t.count entry + 1))%Z,
                     (RateLimitEntry_t.resetTime entry).
              split; [|reflexivity].
              lia.
    + rewrite V. simpl. split.
      * split; [discriminate|]. intros (e & X & _). discriminate.
      * intros _. exists 59%Z, (now + RATE_LIMIT_WINDOW_MS)%Z.
        split; [unfold RATE_LIMIT_MAX_REQUESTS; lia|reflexivity].
Qed.

Lemma middleware_limits_api_requests_witness :
  exists remaining resetTime,
    (0 <= remaining <= 59)%Z /\
    fst (middleware 1000 1001 1002
           (mkRequest "/api/execute" (Some "10.0.0.7, 10.0.0.1") None None)
           (loaded_at 0))
    = next [ ("X-RateLimit-Limit", "60");
             ("X-RateLimit-Remaining", number_to_string remaining);
             ("X-RateLimit-Reset", number_to_string (ceil_seconds resetTime)) ].
Proof.
  apply (proj2 (proj2 (middleware_limits_api_requests 1000 1001 1002
                         (mkRequest "/api/execute" (Some "10.0.0.7, 10.0.0.1")
                                    None None)
                         (loaded_at 0))
                  eq_refl ltac:(lia)
                  ltac:(intros k e; unfold loaded_at; simpl;
                        rewrite lookup_empty; discriminate))).
  vm_compute. reflexivity.
Defined.

(** ** One bucket per claimed address *)

Lemma checkRateLimit_others (cleanupNow now : Z) (clientId other : string)
    (maxRequests windowMs : Z) (l : Limiter) :
  other <> clientId ->
  rateLimitStore l !! other = None ->
  rateLimitStore
    (snd (RateLimit.checkRateLimit cleanupNow now clientId maxRequests
            windowMs l)) !! other
  = None.
Proof.
  intros N L0.
  assert (L1 : rateLimitStore (cleanupExpiredEntries cleanupNow l) !! other
               = None).
  { destruct (cleanup_lookup cleanupNow l other) as [->|[-> _]];
      [exact L0|reflexivity]. }
  unfold RateLimit.checkRateLimit. cbv zeta.
  destruct (rateLimitStore (cleanupExpiredEntries cleanupNow l) !! clientId)
    as [entry|].
  - destruct (RateLimitEntry_t.resetTime entry <? now)%Z; simpl.
    + now rewrite lookup_insert_ne.
    + destruct (maxRequests <=? RateLimitEntry_t.count entry)%Z; simpl.
      * exact L1.
      * now rewrite lookup_insert_ne.
  - simpl. now rewrite lookup_insert_ne.
Qed.

Lemma checkRateLimit_first (cleanupNow now : Z) (clientId : string)
    (maxRequests windowMs : Z) (l : Limiter) :
  rateLimitStore l !! clientId = None ->
  Result.allowed
    (fst (RateLimit.checkRateLimit cleanupNow now clientId maxRequests
            windowMs l))
  = true.
Proof.
  intros L0.
  unfold RateLimit.checkRateLimit. cbv zeta.
  destruct (cleanup_lookup cleanupNow l clientId) as [->|[-> _]];
    [rewrite L0|]; reflexivity.
Qed.

Lemma handle_fresh_addresses (arrivals : list Arrival) :
  forall l,
    NoDup (List.map (fun arrival => getClientIp (request arrival)) arrivals) ->
    (forall arrival,
       In arrival arrivals ->
       rateLimitStore l !! getClientIp (request arrival) = None) ->
    forallb passed (fst (handle arrivals l)) = true.
Proof.
  induction arrivals as [|arrival arrivals IH]; intros l D Free; [reflexivity|].
  simpl in D. apply NoDup_cons in D as [Fresh D]. simpl.
  destruct (middleware (cleanupAt arrival) (checkedAt arrival)
              (retryAt arrival) (request arrival) l) as [response l1] eqn:E.
  assert (P : passed response = true /\
              forall other,
                other <> getClientIp (request arrival) ->
                rateLimitStore l !! other = None ->
                rateLimitStore l1 !! other = None).
  { unfold middleware in E.
    destruct (negb (startsWith "/api" (pathname (request arrival)))).
    - injection E as <- <-. now split.
    - unfold checkRateLimit in E.
      pose proof (checkRateLimit_first (cleanupAt arrival) (checkedAt arrival)
                    (getClientIp (request arrival)) RATE_LIMIT_MAX_REQUESTS
                    RATE_LIMIT_WINDOW_MS l
                    (Free arrival (or_introl eq_refl))) as A.
      pose proof (fun other N L0 =>
                    checkRateLimit_others (cleanupAt arrival)
                      (checkedAt arrival) (getClientIp (request arrival))
                      other RATE_LIMIT_MAX_REQUESTS RATE_LIMIT_WINDOW_MS l
                      N L0) as O.
      destruct (RateLimit.checkRateLimit (cleanupAt arrival)
                  (checkedAt arrival) (getClientIp (request arrival))
                  RATE_LIMIT_MAX_REQUESTS RATE_LIMIT_WINDOW_MS l)
        as [result l'].
      simpl in A, O. rewrite A in E. simpl in E.
      injection E as <- <-. now split. }
  destruct P as [P Others].
  specialize (IH l1 D).
  destruct (handle arrivals l1) as [responses l2]. simpl in *.
  rewrite P. simpl. apply IH.
  intros later Hin. apply Others.
  - intros Eq. apply Fresh. rewrite <- Eq.
    apply list_elem_of_In, in_map_iff. now exists later.
  - apply Free. now right.
Qed.

(** X20: the limit is per claimed address: requests whose client
    addresses, as getClientIp reads them, are pairwise different are all
    passed, whatever their number and timing; and with a non-empty
    X-Forwarded-For header that address is the trimmed first entry of the
    header, which the sender chooses. *)
Theorem fresh_addresses_are_never_refused (arrivals : list Arrival)
    (loaded : Z) :
  NoDup (List.map (fun arrival => getClientIp (request arrival)) arrivals) ->
  forallb passed (fst (handle arrivals (loaded_at loaded))) = true /\
  (forall arrival forwarded,
     In arrival arrivals ->
     x_forwarded_for (request arrival) = Some forwarded ->
     forwarded <> EmptyString ->
     getClientIp (request arrival) = trim (first_of_list forwarded)).
Proof.
  intros D. split.
  - apply handle_fresh_addresses; [exact D|].
    intros arrival _. apply lookup_empty.
  - intros arrival forwarded _ F N. unfold getClientIp. rewrite F.
    destruct forwarded; [contradiction|reflexivity].
Qed.

Lemma fresh_addresses_are_never_refused_witness :
  forallb passed
    (fst (handle
            [ mkArrival (mkRequest "/api/execute" (Some "10.0.0.7") None None)
                        10 10 10;
              mkArrival (mkRequest "/api/execute" (Some "10.0.0.8") None None)
                        11 11 11 ]
            (loaded_at 0)))
  = true.
Proof.
  apply (fresh_addresses_are_never_refused
           [ mkArrival (mkRequest "/api/execute" (Some "10.0.0.7") None None)
                       10 10 10;
             mkArrival (mkRequest "/api/execute" (Some "10.0.0.8") None None)
                       11 11 11 ] 0).
  apply (bool_decide_unpack _). vm_compute. exact I.
Defined.

(** ** Connecting: PostgreSQL, SQLite, SQL Server *)

(** X22: connect of the PostgreSQL, SQLite and SQL Server adapters throws
    nothing but AppErrors of code CONNECTION_FAILED.  When it returns, the
    instance holds a pool (or database handle) and the one ping it sent was
    answered.  When the ping is refused the message is the fixed one of the
    adapter and the handle just made stays on the instance.  When SQLite
    cannot open the file, or SQL Server's driver cannot connect, nothing is
    sent, no new handle is set, and the message is that of the driver's error
    when it is an Error. *)
Theorem connect_throws_only_CONNECTION_FAILED (cfg : ConnectionConfig_t.t) :
  (forall server st,
     let pinged :=
       mkRuntime (wire st ++ [ReqPing])%list (next_oid st)
         (PostgresAdapter.mk (Some (PostgresAdapter.newPool cfg)) (Some cfg)
                             (PostgresAdapter.schema (this st))) in
     match PostgresAdapter.select1 server (wire st ++ [ReqPing])%list with
     | Returns _ =>
         PostgresConnecting.connect server cfg st = (Returns tt, pinged)
     | Throws _ =>
         PostgresConnecting.connect server cfg st
         = (Throws (newAppError "Failed to connect to PostgreSQL database"
                                CONNECTION_FAILED), pinged)
     end) /\
  (forall server open_database st,
     let filePath :=
       match ConnectionConfig_t.database cfg with
       | EmptyString => ":memory:"
       | database => database
       end in
     let pinged :=
       mkRuntime (wire st ++ [ReqPing])%list (next_oid st)
         (SQLiteAdapter.mk (Some (SQLiteAdapter.openDatabase filePath))
                           (SQLiteAdapter.schema (this st))) in
     match open_database filePath with
     | Throws cause =>
         SQLiteConnecting.connect server open_database cfg st
         = (Throws (newAppError
                      (message_or "Failed to open SQLite database" cause)
                      CONNECTION_FAILED), st)
     | Returns _ =>
         match SQLiteAdapter.select1 server (wire st ++ [ReqPing])%list with
         | Returns _ =>
             SQLiteConnecting.connect server open_database cfg st
             = (Returns tt, pinged)
         | Throws _ =>
             SQLiteConnecting.connect server open_database cfg st
             = (Throws (newAppError "Failed to connect to SQLite database"
                                    CONNECTION_FAILED), pinged)
         end
     end) /\
  (forall server sql_connect st,
     let configured :=
       mkRuntime (wire st) (next_oid st)
         (SQLServerAdapter.mk (SQLServerAdapter.pool (this st)) (Some cfg)
                              (SQLServerAdapter.schema (this st))) in
     let pinged :=
       mkRuntime (wire st ++ [ReqPing])%list (next_oid st)
         (SQLServerAdapter.mk (Some (SQLServerAdapter.sqlConnect cfg))
                              (Some cfg)
                              (SQLServerAdapter.schema (this st))) in
     match sql_connect cfg with
     | Throws cause =>
         SQLServerConnecting.connect server sql_connect cfg st
         = (Throws (newAppError
                      (message_or "Failed to connect to SQL Server" cause)
                      CONNECTION_FAILED), configured)
     | Returns _ =>
         match SQLServerAdapter.select1 server (wire st ++ [ReqPing])%list with
         | Returns _ =>
             SQLServerConnecting.connect server sql_connect cfg st
             = (Returns tt, pinged)
         | Throws _ =>
             SQLServerConnecting.connect server sql_connect cfg st
             = (Throws (newAppError "Failed to connect to SQL Server database"
                                    CONNECTION_FAILED), pinged)
         end
     end) /\
  (forall e,
     (forall server st st',
        PostgresConnecting.connect server cfg st = (Throws e, st') ->
        exists text, e = newAppError text CONNECTION_FAILED) /\
     (forall server open_database st st',
        SQLiteConnecting.connect server open_database cfg st = (Throws e, st') ->
        exists text, e = newAppError text CONNECTION_FAILED) /\
     (forall server sql_connect st st',
        SQLServerConnecting.connect server sql_connect cfg st
        = (Throws e, st') ->
        exists text, e = newAppError text CONNECTION_FAILED)).
Proof.
  assert (P : forall server st,
            let pinged :=
              mkRuntime (wire st ++ [ReqPing])%list (next_oid st)
                (PostgresAdapter.mk (Some (PostgresAdapter.newPool cfg))
                   (Some cfg) (PostgresAdapter.schema (this st))) in
            match PostgresAdapter.select1 server (wire st ++ [ReqPing])%list with
            | Returns _ =>
                PostgresConnecting.connect server cfg st = (Returns tt, pinged)
            | Throws _ =>
                PostgresConnecting.connect server cfg st
                = (Throws (newAppError
                             "Failed to connect to PostgreSQL database"
                             CONNECTION_FAILED), pinged)
            end).
  { intros server [w n [pool config schema]]. cbv zeta.
    unfold PostgresConnecting.connect, PostgresConnecting.testConnection.
    unfold_M. simpl.
    destruct (PostgresAdapter.select1 server _) as [[]|e]; reflexivity. }
  assert (L : forall server open_database st,
            let filePath :=
              match ConnectionConfig_t.database cfg with
              | EmptyString => ":memory:"
              | database => database
              end in
            let pinged :=
              mkRuntime (wire st ++ [ReqPing])%list (next_oid st)
                (SQLiteAdapter.mk (Some (SQLiteAdapter.openDatabase filePath))
                                  (SQLiteAdapter.schema (this st))) in
            match open_database filePath with
            | Throws cause =>
                SQLiteConnecting.connect server open_database cfg st
                = (Throws (newAppError
                             (message_or "Failed to open SQLite database" cause)
                             CONNECTION_FAILED), st)
            | Returns _ =>
                match SQLiteAdapter.select1 server (wire st ++ [ReqPing])%list
                with
                | Returns _ =>
                    SQLiteConnecting.connect server open_database cfg st
                    = (Returns tt, pinged)
                | Throws _ =>
                    SQLiteConnecting.connect server open_database cfg st
                    = (Throws (newAppError
                                 "Failed to connect to SQLite database"
                                 CONNECTION_FAILED), pinged)
                end
            end).
  { intros server open_database [w n [db schema]]. cbv zeta.
    unfold SQLiteConnecting.connect, SQLiteConnecting.testConnection.
    unfold_M. simpl.
    destruct (open_database _) as [[]|cause]; simpl; [|reflexivity].
    destruct (SQLiteAdapter.select1 server _) as [[]|e]; reflexivity. }
  assert (Q : forall server sql_connect st,
            let configured :=
              mkRuntime (wire st) (next_oid st)
                (SQLServerAdapter.mk (SQLServerAdapter.pool (this st))
                   (Some cfg) (SQLServerAdapter.schema (this st))) in
            let pinged :=
              mkRuntime (wire st ++ [ReqPing])%list (next_oid st)
                (SQLServerAdapter.mk (Some (SQLServerAdapter.sqlConnect cfg))
                   (Some cfg) (SQLServerAdapter.schema (this st))) in
            match sql_connect cfg with
            | Throws cause =>
                SQLServerConnecting.connect server sql_connect cfg st
                = (Throws (newAppError
                             (message_or "Failed to connect to SQL Server"
                                         cause)
                             CONNECTION_FAILED), configured)
            | Returns _ =>
                match SQLServerAdapter.select1 server
                        (wire st ++ [ReqPing])%list with
                | Returns _ =>
                    SQLServerConnecting.connect server sql_connect cfg st
                    = (Returns tt, pinged)
                | Throws _ =>
                    SQLServerConnecting.connect server sql_connect cfg st
                    = (Throws (newAppError
                                 "Failed to connect to SQL Server database"
                                 CONNECTION_FAILED), pinged)
                end
            end).
  { intros server sql_connect [w n [pool config schema]]. cbv zeta.
    unfold SQLServerConnecting.connect, SQLServerConnecting.testConnection.
    unfold_M. simpl.
    destruct (sql_connect cfg) as [[]|cause]; simpl; [|reflexivity].
    destruct (SQLServerAdapter.select1 server _) as [[]|e]; reflexivity. }
  split; [exact P|]. split; [exact L|]. split; [exact Q|].
  intros e. split; [|split].
  - intros server st st' E. specialize (P server st). cbv zeta in P.
    destruct (PostgresAdapter.select1 server _); rewrite P in E;
      [discriminate|]. injection E as <- _. now eexists.
  - intros server open_database st st' E.
    specialize (L server open_database st). cbv zeta in L.
    destruct (open_database _).
    + destruct (SQLiteAdapter.select1 server _); rewrite L in E;
        [discriminate|]. injection E as <- _. now eexists.
    + rewrite L in E. injection E as <- _. now eexists.
  - intros server sql_connect st st' E.
    specialize (Q server sql_connect st). cbv zeta in Q.
    destruct (sql_connect cfg).
    + destruct (SQLServerAdapter.select1 server _); rewrite Q in E;
        [discriminate|]. injection E as <- _. now eexists.
    + rewrite Q in E. injection E as <- _. now eexists.
Qed.
